(** * Markter: the sold-listings fetch orchestrator of [markter.py]

    A shallow embedding of the rate limiter, the SQLite cache, the SerpApi
    client and [fetch_ebay_sold], followed by the theorems that settle the
    properties stated for them.

    Conventions of the embedding.
    - A Python [str] is the list of its code points ([pystr]); a literal of
      the source is written [str "..."].
    - The JSON-like objects the program passes around (None, bool, int,
      float, str, list, dict) are the type [value]; a dict is an association
      list in insertion order.
    - A Python float is an exact rational ([Q]): clock readings and prices
      are never rounded here.
    - An exception is a [Raise e]; the HTTP error of FastAPI is
      [HTTPException status detail], every other exception is a [PyError]
      that carries its class name.
    - Module-level state ([_last_call_ts], [_day_key], [_day_calls], the
      [cache] table) is passed explicitly; what a call reads from outside
      (the clock, the local date, the answers of the remote API) is an
      argument of the call.
    - The cache operations are first given for text that UTF-8 encodes;
      [_cache_key_strict], [_cache_set_strict] and [fetch_ebay_sold_strict]
      further down add the UnicodeEncodeError of a str with a surrogate. *)

From Stdlib Require Import ZArith QArith Qround Lqa String Ascii List.
From stdpp Require Import base decidable option list strings gmap.

Local Open Scope Z_scope.

(** ** Python values *)

Definition pystr := list N.

(** A literal of the source, as code points (ASCII literals only). *)
Definition str (s : string) : pystr :=
  (fun a => N_of_ascii a) <$> list_ascii_of_string s.

#[warnings="-register-all"]
Inductive value :=
| VNone
| VBool (b : bool)
| VInt (z : Z)
| VFloat (q : Q)
| VStr (s : pystr)
| VList (l : list value)
| VDict (d : list (pystr * value)).

Inductive exn :=
| HTTPException (status_code : Z) (detail : value)
| PyError (name : string).

Inductive result (A : Type) :=
| Ok (a : A)
| Raise (e : exn).
Arguments Ok {A} a.
Arguments Raise {A} e.

Definition bind {A B} (m : result A) (f : A -> result B) : result B :=
  match m with
  | Ok a => f a
  | Raise e => Raise e
  end.

Notation "'let*' x ':=' m 'in' k" := (bind m (fun x => k))
  (at level 10, x name, m at level 100, k at level 200).

(** [bool(v)]: Python's truth value. *)
Definition truthy (v : value) : bool :=
  match v with
  | VNone => false
  | VBool b => b
  | VInt z => negb (z =? 0)
  | VFloat q => negb (Qeq_bool q 0)
  | VStr s => negb (bool_decide (s = []))
  | VList l => match l with [] => false | _ => true end
  | VDict d => match d with [] => false | _ => true end
  end.

(** [a or b] where [b] is already evaluated (no effect in [b]). *)
Definition py_or (a b : value) : value := if truthy a then a else b.

(** [m] raises no [HTTPException]. *)
Definition plain {A} (m : result A) : Prop :=
  forall status detail, m ≠ Raise (HTTPException status detail).

(** ** Dicts: association lists in insertion order, one binding per key *)

Fixpoint dict_get (k : pystr) (d : list (pystr * value)) : option value :=
  match d with
  | [] => None
  | (k', v) :: d' => if decide (k = k') then Some v else dict_get k d'
  end.

(** [d[k] = v]: replaces the binding in place, or appends a new one. *)
Fixpoint dict_set (k : pystr) (v : value) (d : list (pystr * value))
  : list (pystr * value) :=
  match d with
  | [] => [(k, v)]
  | (k', v') :: d' =>
      if decide (k = k') then (k, v) :: d' else (k', v') :: dict_set k v d'
  end.

(** [d.update(u)], also [d | u] on a fresh copy of [d]. *)
Definition dict_update (d u : list (pystr * value)) : list (pystr * value) :=
  fold_left (fun acc kv => dict_set kv.1 kv.2 acc) u d.

(** [v.get(k, default)]: an AttributeError on anything but a dict. *)
Definition py_get (v : value) (k : pystr) (dflt : value) : result value :=
  match v with
  | VDict d => Ok (default dflt (dict_get k d))
  | _ => Raise (PyError "AttributeError")
  end.

(** ** Numbers *)

(** [int(x)] of a float: truncation towards zero. *)
Definition py_int (x : Q) : Z := Z.quot (Qnum x) (Z.pos (Qden x)).

(** [max(a, b)]: the first argument unless the second is greater. *)
Definition py_max (a b : Q) : Q := if Qlt_le_dec a b then b else a.

(** ** Settings *)

Definition TTL_SECONDS_DEFAULT : Z := 6 * 60 * 60.
Definition TTL_SECONDS_FALLBACK : Z := 24 * 60 * 60.
Definition MIN_SECONDS_BETWEEN_CALLS : Z := 2.
Definition MAX_CALLS_PER_DAY : Z := 200.

(** ** The global limiter *)

Record LimiterState := {
  _last_call_ts : Q;
  _day_key : option pystr;
  _day_calls : Z;
}.

(** The module's initial values. *)
Definition limiter_init : LimiterState :=
  {| _last_call_ts := 0; _day_key := None; _day_calls := 0 |}.

(** The first statement under the lock: a changed local date resets the
    counters. *)
Definition day_reset (tk : pystr) (s : LimiterState) : LimiterState :=
  if decide (_day_key s = Some tk) then s
  else {| _last_call_ts := 0; _day_key := Some tk; _day_calls := 0 |}.

(** [wait_needed], computed on the state after the reset. *)
Definition wait_needed (now : Q) (s : LimiterState) : Q :=
  py_max 0 (inject_Z MIN_SECONDS_BETWEEN_CALLS - (now - _last_call_ts s)).

(** [_limiter_allow()]: [now] is what [time.time()] returns and [tk] what
    [_today_key_local()] returns during the call. The body runs under
    [_limiter_lock], so it is one step on the state. *)
Definition _limiter_allow (now : Q) (tk : pystr) (s : LimiterState)
  : (bool * value) * LimiterState :=
  let s := day_reset tk s in
  let wait := wait_needed now s in
  if decide (MAX_CALLS_PER_DAY <= _day_calls s) then
    ((false, VDict [(str "reason", VStr (str "daily_cap"));
                    (str "day_calls", VInt (_day_calls s));
                    (str "day_cap", VInt MAX_CALLS_PER_DAY)]), s)
  else if Qlt_le_dec 0 wait then
    ((false, VDict [(str "reason", VStr (str "min_interval"));
                    (str "retry_after_seconds", VInt (py_int wait + 1))]), s)
  else
    let s' := {| _last_call_ts := now;
                 _day_key := _day_key s;
                 _day_calls := _day_calls s + 1 |} in
    ((true, VDict [(str "day_calls", VInt (_day_calls s'));
                   (str "day_cap", VInt MAX_CALLS_PER_DAY)]), s').

(** Calls two seconds apart on one local date, the first at second 2. *)
Definition spaced_calls (tk : pystr) (n : nat) : list (Q * pystr) :=
  (fun i => (inject_Z (2 * Z.of_nat i), tk)) <$> seq 1 n.

(** A series of [_limiter_allow()] calls, each with its clock reading and
    local date: the answers in order and the state left. *)
Fixpoint limiter_run (calls : list (Q * pystr)) (s : LimiterState)
  : list (bool * value) * LimiterState :=
  match calls with
  | [] => ([], s)
  | (now, tk) :: calls' =>
      let r := _limiter_allow now tk s in
      let rest := limiter_run calls' r.2 in
      (r.1 :: rest.1, rest.2)
  end.

(** The state [_limiter_allow] decides on when the local date has
    changed. *)
Definition fresh_day (tk : pystr) : LimiterState :=
  {| _last_call_ts := 0; _day_key := Some tk; _day_calls := 0 |}.

(** How many of the answers are [True, ...]. *)
Definition allowed_count (answers : list (bool * value)) : nat :=
  length (filter (fun a => a.1 = true) answers).

(** The detail dict of a denial for the daily cap. *)
Definition daily_cap_detail (day_calls : Z) : value :=
  VDict [(str "reason", VStr (str "daily_cap"));
         (str "day_calls", VInt day_calls);
         (str "day_cap", VInt MAX_CALLS_PER_DAY)].

(** The detail dict of a denial for the minimum interval. *)
Definition min_interval_detail (retry_after_seconds : Z) : value :=
  VDict [(str "reason", VStr (str "min_interval"));
         (str "retry_after_seconds", VInt retry_after_seconds)].

(** The dict returned with a permission. *)
Definition allowed_detail (day_calls : Z) : value :=
  VDict [(str "day_calls", VInt day_calls);
         (str "day_cap", VInt MAX_CALLS_PER_DAY)].

(** ** Text *)

(** [needle in hay] on two strs. *)
Fixpoint is_prefix (p s : pystr) : bool :=
  match p, s with
  | [], _ => true
  | a :: p', b :: s' => (a =? b)%N && is_prefix p' s'
  | _ :: _, [] => false
  end.

Fixpoint substring (needle hay : pystr) : bool :=
  is_prefix needle hay ||
  match hay with
  | [] => false
  | _ :: hay' => substring needle hay'
  end.

(** [s.upper()]. Exact on ASCII; other code points are left as they are.
    The program only compares the result with ["EUR"] or searches ["EUR"] in
    it, and no code point outside [a-z] has an upper-case form that
    contains E, U or R, so both tests come out as in Python. *)
Definition upper_char (c : N) : N :=
  if ((97 <=? c) && (c <=? 122))%N then (c - 32)%N else c.

Definition upper (s : pystr) : pystr := upper_char <$> s.

(** [l[:n]] for an int [n]: a negative [n] counts from the end. *)
Definition slice_to {A} (l : list A) (n : Z) : list A :=
  if decide (0 <= n) then take (Z.to_nat n) l
  else take (Z.to_nat (Z.of_nat (length l) + n)) l.

(** [str(n)] of an int, as [f"{n}"] renders it. *)
Fixpoint digits_of (fuel : nat) (n : Z) (acc : pystr) : pystr :=
  match fuel with
  | O => acc
  | S fuel' =>
      let acc' := (48 + Z.to_N (n mod 10))%N :: acc in
      if decide (n < 10) then acc' else digits_of fuel' (n / 10) acc'
  end.

Definition str_of_int (n : Z) : pystr :=
  if decide (0 <= n) then digits_of (S (Z.to_nat n)) n []
  else 45%N :: digits_of (S (Z.to_nat (- n))) (- n) [].

(** The number a run of decimal digits spells, read after [acc]. *)
Definition digits_value (ds : pystr) (acc : Z) : Z :=
  fold_left (fun a c => 10 * a + (Z.of_N c - 48)) ds acc.

(** [s.encode("utf-8")], bytes as numbers below 256, for the code points
    UTF-8 encodes: on a surrogate (U+D800 to U+DFFF) Python raises
    UnicodeEncodeError, which [_cache_key_strict] below has. *)
Definition utf8_char (c : N) : list Z :=
  let c := Z.of_N c in
  if decide (c < 128) then [c]
  else if decide (c < 2048) then
    [Z.lor 192 (Z.shiftr c 6); Z.lor 128 (Z.land c 63)]
  else if decide (c < 65536) then
    [Z.lor 224 (Z.shiftr c 12); Z.lor 128 (Z.land (Z.shiftr c 6) 63);
     Z.lor 128 (Z.land c 63)]
  else
    [Z.lor 240 (Z.shiftr c 18); Z.lor 128 (Z.land (Z.shiftr c 12) 63);
     Z.lor 128 (Z.land (Z.shiftr c 6) 63); Z.lor 128 (Z.land c 63)].

Definition utf8 (s : pystr) : list Z := s ≫= utf8_char.

(** ** SHA-256 ([hashlib.sha256(...).hexdigest()], FIPS 180-4) *)

Module SHA256.

Definition w32 (x : Z) : Z := x mod 2 ^ 32.
Definition add32 (x y : Z) : Z := w32 (x + y).
Definition rotr (n x : Z) : Z :=
  Z.lor (Z.shiftr x n) (w32 (Z.shiftl x (32 - n))).

Definition Ch (x y z : Z) : Z :=
  Z.lxor (Z.land x y) (Z.land (w32 (Z.lnot x)) z).
Definition Maj (x y z : Z) : Z :=
  Z.lxor (Z.lxor (Z.land x y) (Z.land x z)) (Z.land y z).
Definition Sigma0 (x : Z) : Z :=
  Z.lxor (Z.lxor (rotr 2 x) (rotr 13 x)) (rotr 22 x).
Definition Sigma1 (x : Z) : Z :=
  Z.lxor (Z.lxor (rotr 6 x) (rotr 11 x)) (rotr 25 x).
Definition sigma0 (x : Z) : Z :=
  Z.lxor (Z.lxor (rotr 7 x) (rotr 18 x)) (Z.shiftr x 3).
Definition sigma1 (x : Z) : Z :=
  Z.lxor (Z.lxor (rotr 17 x) (rotr 19 x)) (Z.shiftr x 10).

(** The constants, as the standard defines them: the first 32 bits of the
    fractional parts of the cube roots of the first 64 primes, and of the
    square roots of the first 8. *)
Definition is_prime (n : nat) : bool :=
  forallb (fun d => negb (n mod d =? 0)%nat) (seq 2 (n - 2)).

Definition primes (count : nat) : list Z :=
  Z.of_nat <$> take count (List.filter is_prime (seq 2 400)).

(** The integer cube root, bit by bit from bit [bits - 1] down. *)
Fixpoint cube_root (bits : nat) (n r : Z) : Z :=
  match bits with
  | O => r
  | S b =>
      let c := r + 2 ^ Z.of_nat b in
      if c * c * c <=? n then cube_root b n c else cube_root b n r
  end.

Definition K : list Z :=
  Eval vm_compute in
    (fun p => w32 (cube_root 40 (p * 2 ^ 96) 0)) <$> primes 64.

Definition H0 : list Z :=
  Eval vm_compute in (fun p => w32 (Z.sqrt (p * 2 ^ 64))) <$> primes 8.

(** Big-endian bytes of [x], [n] of them. *)
Fixpoint be_bytes (n : nat) (x : Z) : list Z :=
  match n with
  | O => []
  | S n' => be_bytes n' (Z.shiftr x 8) ++ [Z.land x 255]
  end.

Definition pad (msg : list Z) : list Z :=
  let len := Z.of_nat (length msg) in
  let zeros := Z.to_nat ((55 - len) mod 64) in
  msg ++ [128] ++ replicate zeros 0 ++ be_bytes 8 (8 * len).

Fixpoint be_words (n : nat) (bs : list Z) : list Z :=
  match n, bs with
  | S n', a :: b :: c :: d :: bs' =>
      (Z.shiftl a 24 + Z.shiftl b 16 + Z.shiftl c 8 + d) :: be_words n' bs'
  | _, _ => []
  end.

(** The message schedule, most recent word first. *)
Fixpoint schedule (n : nat) (rev_w : list Z) : list Z :=
  match n with
  | O => rev_w
  | S n' =>
      let w i := nth i rev_w 0 in
      schedule n'
        (add32 (add32 (sigma1 (w 1%nat)) (w 6%nat))
               (add32 (sigma0 (w 14%nat)) (w 15%nat)) :: rev_w)
  end.

Definition round (st : list Z) (kw : Z * Z) : list Z :=
  match st with
  | [a; b; c; d; e; f; g; h] =>
      let t1 := add32 (add32 (add32 h (Sigma1 e)) (add32 (Ch e f g) kw.1)) kw.2 in
      let t2 := add32 (Sigma0 a) (Maj a b c) in
      [add32 t1 t2; a; b; c; add32 d t1; e; f; g]
  | _ => st
  end.

Definition compress (h : list Z) (block : list Z) : list Z :=
  let w := rev (schedule 48 (rev (be_words 16 block))) in
  zip_with add32 h (fold_left round (zip K w) h).

Fixpoint blocks (n : nat) (h : list Z) (bs : list Z) : list Z :=
  match n with
  | O => h
  | S n' => blocks n' (compress h (take 64 bs)) (drop 64 bs)
  end.

Definition digest (msg : list Z) : list Z :=
  let p := pad msg in
  blocks (length p / 64) H0 p ≫= be_bytes 4.

Definition hex_digit (x : Z) : ascii :=
  ascii_of_N (Z.to_N (if decide (x < 10) then 48 + x else 87 + x)).

Fixpoint hex (bs : list Z) : string :=
  match bs with
  | [] => EmptyString
  | b :: bs' => String (hex_digit (b / 16)) (String (hex_digit (b mod 16)) (hex bs'))
  end.

Definition hexdigest (msg : list Z) : string := hex (digest msg).

End SHA256.

(** ** The SQLite cache *)

(** The [payload TEXT] column: text that [json.loads] reads back as the
    value it was dumped from, or text that [json.loads] rejects. *)
Inductive json_text :=
| json_dumps (v : value)
| not_json (s : pystr).

Definition json_loads (t : json_text) : result value :=
  match t with
  | json_dumps v => Ok v
  | not_json _ => Raise (PyError "JSONDecodeError")
  end.

(** A row of table [cache]; the primary key [k] is the key of the map. *)
Record Row := {
  row_query : pystr;
  row_lim : Z;
  row_ts : Z;
  row_payload : json_text;
}.

(** The text [f"{query}\n{limit}"] that is hashed. *)
Definition fingerprint_text (query : pystr) (limit : Z) : pystr :=
  query ++ [10%N] ++ str_of_int limit.

(** [_cache_key(query, limit)] for a query that UTF-8 encodes. *)
Definition _cache_key (query : pystr) (limit : Z) : string :=
  SHA256.hexdigest (utf8 (fingerprint_text query limit)).

(** What [_cache_get] returns on a hit. *)
Record Cached := {
  cached_k : string;
  cached_ts : Z;
  cached_age : Z;
  cached_data : value;
}.

(** [data.setdefault("debug", {})] *)
Definition setdefault_debug (data : value) : result value :=
  match data with
  | VDict d =>
      match dict_get (str "debug") d with
      | Some _ => Ok data
      | None => Ok (VDict (dict_set (str "debug") (VDict []) d))
      end
  | _ => Raise (PyError "AttributeError")
  end.

(** [data["debug"][k] = v] *)
Definition debug_set (k : pystr) (v : value) (data : value) : result value :=
  match data with
  | VDict d =>
      match dict_get (str "debug") d with
      | Some (VDict dbg) =>
          Ok (VDict (dict_set (str "debug") (VDict (dict_set k v dbg)) d))
      | Some _ => Raise (PyError "TypeError")
      | None => Raise (PyError "KeyError")
      end
  | _ => Raise (PyError "TypeError")
  end.

(** [data["debug"].update(u)] *)
Definition debug_update (u : list (pystr * value)) (data : value)
  : result value :=
  match data with
  | VDict d =>
      match dict_get (str "debug") d with
      | Some (VDict dbg) =>
          Ok (VDict (dict_set (str "debug") (VDict (dict_update dbg u)) d))
      | Some _ => Raise (PyError "AttributeError")
      | None => Raise (PyError "KeyError")
      end
  | _ => Raise (PyError "TypeError")
  end.

(** [_cache_get(query, limit)] read at clock [now]. *)
Definition _cache_get (now : Q) (query : pystr) (limit : Z)
    (db : gmap string Row) : result (option Cached) :=
  let k := _cache_key query limit in
  match db !! k with
  | None => Ok None
  | Some row =>
      match json_loads (row_payload row) with
      | Raise _ => Ok None
      | Ok data =>
          let age := py_int now - row_ts row in
          let* data := setdefault_debug data in
          let* data := debug_set (str "cache") (VStr (str "HIT")) data in
          let* data := debug_set (str "cache_age_seconds") (VInt age) data in
          Ok (Some {| cached_k := k; cached_ts := row_ts row;
                      cached_age := age; cached_data := data |})
      end
  end.

(** [_cache_set(query, limit, data)] written at clock [now]:
    INSERT OR REPLACE on the primary key, for a query and a payload that
    UTF-8 encodes ([_cache_set_strict] below has the exception of the
    others). *)
Definition _cache_set (now : Q) (query : pystr) (limit : Z) (data : value)
    (db : gmap string Row) : gmap string Row :=
  let k := _cache_key query limit in
  let ts := py_int now in
  let payload := json_dumps data in
  <[k := {| row_query := query; row_lim := limit; row_ts := ts;
            row_payload := payload |}]> db.

(** [_cache_clear()]: DELETE FROM cache. *)
Definition _cache_clear (db : gmap string Row) : gmap string Row := ∅.

(** [doc[k]] and [doc["debug"][k]], where they exist. *)
Definition item (doc : value) (k : pystr) : option value :=
  match doc with
  | VDict d => dict_get k d
  | _ => None
  end.

Definition debug_item (doc : value) (k : pystr) : option value :=
  match item doc (str "debug") with
  | Some dbg => item dbg k
  | None => None
  end.

(** A payload [_cache_get] can tag: a dict whose ["debug"], when present,
    is a dict. Every payload [_cache_set] is called with is one. *)
Definition payload_ok (data : value) : Prop :=
  match data with
  | VDict d =>
      match dict_get (str "debug") d with
      | None | Some (VDict _) => True
      | Some _ => False
      end
  | _ => False
  end.

(** A row holds a readable entry, and a table holds readable entries
    only. *)
Definition row_ok (row : Row) : Prop :=
  exists data, row_payload row = json_dumps data /\ payload_ok data.

Definition cache_readable (db : gmap string Row) : Prop :=
  forall k row, db !! k = Some row -> row_ok row.

(** What [_cache_get] hands to [fetch_ebay_sold]: a dict with a debug
    dict. *)
Definition tagged (data : value) : Prop :=
  exists d dbg, data = VDict d /\ dict_get (str "debug") d = Some (VDict dbg).

(** ** The SerpApi client *)

(** What [requests.get] returns: the status and what [r.json()] gives
    ([None] when the body is not JSON). *)
Record Response := {
  status_code : Z;
  body : option value;
}.

(** [r.ok]: no 4xx and no 5xx status. *)
Definition ok (r : Response) : bool :=
  negb (bool_decide (400 <= status_code r < 600)).

Definition r_json (r : Response) : result value :=
  match body r with
  | Some v => Ok v
  | None => Raise (PyError "JSONDecodeError")
  end.

(** What one [requests.get] does: it returns a response, or raises an
    exception of its own (a timeout, a refused connection). *)
Inductive Answer :=
| Responds (r : Response)
| Fails (name : string).

(** What the client does to the outside, in order. *)
Inductive Event :=
| Requested
| Slept (seconds : Z).

(** How many requests a trace holds. *)
Definition requests_made (evs : list Event) : nat :=
  length (List.filter (fun e => match e with
                                | Requested => true
                                | Slept _ => false
                                end) evs).

(** [enumerate(l, start)] *)
Definition enumerate {A} (start : nat) (l : list A) : list (nat * A) :=
  zip (seq start (length l)) l.

(** The dict bound to [last_debug] after a response. *)
Definition snapshot (attempt : nat) (r : Response) : result value :=
  let* url :=
    if ok r then
      let* j := r_json r in
      let* m := py_get j (str "search_metadata") (VDict []) in
      py_get m (str "ebay_url") (VStr (str "N/A"))
    else Ok (VStr (str "N/A")) in
  Ok (VDict [(str "attempt", VInt (Z.of_nat attempt));
             (str "status_code", VInt (status_code r));
             (str "ebay_url", url)]).

(** The retry loop over [enumerate(backoffs, start=1)]. [get n] is what the
    [requests.get] of attempt [n] does. [last] holds [r] and [last_debug]
    of the previous iteration. Returns the pair left after the loop and the
    requests and sleeps made. *)
Fixpoint retry_loop (get : nat -> Answer) (todo : list (nat * Z))
    (last : option (Response * value))
  : result (Response * value) * list Event :=
  match todo with
  | [] =>
      (match last with
       | Some rl => Ok rl
       | None => Raise (PyError "UnboundLocalError")
       end, [])
  | (attempt, wait_s) :: todo' =>
      match get attempt with
      | Fails name => (Raise (PyError name), [Requested])
      | Responds r =>
          match snapshot attempt r with
          | Raise e => (Raise e, [Requested])
          | Ok last_debug =>
              if decide (500 <= status_code r) then
                let '(res, evs) := retry_loop get todo' (Some (r, last_debug)) in
                (res, Requested :: Slept wait_s :: evs)
              else (Ok (r, last_debug), [Requested])
          end
      end
  end.

(** [s in v] for a str [s]. *)
Definition py_in (s : pystr) (v : value) : result bool :=
  match v with
  | VStr t => Ok (substring s t)
  | VList l => Ok (existsb (fun x => match x with
                                     | VStr t => bool_decide (t = s)
                                     | _ => false
                                     end) l)
  | VDict d => Ok (bool_decide (is_Some (dict_get s d)))
  | _ => Raise (PyError "TypeError")
  end.

(** [v.upper()] *)
Definition py_upper (v : value) : result pystr :=
  match v with
  | VStr s => Ok (upper s)
  | _ => Raise (PyError "AttributeError")
  end.

(** [v[:n]] *)
Definition py_slice (v : value) (n : Z) : result value :=
  match v with
  | VStr s => Ok (VStr (slice_to s n))
  | VList l => Ok (VList (slice_to l n))
  | _ => Raise (PyError "TypeError")
  end.

(** The text in the source between the quotes of the second test of
    [is_eur]: U+00E2 U+201A U+00AC, the bytes of the euro sign read as
    Windows-1252. *)
Definition EURO_LITERAL : pystr := [226; 8218; 172]%N.

(** The euro sign, U+20AC. *)
Definition EURO_SIGN : pystr := [8364]%N.

Section Markter.

(** [SERPAPI_KEY]: the environment variable, read once at import. *)
Variable SERPAPI_KEY : pystr.

(** [float(s)] of a str: the number it spells, or [None] where Python
    raises ValueError. *)
Variable float_of_str : pystr -> option Q.

(** [float(v)]. An int that rounds to a magnitude beyond the largest double
    raises OverflowError; below that the value is kept exact, floats being
    rationals here, so the rounding of an int of more than 53 bits to the
    nearest double is not modelled. *)
Definition py_float (v : value) : result Q :=
  match v with
  | VInt z =>
      if decide (Z.abs z < 2 ^ 1024 - 2 ^ 970) then Ok (inject_Z z)
      else Raise (PyError "OverflowError")
  | VFloat q => Ok q
  | VBool b => Ok (if b then 1 else 0)%Q
  | VStr s =>
      match float_of_str s with
      | Some q => Ok q
      | None => Raise (PyError "ValueError")
      end
  | _ => Raise (PyError "TypeError")
  end.

(** The test [is_eur], with the short circuit of [or]. *)
Definition is_eur (currency : pystr) (raw : value) : result bool :=
  if decide (currency = str "EUR") then Ok true
  else
    let* symbol := py_in EURO_LITERAL raw in
    if symbol then Ok true
    else
      let* up := py_upper raw in
      Ok (substring (str "EUR") up).

(** The body of the loop over [items]: [None] is a [continue], [Some c] the
    dict appended to [comps]. *)
Definition normalize_item (it : value) : result (option value) :=
  let* p := py_get it (str "price") (VDict []) in
  let price_info := py_or p (VDict []) in
  let* ev := py_get price_info (str "extracted_value") VNone in
  let* ex := py_get price_info (str "extracted") VNone in
  let extracted := py_or ev ex in
  let* raw := py_get price_info (str "raw") (VStr []) in
  let* c := py_get price_info (str "currency") VNone in
  let* currency := py_upper (py_or c (VStr [])) in
  match extracted with
  | VNone => Ok None
  | _ =>
      let* eur := is_eur currency raw in
      if negb eur then Ok None
      else
        match py_float extracted with
        | Raise _ => Ok None
        | Ok price_eur =>
            let* t := py_get it (str "title") (VStr []) in
            let* title := py_slice (py_or t (VStr [])) 200 in
            let* url := py_get it (str "link") (VStr []) in
            let* condition := py_get it (str "condition") (VStr (str "Onbekend")) in
            Ok (Some (VDict [(str "title", title);
                             (str "price_eur", VFloat price_eur);
                             (str "url", url);
                             (str "condition", condition);
                             (str "source", VStr (str "ebay_sold_serpapi"))]))
        end
  end.

(** [for it in items: ...], [comps] in the order of [items]. *)
Fixpoint normalize (items : list value) : result (list value) :=
  match items with
  | [] => Ok []
  | it :: items' =>
      let* c := normalize_item it in
      let* comps := normalize items' in
      Ok (match c with Some c => c :: comps | None => comps end)
  end.

(** What [for it in items] iterates and [len(items)] counts, once [items]
    is truthy or the empty list: a non-empty str or dict is iterated but
    its elements are strs, which have no [get]. *)
Definition as_items (items : value) : result (list value) :=
  match items with
  | VList l => Ok l
  | VStr _ | VDict _ => Raise (PyError "AttributeError")
  | _ => Raise (PyError "TypeError")
  end.

(** [_serpapi_call_sold(query, limit)]: the result (the second component is
    the dict of the returned pair) and the requests and sleeps made. The
    request parameters are fixed by [query] and the settings, so the
    answers [get] stand for the remote side. *)
Definition _serpapi_call_sold (get : nat -> Answer)
    (query : pystr) (limit : Z)
  : result (list value * list (pystr * value)) * list Event :=
  let backoffs := [2; 4; 8] in
  let looped := retry_loop get (enumerate 1 backoffs) None in
  (match looped.1 with
   | Raise e => Raise e
   | Ok (r, last_debug) =>
       if decide (status_code r ≠ 200) then
         Raise (HTTPException 502
                  (VDict [(str "reason", VStr (str "serpapi_failed"));
                          (str "debug", last_debug)]))
       else
         let* data := r_json r in
         let* has_error := py_in (str "error") data in
         if has_error then
           let* err := match data with
                       | VDict d => Ok (default VNone (dict_get (str "error") d))
                       | _ => Raise (PyError "TypeError")
                       end in
           Raise (HTTPException 502
                    (VDict [(str "reason", VStr (str "serpapi_error"));
                            (str "error", err);
                            (str "debug", last_debug)]))
         else
           let* found := py_get data (str "organic_results") (VList []) in
           let* items := as_items (py_or found (VList [])) in
           let* comps := normalize items in
           Ok (slice_to comps limit,
               [(str "count_raw", VInt (Z.of_nat (length items)));
                (str "count_eur", VInt (Z.of_nat (length comps)));
                (str "serpapi_debug", last_debug)])
   end,
   looped.2).

(** An item of [organic_results] as the API documents it: title, link,
    condition and a price object. *)
Definition listing (title link condition : pystr)
    (price_info : list (pystr * value)) : value :=
  VDict [(str "title", VStr title);
         (str "link", VStr link);
         (str "condition", VStr condition);
         (str "price", VDict price_info)].

(** A price object with the raw text, the extracted value and, when the API
    sends one, the currency code. *)
Definition price_object (raw : pystr) (extracted_value : value)
    (currency : option pystr) : list (pystr * value) :=
  [(str "raw", VStr raw); (str "extracted_value", extracted_value)]
  ++ match currency with
     | Some c => [(str "currency", VStr c)]
     | None => []
     end.

(** The currency test of the source on such a price object: the currency
    code in upper case is EUR, or the raw text contains the three
    characters of [EURO_LITERAL], or its upper case contains EUR. *)
Definition passes_currency_test (raw : pystr) (currency : option pystr) : bool :=
  bool_decide (upper (default [] currency) = str "EUR")
  || substring EURO_LITERAL raw
  || substring (str "EUR") (upper raw).

(** The record appended to [comps] for a listing. *)
Definition comparable (title link condition : pystr) (price_eur : Q) : value :=
  VDict [(str "title", VStr (take 200 title));
         (str "price_eur", VFloat price_eur);
         (str "url", VStr link);
         (str "condition", VStr condition);
         (str "source", VStr (str "ebay_sold_serpapi"))].

(** ** The orchestrator *)

(** The process state a fetch reads and writes, and the trace of what the
    client did to the outside so far. *)
Record World := {
  limiter : LimiterState;
  cache : gmap string Row;
  events : list Event;
}.

(** What one call of [fetch_ebay_sold] reads from outside: [time.time()] in
    [_cache_get], in [_limiter_allow] and in [_cache_set], the local date in
    [_limiter_allow], and the answers to its requests. *)
Record Env := {
  now_get : Q;
  now_lim : Q;
  today : pystr;
  requests_get : nat -> Answer;
  now_set : Q;
}.

(** The same surroundings with other answers from the remote side. *)
Definition with_answers (env : Env) (get : nat -> Answer) : Env :=
  {| now_get := now_get env; now_lim := now_lim env; today := today env;
     requests_get := get; now_set := now_set env |}.

(** [max(1, min(int(limit), 200))] *)
Definition clamp_limit (limit : Z) : Z := Z.max 1 (Z.min limit 200).

(** Lines 254-270 of [fetch_ebay_sold]: what follows the test for a fresh
    entry. [limit] is already clamped and [cached] is what [_cache_get]
    returned. *)
Definition fetch_refresh (env : Env) (query : pystr) (limit : Z)
    (cached : option Cached) (w : World) : result value * World :=
  let '((allowed, lim_dbg), lim') :=
    _limiter_allow (now_lim env) (today env) (limiter w) in
  let w := {| limiter := lim'; cache := cache w; events := events w |} in
  if negb allowed then
    match cached with
    | Some c =>
        (debug_update [(str "ttl_seconds", VInt TTL_SECONDS_DEFAULT);
                       (str "stale", VBool true);
                       (str "refresh_skipped", lim_dbg)]
           (cached_data c), w)
    | None =>
        (Raise (HTTPException 429
                  (VDict [(str "reason", VStr (str "local_rate_limited"));
                          (str "debug", lim_dbg)])), w)
    end
  else
    let called := _serpapi_call_sold (requests_get env) query limit in
    let w := {| limiter := limiter w; cache := cache w;
                events := events w ++ called.2 |} in
    match called.1 with
    | Ok (comps, dbg) =>
        let out :=
          VDict [(str "items", VList comps);
                 (str "debug",
                  VDict (dict_update
                           [(str "cache", VStr (str "MISS"));
                            (str "ttl_seconds", VInt TTL_SECONDS_DEFAULT)]
                           dbg))] in
        (Ok out,
         {| limiter := limiter w;
            cache := _cache_set (now_set env) query limit out (cache w);
            events := events w |})
    | Raise (HTTPException status detail) =>
        match cached with
        | Some c =>
            (debug_update [(str "ttl_seconds", VInt TTL_SECONDS_FALLBACK);
                           (str "stale", VBool true);
                           (str "refresh_failed", detail)]
               (cached_data c), w)
        | None => (Raise (HTTPException status detail), w)
        end
    | Raise e => (Raise e, w)
    end.

(** [fetch_ebay_sold(query, limit)] *)
Definition fetch_ebay_sold (env : Env) (query : pystr) (limit : Z) (w : World)
  : result value * World :=
  if decide (SERPAPI_KEY = []) then
    (Raise (HTTPException 400
              (VDict [(str "reason", VStr (str "missing_serpapi_key"))])), w)
  else
    let limit := clamp_limit limit in
    match _cache_get (now_get env) query limit (cache w) with
    | Raise e => (Raise e, w)
    | Ok (Some c) =>
        if decide (cached_age c <= TTL_SECONDS_DEFAULT) then
          (debug_update [(str "ttl_seconds", VInt TTL_SECONDS_DEFAULT);
                         (str "stale", VBool false)] (cached_data c), w)
        else fetch_refresh env query limit (Some c) w
    | Ok None => fetch_refresh env query limit None w
    end.

(** The three updates of the debug block in [fetch_ebay_sold]. *)
Definition fresh_tags : list (pystr * value) :=
  [(str "ttl_seconds", VInt TTL_SECONDS_DEFAULT); (str "stale", VBool false)].

Definition skipped_tags (lim_dbg : value) : list (pystr * value) :=
  [(str "ttl_seconds", VInt TTL_SECONDS_DEFAULT); (str "stale", VBool true);
   (str "refresh_skipped", lim_dbg)].

Definition failed_tags (detail : value) : list (pystr * value) :=
  [(str "ttl_seconds", VInt TTL_SECONDS_FALLBACK); (str "stale", VBool true);
   (str "refresh_failed", detail)].

(** The detail of the 429 raised when the limiter refuses and nothing is
    cached. *)
Definition rate_limited_detail (lim_dbg : value) : value :=
  VDict [(str "reason", VStr (str "local_rate_limited"));
         (str "debug", lim_dbg)].

(** The document built from a successful call. *)
Definition miss_document (comps : list value) (dbg : list (pystr * value))
  : value :=
  VDict [(str "items", VList comps);
         (str "debug",
          VDict (dict_update
                   [(str "cache", VStr (str "MISS"));
                    (str "ttl_seconds", VInt TTL_SECONDS_DEFAULT)]
                   dbg))].

(** A series of fetches, each with what it reads from outside: the results
    in order and the world left. *)
Fixpoint fetch_all (calls : list (Env * pystr * Z)) (w : World)
  : list (result value) * World :=
  match calls with
  | [] => ([], w)
  | (env, query, limit) :: calls' =>
      let r := fetch_ebay_sold env query limit w in
      let rest := fetch_all calls' r.2 in
      (r.1 :: rest.1, rest.2)
  end.

(** The process right after import, with an empty cache table. *)
Definition world_init : World :=
  {| limiter := limiter_init; cache := ∅; events := [] |}.

(** A remote side that answers every request with [status] and no JSON
    body. *)
Definition always (status : Z) : nat -> Answer :=
  fun _ => Responds {| status_code := status; body := None |}.

(** The surroundings of the [i]-th fetch of a day on which the remote side
    is down: second [2 i] on every clock reading, and a 500 to every
    request. *)
Definition failing_env (tk : pystr) (i : nat) : Env :=
  {| now_get := inject_Z (2 * Z.of_nat i);
     now_lim := inject_Z (2 * Z.of_nat i);
     today := tk;
     requests_get := always 500;
     now_set := inject_Z (2 * Z.of_nat i) |}.

Definition failing_calls (tk : pystr) (query : pystr) (limit : Z)
    (first n : nat) : list (Env * pystr * Z) :=
  (fun i => (failing_env tk i, query, limit)) <$> seq first n.

End Markter.

(** ** A running example *)

(** A configured key, and a [float()] that rejects every text (the prices
    of the example are numbers). *)
Definition example_key : pystr := str "0123456789abcdef".
Definition no_text_price : pystr -> option Q := fun _ => None.

Definition example_query : pystr := str "vintage lamp".
Definition example_day : pystr := str "2026-11-04".

(** A document as an earlier successful call stored it. *)
Definition example_payload : value :=
  VDict [(str "items",
          VList [comparable (str "Vintage lamp") (str "https://www.ebay.nl/itm/1")
                   (str "Gebruikt") (25 # 2)]);
         (str "debug",
          VDict [(str "cache", VStr (str "MISS"));
                 (str "ttl_seconds", VInt 21600);
                 (str "count_raw", VInt 1);
                 (str "count_eur", VInt 1)])].

Definition example_row : Row :=
  {| row_query := example_query; row_lim := 10; row_ts := 1000;
     row_payload := json_dumps example_payload |}.

(** The process with that one row cached and the limiter untouched. *)
Definition example_world : World :=
  {| limiter := limiter_init;
     cache := {[ _cache_key example_query 10 := example_row ]};
     events := [] |}.

(** The same, one second after a permitted call of the same day. *)
Definition example_busy : LimiterState :=
  {| _last_call_ts := 99999; _day_key := Some example_day; _day_calls := 5 |}.

Definition example_world_busy : World :=
  {| limiter := example_busy;
     cache := {[ _cache_key example_query 10 := example_row ]};
     events := [] |}.

(** A remote side that answers 200 with one listing in euros. *)
Definition healthy : nat -> Answer :=
  fun _ =>
    Responds
      {| status_code := 200;
         body := Some (VDict
                   [(str "search_metadata",
                     VDict [(str "ebay_url", VStr (str "https://www.ebay.nl/sch"))]);
                    (str "organic_results",
                     VList [listing (str "Vintage lamp")
                              (str "https://www.ebay.nl/itm/1") (str "Gebruikt")
                              (price_object (str "EUR 12,50") (VFloat (25 # 2))
                                 (Some (str "EUR")))])]) |}.

(** A remote side that cannot be reached. *)
Definition unreachable : nat -> Answer := fun _ => Fails "ConnectionError".

(** Every clock reading of the call at second [t] of the example day. *)
Definition example_env (t : Z) (get : nat -> Answer) : Env :=
  {| now_get := inject_Z t; now_lim := inject_Z t; today := example_day;
     requests_get := get; now_set := inject_Z t |}.

(** ** The keyword generator, the endpoints *)

(** [c.isspace()]: the code points [str.strip()] removes. *)
Definition is_space (c : N) : bool :=
  (((9 <=? c) && (c <=? 13)) || ((28 <=? c) && (c <=? 32))
   || (c =? 133) || (c =? 160) || (c =? 5760)
   || ((8192 <=? c) && (c <=? 8202))
   || (c =? 8232) || (c =? 8233) || (c =? 8239) || (c =? 8287)
   || (c =? 12288))%N.

Fixpoint lstrip (s : pystr) : pystr :=
  match s with
  | [] => []
  | c :: s' => if is_space c then lstrip s' else s
  end.

(** [s.strip()] *)
Definition strip (s : pystr) : pystr := rev (lstrip (rev (lstrip s))).

(** The characters of [s] before its first dot. *)
Fixpoint until_dot (s : pystr) : pystr :=
  match s with
  | [] => []
  | c :: s' => if (c =? 46)%N then [] else c :: until_dot s'
  end.

(** [s.rsplit(".", 1)[1]] for an [s] with a dot in it. *)
Definition after_last_dot (s : pystr) : pystr := rev (until_dot (rev s)).

(** What the Hugging Face Space does during one call: whether
    [Client(HF_SPACE_URL)] returns ([None]) or raises, and what the two
    [with] blocks give for a suffix of the temporary file, a name in the
    uploaded tuple and the image: the value of [client.predict], or the
    exception of the file or of the client. *)
Record Space := {
  client_new : option string;
  predict : pystr -> pystr -> list Z -> result value;
}.

(** [for x in v] *)
Definition py_iter (v : value) : result (list value) :=
  match v with
  | VList l => Ok l
  | VStr s => Ok ((fun c => VStr [c]) <$> s)
  | VDict d => Ok ((fun kv => VStr kv.1) <$> d)
  | _ => Raise (PyError "TypeError")
  end.

(** [v[k]] for a str [k] *)
Definition py_index (v : value) (k : pystr) : result value :=
  match v with
  | VDict d =>
      match dict_get k d with
      | Some x => Ok x
      | None => Raise (PyError "KeyError")
      end
  | _ => Raise (PyError "TypeError")
  end.

(** [v[k] = x] for a str [k] *)
Definition py_setitem (v : value) (k : pystr) (x : value) : result value :=
  match v with
  | VDict d => Ok (VDict (dict_set k x d))
  | _ => Raise (PyError "TypeError")
  end.

(** The number a value is in arithmetic and comparisons, if it is one. *)
Definition num_of (v : value) : option Q :=
  match v with
  | VInt z => Some (inject_Z z)
  | VFloat q => Some q
  | VBool b => Some (if b then 1 else 0)%Q
  | _ => None
  end.

(** [sum(vs)] *)
Fixpoint py_sum (vs : list value) (acc : Q) : result Q :=
  match vs with
  | [] => Ok acc
  | v :: vs' =>
      match num_of v with
      | Some q => py_sum vs' (acc + q)%Q
      | None => Raise (PyError "TypeError")
      end
  end.

(** [min(vs)] and [max(vs)] once [best] is the choice among the elements
    read so far: the first of the smallest, the first of the largest. *)
Fixpoint py_min_from (best : value) (vs : list value) : result value :=
  match vs with
  | [] => Ok best
  | v :: vs' =>
      match num_of v, num_of best with
      | Some q, Some b =>
          if Qlt_le_dec q b then py_min_from v vs' else py_min_from best vs'
      | _, _ => Raise (PyError "TypeError")
      end
  end.

Fixpoint py_max_from (best : value) (vs : list value) : result value :=
  match vs with
  | [] => Ok best
  | v :: vs' =>
      match num_of v, num_of best with
      | Some q, Some b =>
          if Qlt_le_dec b q then py_max_from v vs' else py_max_from best vs'
      | _, _ => Raise (PyError "TypeError")
      end
  end.

Definition py_min_of (vs : list value) : result value :=
  match vs with
  | [] => Raise (PyError "ValueError")
  | v :: vs' => py_min_from v vs'
  end.

Definition py_max_of (vs : list value) : result value :=
  match vs with
  | [] => Raise (PyError "ValueError")
  | v :: vs' => py_max_from v vs'
  end.

(** The list comprehension of [analyze_photo]:
    [[item["price_eur"] for item in items if "price_eur" in item]]. *)
Fixpoint prices_of (items : list value) : result (list value) :=
  match items with
  | [] => Ok []
  | it :: items' =>
      let* has := py_in (str "price_eur") it in
      if has then
        let* p := py_index it (str "price_eur") in
        let* ps := prices_of items' in
        Ok (p :: ps)
      else prices_of items'
  end.

(** A record as [_serpapi_call_sold] appends it to [comps]. *)
Definition is_comp (c : value) : Prop :=
  exists title price_eur url condition,
    c = VDict [(str "title", title);
               (str "price_eur", VFloat price_eur);
               (str "url", url);
               (str "condition", condition);
               (str "source", VStr (str "ebay_sold_serpapi"))].

(** The number under price_eur, and the items [analyze_photo] can take
    statistics of: dicts with a float under price_eur. *)
Definition price_of (c : value) : Q :=
  match c with
  | VDict d =>
      match dict_get (str "price_eur") d with
      | Some (VFloat q) => q
      | _ => 0
      end
  | _ => 0
  end.

Definition has_price (c : value) : Prop :=
  exists d q, c = VDict d /\ dict_get (str "price_eur") d = Some (VFloat q).

(** A document whose items are such dicts, and a table that holds such
    documents only. *)
Definition priced_doc (doc : value) : Prop :=
  exists comps,
    item doc (str "items") = Some (VList comps) /\ Forall has_price comps.

Definition priced_cache (db : gmap string Row) : Prop :=
  forall k row,
    db !! k = Some row ->
    exists data,
      row_payload row = json_dumps data /\ payload_ok data /\ priced_doc data.

(** A remote side that answers 200 with a JSON object and no listings. *)
Definition nothing_sold : nat -> Answer :=
  fun _ => Responds {| status_code := 200; body := Some (VDict []) |}.

(** The table of the example with the payload of its row cut short, as an
    interrupted write leaves it. *)
Definition torn_row : Row :=
  {| row_query := example_query; row_lim := 10; row_ts := 1000;
     row_payload := not_json (str "{") |}.

Definition torn_world : World :=
  {| limiter := limiter_init;
     cache := {[ _cache_key example_query 10 := torn_row ]};
     events := [] |}.

(** The process state with the lazily created client: [_hf_client] says
    whether the global holds one. *)
Record Process := {
  world : World;
  _hf_client : bool;
}.

Section Endpoints.

Variable SERPAPI_KEY : pystr.
Variable HF_SPACE_URL : pystr.
Variable float_of_str : pystr -> option Q.

(** [s.lower()], of which the program uses the result only as the suffix
    of a temporary file. *)
Variable lower : pystr -> pystr.

(** [round(x, 2)] of a float. *)
Variable round_2 : Q -> Q.

(** [_get_hf_client()], run under [_hf_lock]. *)
Definition _get_hf_client (space : Space) (created : bool) : result unit * bool :=
  if decide (HF_SPACE_URL = []) then (Raise (PyError "RuntimeError"), created)
  else if created then (Ok (), created)
  else
    match client_new space with
    | None => (Ok (), true)
    | Some name => (Raise (PyError name), created)
    end.

(** The suffix of the temporary file. *)
Definition temp_suffix (filename : pystr) : pystr :=
  if bool_decide (filename ≠ []) && substring (str ".") filename
  then str "." ++ lower (after_last_dot filename)
  else str ".png".

(** [generate_keywords_from_image(image_bytes, filename)]: the text
    returned, or the exception that leaves the function, and whether the
    global holds a client afterwards. *)
Definition generate_keywords_from_image (space : Space) (image_bytes : list Z)
    (filename : pystr) (created : bool) : result pystr * bool :=
  if decide (HF_SPACE_URL = []) then (Ok (str "used product"), created)
  else
    let got := _get_hf_client space created in
    let tried : result pystr :=
      let* client := got.1 in
      let suffix := temp_suffix filename in
      let name := if decide (filename = []) then str "image" ++ suffix
                  else filename in
      let* out := predict space suffix name image_bytes in
      match out with
      | VStr s =>
          if decide (strip s = []) then Ok (str "used product")
          else Ok (strip s)
      | _ => Ok (str "used product")
      end in
    (match tried with
     | Ok text => Ok text
     | Raise _ => Ok (str "used product")
     end, got.2).

(** The dict stored under ["stats"]. *)
Definition stats_of (prices : list value) : result value :=
  let* total := py_sum prices 0 in
  let avg := (total / inject_Z (Z.of_nat (length prices)))%Q in
  let* lo := py_min_of prices in
  let* hi := py_max_of prices in
  Ok (VDict [(str "average_eur", VFloat (round_2 avg));
             (str "min_eur", lo);
             (str "max_eur", hi);
             (str "count", VInt (Z.of_nat (length prices)))]).

(** What [analyze_photo] does to the document [fetch_ebay_sold] returned. *)
Definition decorate (query : pystr) (doc : value) : result value :=
  let* found := py_get doc (str "items") (VList []) in
  let* items := py_iter found in
  let* prices := prices_of items in
  let* doc :=
    match prices with
    | [] => Ok doc
    | _ :: _ =>
        let* stats := stats_of prices in
        py_setitem doc (str "stats") stats
    end in
  py_setitem doc (str "used_query") (VStr query).

(** [analyze_photo(file)]: [image_bytes] is what [file.read()] gives and
    [file_filename] is [file.filename]. *)
Definition analyze_photo (space : Space) (env : Env) (image_bytes : list Z)
    (file_filename : option pystr) (p : Process) : result value * Process :=
  let filename :=
    match file_filename with
    | Some name => if decide (name = []) then str "image.png" else name
    | None => str "image.png"
    end in
  let kw := generate_keywords_from_image space image_bytes filename (_hf_client p) in
  match kw.1 with
  | Raise e => (Raise e, {| world := world p; _hf_client := kw.2 |})
  | Ok query =>
      let limit := 30 in
      let fetched := fetch_ebay_sold SERPAPI_KEY float_of_str env query limit (world p) in
      let p' := {| world := fetched.2; _hf_client := kw.2 |} in
      match fetched.1 with
      | Raise e => (Raise e, p')
      | Ok result => (decorate query result, p')
      end
  end.

(** [ping()] *)
Definition ping : value := VDict [(str "ok", VBool true)].

(** [debug_ebay(q, limit)] *)
Definition debug_ebay (env : Env) (q : pystr) (limit : Z) (w : World)
  : result value * World :=
  fetch_ebay_sold SERPAPI_KEY float_of_str env q limit w.

(** [cache_clear()], the endpoint. *)
Definition cache_clear (w : World) : value * World :=
  (VDict [(str "ok", VBool true);
          (str "message", VStr (str "Cache cleared"))],
   {| limiter := limiter w; cache := _cache_clear (cache w);
      events := events w |}).

End Endpoints.

(** A Space that captions every image as a vintage lamp, and a process
    that has not built its client yet. *)
Definition example_space : Space :=
  {| client_new := None;
     predict := fun _ _ _ => Ok (VStr (str "  vintage lamp ")) |}.

Definition example_process : Process :=
  {| world := example_world; _hf_client := false |}.

(** ** Text that UTF-8 rejects *)

(** The code points [.encode("utf-8")] and the binding of a str to an SQL
    parameter accept: all but the surrogates U+D800 to U+DFFF, which
    [json.loads] produces from escapes such as "\ud800". Numbers above
    U+10FFFF are no code points. *)
Definition encodable_char (c : N) : bool :=
  ((c <? 55296) || ((57343 <? c) && (c <=? 1114111)))%N.

Definition encodable (s : pystr) : bool := forallb encodable_char s.

(** Whether [json.dumps(v, ensure_ascii=False)] holds no surrogate: it
    holds the code points of every str of [v], keys included. *)
Fixpoint value_encodable (v : value) : bool :=
  match v with
  | VStr s => encodable s
  | VList l => forallb value_encodable l
  | VDict d =>
      forallb (fun kv => match kv with
                         | (k, x) => encodable k && value_encodable x
                         end) d
  | _ => true
  end.

(** [_cache_key(query, limit)] on any str: line 92 raises on a text with a
    surrogate. *)
Definition _cache_key_strict (query : pystr) (limit : Z) : result string :=
  if encodable (fingerprint_text query limit) then Ok (_cache_key query limit)
  else Raise (PyError "UnicodeEncodeError").

(** [_cache_get(query, limit)] on any str: line 96 comes first. *)
Definition _cache_get_strict (now : Q) (query : pystr) (limit : Z)
    (db : gmap string Row) : result (option Cached) :=
  let* k := _cache_key_strict query limit in
  _cache_get now query limit db.

(** [_cache_set(query, limit, data)] on any str and payload: line 114
    raises as above, and [execute] raises on a parameter with a surrogate
    before anything is written. *)
Definition _cache_set_strict (now : Q) (query : pystr) (limit : Z)
    (data : value) (db : gmap string Row) : result (gmap string Row) :=
  let* k := _cache_key_strict query limit in
  if encodable query && value_encodable data
  then Ok (_cache_set now query limit data db)
  else Raise (PyError "UnicodeEncodeError").

Section Strict.

Variable SERPAPI_KEY : pystr.
Variable float_of_str : pystr -> option Q.

(** Lines 254-270 with these exceptions: an exception of [_cache_set] is
    raised inside the [try], where only an [HTTPException] is caught. *)
Definition fetch_refresh_strict (env : Env) (query : pystr) (limit : Z)
    (cached : option Cached) (w : World) : result value * World :=
  let permit := _limiter_allow (now_lim env) (today env) (limiter w) in
  let lim_dbg := permit.1.2 in
  let w := {| limiter := permit.2; cache := cache w; events := events w |} in
  if negb permit.1.1 then
    match cached with
    | Some c => (debug_update (skipped_tags lim_dbg) (cached_data c), w)
    | None => (Raise (HTTPException 429 (rate_limited_detail lim_dbg)), w)
    end
  else
    let called := _serpapi_call_sold float_of_str (requests_get env) query limit in
    let w := {| limiter := limiter w; cache := cache w;
                events := events w ++ called.2 |} in
    let except (e : exn) : result value * World :=
      match e with
      | HTTPException status detail =>
          match cached with
          | Some c => (debug_update (failed_tags detail) (cached_data c), w)
          | None => (Raise e, w)
          end
      | PyError _ => (Raise e, w)
      end in
    match called.1 with
    | Ok (comps, dbg) =>
        let out := miss_document comps dbg in
        match _cache_set_strict (now_set env) query limit out (cache w) with
        | Ok db =>
            (Ok out, {| limiter := limiter w; cache := db; events := events w |})
        | Raise e => except e
        end
    | Raise e => except e
    end.

(** [fetch_ebay_sold(query, limit)] on any str. *)
Definition fetch_ebay_sold_strict (env : Env) (query : pystr) (limit : Z)
    (w : World) : result value * World :=
  if decide (SERPAPI_KEY = []) then
    (Raise (HTTPException 400
              (VDict [(str "reason", VStr (str "missing_serpapi_key"))])), w)
  else
    let limit := clamp_limit limit in
    match _cache_get_strict (now_get env) query limit (cache w) with
    | Raise e => (Raise e, w)
    | Ok (Some c) =>
        if decide (cached_age c <= TTL_SECONDS_DEFAULT) then
          (debug_update fresh_tags (cached_data c), w)
        else fetch_refresh_strict env query limit (Some c) w
    | Ok None => fetch_refresh_strict env query limit None w
    end.

End Strict.

(** A remote side whose one listing has a lone surrogate in its title. *)
Definition surrogate_title : nat -> Answer :=
  fun _ =>
    Responds
      {| status_code := 200;
         body := Some (VDict
                   [(str "organic_results",
                     VList [listing (str "Lamp " ++ [55357%N])
                              (str "https://www.ebay.nl/itm/3") (str "Gebruikt")
                              (price_object (str "EUR 9,00") (VFloat 9)
                                 (Some (str "EUR")))])]) |}.

(** ** More of the running example *)

(** Calls two seconds apart on one local date, the first at second
    [2 * first]. *)
Definition spaced_from (tk : pystr) (first n : nat) : list (Q * pystr) :=
  (fun i => (inject_Z (2 * Z.of_nat i), tk)) <$> seq first n.

(** Two hundred calls dated 4 November, one dated 5 November, and two
    hundred dated 4 November again, as after the clock was set back. *)
Definition recurring_date_calls : list (Q * pystr) :=
  spaced_from (str "2026-11-04") 1 200
  ++ spaced_from (str "2026-11-05") 201 1
  ++ spaced_from (str "2026-11-04") 202 200.

(** The document of the example written at second 1000.9, and a read at
    second 22600.95, which is 21600.05 s later. *)
Definition late_world : World :=
  {| limiter := limiter_init;
     cache := _cache_set (10009 # 10) example_query 10 example_payload ∅;
     events := [] |}.

Definition late_env : Env :=
  {| now_get := 452019 # 20; now_lim := 452019 # 20; today := example_day;
     requests_get := unreachable; now_set := 452019 # 20 |}.

(** * Properties *)

(** ** SHA-256 on the test vectors of FIPS 180-4, and a fingerprint *)

Example sha256_constants :
  length SHA256.K = 64%nat
  /\ head SHA256.K = Some 0x428a2f98
  /\ last SHA256.K = Some 0xc67178f2
  /\ head SHA256.H0 = Some 0x6a09e667
  /\ last SHA256.H0 = Some 0x5be0cd19.
Proof. vm_compute. repeat split. Qed.

Example sha256_abc :
  SHA256.hexdigest (utf8 (str "abc"))
  = "ba7816bf8f01cfea414140de5dae2223b00361a396177a9cb410ff61f20015ad"%string.
Proof. vm_compute. reflexivity. Qed.

Example sha256_empty :
  SHA256.hexdigest []
  = "e3b0c44298fc1c149afbf4c8996fb92427ae41e4649b934ca495991b7852b855"%string.
Proof. vm_compute. reflexivity. Qed.

Example sha256_two_blocks :
  SHA256.hexdigest
    (utf8 (str "abcdbcdecdefdefgefghfghighijhijkijkljklmklmnlmnomnopnopq"))
  = "248d6a61d20638b8e5c026930c3e6039a33ce45964ff2167f6ecedd419db06c1"%string.
Proof. vm_compute. reflexivity. Qed.

Example cache_key_vintage_lamp_10 :
  _cache_key (str "vintage lamp") 10
  = "64cbf791f21cf1e46824f38f5d3b1699257087ba6dea0f5b7b6f1b128228e528"%string.
Proof. vm_compute. reflexivity. Qed.

(** ** The limiter *)

Lemma py_int_floor (x : Q) : (0 <= x)%Q -> py_int x = Qfloor x.
Proof.
  destruct x as [n d]. unfold py_int, Qfloor, Qle. simpl. intros H.
  apply Z.quot_div_nonneg; lia.
Qed.

Lemma inject_Z_lt_inv (a b : Z) : (inject_Z a < inject_Z b)%Q -> a < b.
Proof. rewrite <- Zlt_Qlt. done. Qed.

(** [floor + 1] against the ceiling: equal unless the number is whole. *)
Lemma floor_succ_ceiling (x : Q) :
  (inject_Z (Qfloor x) == x -> Qfloor x + 1 = Qceiling x + 1) /\
  (~ inject_Z (Qfloor x) == x -> Qfloor x + 1 = Qceiling x).
Proof.
  pose proof (Qfloor_le x) as Hfl. pose proof (Qlt_floor x) as Hlf.
  pose proof (Qle_ceiling x) as Hlc. pose proof (Qceiling_lt x) as Hcl.
  rewrite inject_Z_plus in Hlf. unfold Z.sub in Hcl.
  rewrite inject_Z_plus in Hcl.
  change (inject_Z 1) with 1%Q in Hlf. change (inject_Z (Z.opp 1)) with (-1)%Q in Hcl.
  split; intros Hx.
  - assert (Qceiling x < Qfloor x + 1).
    { apply inject_Z_lt_inv. rewrite inject_Z_plus.
      change (inject_Z 1) with 1%Q. lra. }
    assert (Qfloor x - 1 < Qceiling x).
    { apply inject_Z_lt_inv. unfold Z.sub. rewrite inject_Z_plus.
      change (inject_Z (Z.opp 1)) with (-1)%Q. lra. }
    lia.
  - assert (Qfloor x < Qceiling x).
    { apply inject_Z_lt_inv.
      destruct (Qlt_le_dec (inject_Z (Qfloor x)) x) as [Hlt | Hge]; [lra |].
      exfalso. apply Hx. lra. }
    assert (Qceiling x - 1 < Qfloor x + 1).
    { apply inject_Z_lt_inv. unfold Z.sub. rewrite !inject_Z_plus.
      change (inject_Z 1) with 1%Q. change (inject_Z (Z.opp 1)) with (-1)%Q. lra. }
    lia.
Qed.

Lemma wait_needed_pos (now : Q) (s : LimiterState) :
  (now - _last_call_ts s < inject_Z MIN_SECONDS_BETWEEN_CALLS)%Q ->
  wait_needed now s = (inject_Z MIN_SECONDS_BETWEEN_CALLS - (now - _last_call_ts s))%Q /\
  (0 < wait_needed now s)%Q.
Proof.
  intros H. unfold wait_needed, py_max.
  destruct (Qlt_le_dec _ _) as [Hlt | Hge]; [split; [done | lra] | lra].
Qed.

Lemma wait_needed_zero (now : Q) (s : LimiterState) :
  (inject_Z MIN_SECONDS_BETWEEN_CALLS <= now - _last_call_ts s)%Q ->
  wait_needed now s = 0%Q.
Proof.
  intros H. unfold wait_needed, py_max.
  destruct (Qlt_le_dec _ _) as [Hlt | Hge]; [lra | done].
Qed.

(** The three outcomes of [_limiter_allow], on the state after the reset. *)
Lemma limiter_allow_cap (now : Q) (tk : pystr) (s : LimiterState) :
  MAX_CALLS_PER_DAY <= _day_calls (day_reset tk s) ->
  _limiter_allow now tk s
  = ((false, daily_cap_detail (_day_calls (day_reset tk s))), day_reset tk s).
Proof.
  intros H. unfold _limiter_allow. cbv zeta.
  destruct (decide _) as [_ | Hn]; [done | lia].
Qed.

Lemma limiter_allow_interval (now : Q) (tk : pystr) (s : LimiterState) :
  _day_calls (day_reset tk s) < MAX_CALLS_PER_DAY ->
  (now - _last_call_ts (day_reset tk s) < inject_Z MIN_SECONDS_BETWEEN_CALLS)%Q ->
  _limiter_allow now tk s
  = ((false, min_interval_detail
               (Qfloor (inject_Z MIN_SECONDS_BETWEEN_CALLS
                        - (now - _last_call_ts (day_reset tk s))) + 1)),
     day_reset tk s).
Proof.
  intros Hc Hw. unfold _limiter_allow. cbv zeta.
  destruct (decide _) as [Hn | _]; [lia |].
  destruct (wait_needed_pos now _ Hw) as [Heq Hpos].
  destruct (Qlt_le_dec _ _) as [_ | Hle]; [| lra].
  rewrite py_int_floor by lra. rewrite Heq. done.
Qed.

Lemma limiter_allow_ok (now : Q) (tk : pystr) (s : LimiterState) :
  _day_calls (day_reset tk s) < MAX_CALLS_PER_DAY ->
  (inject_Z MIN_SECONDS_BETWEEN_CALLS <= now - _last_call_ts (day_reset tk s))%Q ->
  _limiter_allow now tk s
  = ((true, allowed_detail (_day_calls (day_reset tk s) + 1)),
     {| _last_call_ts := now;
        _day_key := _day_key (day_reset tk s);
        _day_calls := _day_calls (day_reset tk s) + 1 |}).
Proof.
  intros Hc Hw. unfold _limiter_allow. cbv zeta.
  destruct (decide _) as [Hn | _]; [lia |].
  rewrite (wait_needed_zero now _ Hw).
  destruct (Qlt_le_dec 0 0) as [Hlt | _]; [lra | done].
Qed.

(** C4, as the code has it. On the state left by the lazy reset,
    [_limiter_allow] decides in this order: a day count that has reached
    the cap (200) is refused with reason daily_cap, the count and the cap;
    otherwise a call less than 2 seconds after the last permitted one is
    refused with reason min_interval and the hint
    [floor(remaining wait) + 1], which is the remaining wait rounded up
    when that is not a whole number of seconds and one second more when it
    is; otherwise the call is permitted, [_last_call_ts] becomes [now], the
    count grows by one and the new count and the cap are returned. A
    refusal changes nothing but the reset. *)
Theorem limiter_allow_decision (now : Q) (tk : pystr) (s : LimiterState) :
  (MAX_CALLS_PER_DAY <= _day_calls (day_reset tk s) ->
   _limiter_allow now tk s
   = ((false, daily_cap_detail (_day_calls (day_reset tk s))), day_reset tk s))
  /\
  (_day_calls (day_reset tk s) < MAX_CALLS_PER_DAY ->
   (now - _last_call_ts (day_reset tk s) < inject_Z MIN_SECONDS_BETWEEN_CALLS)%Q ->
   let wait := (inject_Z MIN_SECONDS_BETWEEN_CALLS
                - (now - _last_call_ts (day_reset tk s)))%Q in
   _limiter_allow now tk s
   = ((false, min_interval_detail (Qfloor wait + 1)), day_reset tk s)
   /\ (inject_Z (Qfloor wait) == wait -> Qfloor wait + 1 = Qceiling wait + 1)
   /\ (~ inject_Z (Qfloor wait) == wait -> Qfloor wait + 1 = Qceiling wait))
  /\
  (_day_calls (day_reset tk s) < MAX_CALLS_PER_DAY ->
   (inject_Z MIN_SECONDS_BETWEEN_CALLS <= now - _last_call_ts (day_reset tk s))%Q ->
   _limiter_allow now tk s
   = ((true, allowed_detail (_day_calls (day_reset tk s) + 1)),
      {| _last_call_ts := now;
         _day_key := _day_key (day_reset tk s);
         _day_calls := _day_calls (day_reset tk s) + 1 |})).
Proof.
  split; [| split].
  - apply limiter_allow_cap.
  - intros Hc Hw wait. split; [by apply limiter_allow_interval |].
    apply floor_succ_ceiling.
  - apply limiter_allow_ok.
Qed.

(** A state in the middle of a day, and three calls on it: one second
    after the last permitted call, two and a half seconds after it, and at
    the cap. *)
Lemma limiter_allow_decision_witness :
  let s := {| _last_call_ts := 100; _day_key := Some (str "2026-11-04");
              _day_calls := 5 |} in
  let full := {| _last_call_ts := 100; _day_key := Some (str "2026-11-04");
                 _day_calls := 200 |} in
  _limiter_allow (2015 # 20) (str "2026-11-04") s
  = ((false, min_interval_detail 2), s)
  /\ _limiter_allow (205 # 2) (str "2026-11-04") s
     = ((true, allowed_detail 6),
        {| _last_call_ts := 205 # 2; _day_key := Some (str "2026-11-04");
           _day_calls := 6 |})
  /\ _limiter_allow (205 # 2) (str "2026-11-04") full
     = ((false, daily_cap_detail 200), full).
Proof.
  intros s full.
  split; [| split].
  - destruct (limiter_allow_decision (2015 # 20) (str "2026-11-04") s)
      as (_ & H & _).
    destruct H as (H & _); [vm_compute; reflexivity | vm_compute; reflexivity |].
    exact H.
  - destruct (limiter_allow_decision (205 # 2) (str "2026-11-04") s)
      as (_ & _ & H).
    apply H; [vm_compute; reflexivity | vm_compute; discriminate].
  - destruct (limiter_allow_decision (205 # 2) (str "2026-11-04") full)
      as (H & _).
    apply H. vm_compute. discriminate.
Defined.

(** C4 as stated fails where the remaining wait is a whole number of
    seconds: one second after the last permitted call the remaining wait is
    1, which rounds up to 1, and the hint is 2. *)
Lemma limiter_hint_not_rounded_up :
  _limiter_allow 101 (str "2026-11-04")
    {| _last_call_ts := 100; _day_key := Some (str "2026-11-04");
       _day_calls := 5 |}
  = ((false, min_interval_detail 2),
     {| _last_call_ts := 100; _day_key := Some (str "2026-11-04");
        _day_calls := 5 |})
  /\ Qceiling (wait_needed 101
                 {| _last_call_ts := 100; _day_key := Some (str "2026-11-04");
                    _day_calls := 5 |}) = 1.
Proof. split; vm_compute; reflexivity. Qed.

(** *** The daily cap *)

Lemma day_reset_same (tk : pystr) (s : LimiterState) :
  _day_key s = Some tk -> day_reset tk s = s.
Proof. intros H. unfold day_reset. by rewrite decide_True. Qed.

Lemma day_reset_new (tk : pystr) (s : LimiterState) :
  _day_key s ≠ Some tk -> day_reset tk s = fresh_day tk.
Proof. intros H. unfold day_reset. by rewrite decide_False. Qed.

Lemma day_reset_key (tk : pystr) (s : LimiterState) :
  _day_key (day_reset tk s) = Some tk.
Proof. unfold day_reset. by destruct (decide _). Qed.

Lemma limiter_allow_new_day (now : Q) (tk : pystr) (s : LimiterState) :
  _day_key s ≠ Some tk ->
  _limiter_allow now tk s = _limiter_allow now tk (fresh_day tk).
Proof.
  intros H. unfold _limiter_allow.
  rewrite (day_reset_new tk s H), (day_reset_same tk (fresh_day tk)); done.
Qed.

(** One call: the day key is [tk] afterwards, and the count grows by one
    exactly when the call is permitted, which needs a count below the
    cap. *)
Lemma limiter_allow_step (now : Q) (tk : pystr) (s : LimiterState) :
  let r := _limiter_allow now tk s in
  _day_key r.2 = Some tk
  /\ _day_calls r.2
     = _day_calls (day_reset tk s) + (if r.1.1 then 1 else 0)
  /\ (r.1.1 = true -> _day_calls (day_reset tk s) < MAX_CALLS_PER_DAY).
Proof.
  unfold _limiter_allow. cbv zeta.
  pose proof (day_reset_key tk s) as Hk.
  destruct (decide _) as [Hc | Hc]; simpl.
  - split; [done | split; [lia | done]].
  - destruct (Qlt_le_dec _ _); simpl.
    + split; [done | split; [lia | done]].
    + split; [done | split; [done | lia]].
Qed.

Lemma limiter_run_cons (now : Q) (tk : pystr) (calls : list (Q * pystr))
    (s : LimiterState) :
  limiter_run ((now, tk) :: calls) s
  = ((_limiter_allow now tk s).1
       :: (limiter_run calls (_limiter_allow now tk s).2).1,
     (limiter_run calls (_limiter_allow now tk s).2).2).
Proof. reflexivity. Qed.

Lemma allowed_count_cons (a : bool * value) (answers : list (bool * value)) :
  allowed_count (a :: answers)
  = ((if a.1 then 1 else 0) + allowed_count answers)%nat.
Proof.
  unfold allowed_count. by destruct a as [[] d].
Qed.

(** A run of calls on the day the state is in: the count grows by the
    number of permitted calls and stays within the cap. *)
Lemma limiter_run_same_day (tk : pystr) (calls : list (Q * pystr)) :
  forall s : LimiterState,
    Forall (fun c => c.2 = tk) calls ->
    _day_key s = Some tk ->
    _day_calls (limiter_run calls s).2
    = _day_calls s + Z.of_nat (allowed_count (limiter_run calls s).1)
    /\ _day_key (limiter_run calls s).2 = Some tk
    /\ Z.of_nat (allowed_count (limiter_run calls s).1)
       <= Z.max 0 (MAX_CALLS_PER_DAY - _day_calls s).
Proof.
  induction calls as [| [now tk'] calls IH]; intros s Hall Hkey.
  - simpl. unfold allowed_count. simpl. split; [lia | split; [done | lia]].
  - apply Forall_cons in Hall as [Htk Hall]. simpl in Htk. subst tk'.
    rewrite limiter_run_cons. simpl.
    destruct (limiter_allow_step now tk s) as (Hk & Hn & Hlt).
    rewrite (day_reset_same tk s Hkey) in Hn, Hlt.
    destruct (IH _ Hall Hk) as (IHn & IHk & IHle).
    rewrite allowed_count_cons.
    destruct ((_limiter_allow now tk s).1.1) eqn:Ha.
    + specialize (Hlt eq_refl). split; [lia | split; [done | lia]].
    + split; [lia | split; [done |]]. rewrite Hn in IHle. simpl. lia.
Qed.

(** The count is never negative in a state the program reaches. *)
Lemma limiter_run_nonneg (calls : list (Q * pystr)) :
  forall s : LimiterState,
    0 <= _day_calls s -> 0 <= _day_calls (limiter_run calls s).2.
Proof.
  induction calls as [| [now tk] calls IH]; intros s Hs; [done |].
  rewrite limiter_run_cons. simpl. apply IH.
  destruct (limiter_allow_step now tk s) as (_ & Hn & _). rewrite Hn.
  assert (0 <= _day_calls (day_reset tk s)).
  { unfold day_reset. destruct (decide _); simpl; lia. }
  destruct ((_limiter_allow now tk s).1.1); lia.
Qed.

Lemma limiter_run_new_day (now : Q) (tk : pystr) (calls : list (Q * pystr))
    (s : LimiterState) :
  _day_key s ≠ Some tk ->
  limiter_run ((now, tk) :: calls) s
  = limiter_run ((now, tk) :: calls) (fresh_day tk).
Proof.
  intros H. by rewrite !limiter_run_cons, (limiter_allow_new_day now tk s H).
Qed.

Lemma limiter_run_day_bound (tk : pystr) (calls : list (Q * pystr))
    (s : LimiterState) :
  Forall (fun c => c.2 = tk) calls ->
  0 <= _day_calls s ->
  Z.of_nat (allowed_count (limiter_run calls s).1) <= MAX_CALLS_PER_DAY.
Proof.
  intros Hall Hs.
  destruct (decide (_day_key s = Some tk)) as [Hk | Hk].
  - destruct (limiter_run_same_day tk calls s Hall Hk) as (_ & _ & H).
    unfold MAX_CALLS_PER_DAY in *. lia.
  - destruct calls as [| [now tk'] calls].
    + unfold allowed_count. simpl. unfold MAX_CALLS_PER_DAY. lia.
    + pose proof Hall as Hall'.
      apply Forall_cons in Hall' as [Htk _]. simpl in Htk. subst tk'.
      rewrite (limiter_run_new_day now tk calls s Hk).
      destruct (limiter_run_same_day tk ((now, tk) :: calls) (fresh_day tk)
                  Hall eq_refl) as (_ & _ & H).
      change (_day_calls (fresh_day tk)) with 0 in H.
      unfold MAX_CALLS_PER_DAY in *. lia.
Qed.

(** C5. Whatever calls came before, among calls that fall on one local
    date at most 200 are permitted. When 200 calls of a day that began with
    a reset have been permitted, the next call of that day is refused with
    reason daily_cap. A call on a date other than [_day_key] is decided on
    the state with the count at 0 and the last call time cleared, so the
    count of the new day is 1 or 0 after it. *)
Theorem limiter_daily_cap :
  (forall (history : list (Q * pystr)) (tk : pystr) (calls : list (Q * pystr)),
     Forall (fun c => c.2 = tk) calls ->
     (allowed_count
        (limiter_run calls (limiter_run history limiter_init).2).1
      <= Z.to_nat MAX_CALLS_PER_DAY)%nat)
  /\
  (forall (s : LimiterState) (tk : pystr) (calls : list (Q * pystr)) (now : Q),
     _day_key s ≠ Some tk ->
     Forall (fun c => c.2 = tk) calls ->
     allowed_count (limiter_run calls s).1 = Z.to_nat MAX_CALLS_PER_DAY ->
     (_limiter_allow now tk (limiter_run calls s).2).1
     = (false, daily_cap_detail MAX_CALLS_PER_DAY))
  /\
  (forall (s : LimiterState) (now : Q) (tk : pystr),
     _day_key s ≠ Some tk ->
     day_reset tk s
     = {| _last_call_ts := 0; _day_key := Some tk; _day_calls := 0 |}
     /\ _limiter_allow now tk s
        = _limiter_allow now tk
            {| _last_call_ts := 0; _day_key := Some tk; _day_calls := 0 |}
     /\ _day_calls (_limiter_allow now tk s).2
        = (if (_limiter_allow now tk s).1.1 then 1 else 0)).
Proof.
  split; [| split].
  - intros history tk calls Hall.
    pose proof (limiter_run_day_bound tk calls
                  (limiter_run history limiter_init).2 Hall
                  (limiter_run_nonneg history limiter_init ltac:(done))) as H.
    unfold MAX_CALLS_PER_DAY in *. lia.
  - intros s tk calls now Hk Hall Hcount.
    destruct calls as [| [now0 tk'] calls].
    + unfold allowed_count in Hcount. simpl in Hcount. discriminate.
    + pose proof Hall as Hall'.
      apply Forall_cons in Hall' as [Htk _]. simpl in Htk. subst tk'.
      rewrite (limiter_run_new_day now0 tk calls s Hk) in Hcount |- *.
      destruct (limiter_run_same_day tk ((now0, tk) :: calls) (fresh_day tk)
                  Hall eq_refl) as (Hn & Hkey & _).
      rewrite Hcount in Hn. change (_day_calls (fresh_day tk)) with 0 in Hn.
      rewrite limiter_allow_cap; rewrite (day_reset_same _ _ Hkey), Hn; done.
  - intros s now tk Hk.
    split; [apply (day_reset_new tk s Hk) | split].
    + apply (limiter_allow_new_day now tk s Hk).
    + destruct (limiter_allow_step now tk s) as (_ & Hn & _).
      by rewrite Hn, (day_reset_new tk s Hk).
Qed.

Lemma spaced_calls_day (tk : pystr) (n : nat) :
  Forall (fun c => c.2 = tk) (spaced_calls tk n).
Proof. unfold spaced_calls. apply Forall_fmap, Forall_true. done. Qed.

(** A day of 250 calls two seconds apart, the call after the first 200 of
    them, and the first call of the next day. *)
Lemma limiter_daily_cap_witness :
  (allowed_count
     (limiter_run (spaced_calls (str "2026-11-04") 250) limiter_init).1
   <= 200)%nat
  /\ (_limiter_allow 1000 (str "2026-11-04")
        (limiter_run (spaced_calls (str "2026-11-04") 200) limiter_init).2).1
     = (false, daily_cap_detail 200)
  /\ _day_calls
       (_limiter_allow 90000 (str "2026-11-05")
          (limiter_run (spaced_calls (str "2026-11-04") 200) limiter_init).2).2
     = 1.
Proof.
  destruct limiter_daily_cap as (Hcap & Hnext & Hreset).
  split; [| split].
  - apply (Hcap [] (str "2026-11-04")), spaced_calls_day.
  - apply Hnext;
      [discriminate | apply spaced_calls_day | vm_compute; reflexivity].
  - destruct (Hreset
                (limiter_run (spaced_calls (str "2026-11-04") 200) limiter_init).2
                90000%Q (str "2026-11-05")) as (_ & _ & H).
    + vm_compute. discriminate.
    + rewrite H. vm_compute. reflexivity.
Defined.

(** ** Dicts and the debug block *)

Lemma dict_get_set_eq (k : pystr) (v : value) (d : list (pystr * value)) :
  dict_get k (dict_set k v d) = Some v.
Proof.
  induction d as [| [k' v'] d IH]; simpl.
  - by rewrite decide_True.
  - destruct (decide (k = k')) as [-> | Hne]; simpl.
    + by rewrite decide_True.
    + by rewrite decide_False.
Qed.

Lemma dict_get_set_ne (k k' : pystr) (v : value) (d : list (pystr * value)) :
  k ≠ k' -> dict_get k (dict_set k' v d) = dict_get k d.
Proof.
  intros Hne. induction d as [| [k'' v''] d IH]; simpl.
  - by rewrite decide_False.
  - destruct (decide (k' = k'')) as [-> | Hne']; simpl.
    + by rewrite !decide_False.
    + destruct (decide (k = k'')); done.
Qed.

Lemma dict_get_set (k k' : pystr) (v : value) (d : list (pystr * value)) :
  dict_get k (dict_set k' v d) = if decide (k = k') then Some v else dict_get k d.
Proof.
  destruct (decide (k = k')) as [-> | Hne].
  - apply dict_get_set_eq.
  - by apply dict_get_set_ne.
Qed.

(** After [d.update(u)] a key has the value [u] gives it last, or the one
    it had in [d]. *)
Lemma dict_get_update (k : pystr) (u : list (pystr * value)) :
  forall d : list (pystr * value),
    dict_get k (dict_update d u)
    = match dict_get k (rev u) with
      | Some v => Some v
      | None => dict_get k d
      end.
Proof.
  induction u as [| [k' v'] u IH]; intros d; [done |].
  change (dict_update d ((k', v') :: u)) with (dict_update (dict_set k' v' d) u).
  rewrite IH, dict_get_set. simpl rev.
  assert (Happ : forall (l : list (pystr * value)),
             dict_get k (l ++ [(k', v')])
             = match dict_get k l with
               | Some v => Some v
               | None => if decide (k = k') then Some v' else None
               end).
  { induction l as [| [k'' v''] l IHl]; simpl; [done |].
    destruct (decide (k = k'')); done. }
  rewrite Happ. destruct (dict_get k (rev u)); [done |].
  destruct (decide (k = k')); done.
Qed.

Lemma debug_set_ok (k : pystr) (v : value) (d dbg : list (pystr * value)) :
  dict_get (str "debug") d = Some (VDict dbg) ->
  debug_set k v (VDict d)
  = Ok (VDict (dict_set (str "debug") (VDict (dict_set k v dbg)) d)).
Proof. intros H. unfold debug_set. by rewrite H. Qed.

Lemma debug_update_ok (u : list (pystr * value)) (d dbg : list (pystr * value)) :
  dict_get (str "debug") d = Some (VDict dbg) ->
  debug_update u (VDict d)
  = Ok (VDict (dict_set (str "debug") (VDict (dict_update dbg u)) d)).
Proof. intros H. unfold debug_update. by rewrite H. Qed.

Lemma debug_update_tagged (u : list (pystr * value)) (data : value) :
  tagged data ->
  exists doc,
    debug_update u data = Ok doc
    /\ tagged doc
    /\ (forall k, k ≠ str "debug" -> item doc k = item data k)
    /\ (forall k, debug_item doc k
                  = match dict_get k (rev u) with
                    | Some v => Some v
                    | None => debug_item data k
                    end).
Proof.
  intros (d & dbg & -> & Hdbg). eexists. split; [by apply debug_update_ok |].
  split; [| split].
  - eexists _, _. split; [done |]. apply dict_get_set_eq.
  - intros k Hk. simpl. by apply dict_get_set_ne.
  - intros k. unfold debug_item. simpl item.
    rewrite dict_get_set_eq, Hdbg. simpl. apply dict_get_update.
Qed.

(** ** The cache *)

Lemma cache_get_absent (now : Q) (query : pystr) (limit : Z)
    (db : gmap string Row) :
  db !! _cache_key query limit = None ->
  _cache_get now query limit db = Ok None.
Proof. intros H. unfold _cache_get. cbv zeta. by rewrite H. Qed.

Lemma cache_get_unreadable (now : Q) (query : pystr) (limit : Z)
    (db : gmap string Row) (row : Row) (s : pystr) :
  db !! _cache_key query limit = Some row ->
  row_payload row = not_json s ->
  _cache_get now query limit db = Ok None.
Proof. intros H Hp. unfold _cache_get. cbv zeta. by rewrite H, Hp. Qed.

(** A readable row is a hit, tagged HIT with its age; the rest of the
    payload is returned as stored. *)
Lemma cache_get_hit (now : Q) (query : pystr) (limit : Z)
    (db : gmap string Row) (row : Row) (data : value) :
  db !! _cache_key query limit = Some row ->
  row_payload row = json_dumps data ->
  payload_ok data ->
  exists c,
    _cache_get now query limit db = Ok (Some c)
    /\ cached_k c = _cache_key query limit
    /\ cached_ts c = row_ts row
    /\ cached_age c = py_int now - row_ts row
    /\ tagged (cached_data c)
    /\ (forall k, k ≠ str "debug" -> item (cached_data c) k = item data k)
    /\ debug_item (cached_data c) (str "cache") = Some (VStr (str "HIT"))
    /\ debug_item (cached_data c) (str "cache_age_seconds")
       = Some (VInt (py_int now - row_ts row)).
Proof.
  intros H Hp Hok. unfold _cache_get. cbv zeta. rewrite H, Hp. simpl json_loads.
  destruct data as [| | | | | | d]; try done. simpl in Hok.
  assert (Hshape : exists d0 dbg0,
             setdefault_debug (VDict d) = Ok (VDict d0)
             /\ dict_get (str "debug") d0 = Some (VDict dbg0)
             /\ forall k, k ≠ str "debug" -> dict_get k d0 = dict_get k d).
  { unfold setdefault_debug.
    destruct (dict_get (str "debug") d) as [[| | | | | | dbg] |] eqn:Hd; try done.
    - by exists d, dbg.
    - eexists _, []. split; [done |]. split; [apply dict_get_set_eq |].
      intros k Hk. by apply dict_get_set_ne. }
  destruct Hshape as (d0 & dbg0 & -> & Hd0 & Hrest). cbn [bind].
  rewrite (debug_set_ok _ _ _ _ Hd0). cbn [bind].
  rewrite (debug_set_ok _ _ _ (dict_set (str "cache") (VStr (str "HIT")) dbg0))
    by apply dict_get_set_eq.
  cbn [bind]. eexists. split; [done |]. simpl.
  repeat split; try done.
  - eexists _, _. split; [done |]. apply dict_get_set_eq.
  - intros k Hk. rewrite !dict_get_set_ne by done. by apply Hrest.
  - unfold debug_item. simpl. rewrite dict_get_set_eq. simpl.
    rewrite dict_get_set_ne by (vm_compute; discriminate).
    apply dict_get_set_eq.
  - unfold debug_item. simpl. rewrite dict_get_set_eq. simpl.
    apply dict_get_set_eq.
Qed.

(** Conversely, a hit comes from a readable row. *)
Lemma cache_get_hit_inv (now : Q) (query : pystr) (limit : Z)
    (db : gmap string Row) (c : Cached) :
  _cache_get now query limit db = Ok (Some c) ->
  exists row data,
    db !! _cache_key query limit = Some row
    /\ row_payload row = json_dumps data
    /\ payload_ok data.
Proof.
  unfold _cache_get. cbv zeta.
  destruct (db !! _cache_key query limit) as [row |] eqn:Hrow; [| done].
  destruct (row_payload row) as [data | s] eqn:Hp; [| done].
  simpl json_loads. intros H. exists row, data. split; [done |]. split; [done |].
  destruct data as [| | | | | | d]; try done. simpl.
  unfold setdefault_debug in H.
  destruct (dict_get (str "debug") d) as [[| | | | | | dbg] |] eqn:Hd;
    try done; simpl in H; unfold debug_set in H; rewrite Hd in H; done.
Qed.

(** [_cache_get] raises only on a row whose payload is JSON of another
    shape. *)
Lemma cache_get_raise_inv (now : Q) (query : pystr) (limit : Z)
    (db : gmap string Row) (e : exn) :
  _cache_get now query limit db = Raise e ->
  exists row data,
    db !! _cache_key query limit = Some row
    /\ row_payload row = json_dumps data
    /\ ~ payload_ok data.
Proof.
  intros H.
  destruct (db !! _cache_key query limit) as [row |] eqn:Hrow.
  2:{ by rewrite (cache_get_absent now query limit db Hrow) in H. }
  destruct (row_payload row) as [data | s] eqn:Hp.
  2:{ by rewrite (cache_get_unreadable now query limit db row s Hrow Hp) in H. }
  exists row, data. split; [done |]. split; [done |]. intros Hok.
  destruct (cache_get_hit now query limit db row data Hrow Hp Hok)
    as (c & Hget & _).
  by rewrite Hget in H.
Qed.

(** In a table of readable entries [_cache_get] does not raise. *)
Lemma cache_get_readable (now : Q) (query : pystr) (limit : Z)
    (db : gmap string Row) :
  cache_readable db ->
  exists cached, _cache_get now query limit db = Ok cached.
Proof.
  intros Hdb.
  destruct (_cache_get now query limit db) as [cached | e] eqn:Hget;
    [by exists cached |].
  destruct (cache_get_raise_inv _ _ _ _ _ Hget) as (row & data & Hrow & Hp & Hbad).
  destruct (Hdb _ _ Hrow) as (data' & Hp' & Hok).
  rewrite Hp in Hp'. injection Hp' as <-. done.
Qed.

(** The age is counted in whole seconds: an entry stored at second [ts] is
    fresh up to, and not including, second [ts + 21601] of the clock. *)
Lemma fresh_in_whole_seconds (now : Q) (ts : Z) :
  (0 <= now)%Q ->
  py_int now - ts <= TTL_SECONDS_DEFAULT
  <-> (now < inject_Z (ts + TTL_SECONDS_DEFAULT + 1))%Q.
Proof.
  intros Hnow. rewrite py_int_floor by done.
  pose proof (Qfloor_le now) as Hle. pose proof (Qlt_floor now) as Hlt.
  split; intros H.
  - eapply Qlt_le_trans; [exact Hlt |]. rewrite <- Zle_Qle. lia.
  - assert (Qfloor now < ts + TTL_SECONDS_DEFAULT + 1); [| lia].
    apply inject_Z_lt_inv. eapply Qle_lt_trans; [exact Hle | exact H].
Qed.

(** ** The client: which exceptions it raises *)

Lemma plain_ok {A} (a : A) : plain (Ok a).
Proof. intros s d. discriminate. Qed.

Lemma plain_error {A} (name : string) : plain (@Raise A (PyError name)).
Proof. intros s d. discriminate. Qed.

Lemma plain_raise {A B} (e : exn) : plain (@Raise A e) -> plain (@Raise B e).
Proof. intros H s d [= ->]. by apply (H s d). Qed.

Lemma plain_bind {A B} (m : result A) (k : A -> result B) :
  plain m -> (forall a, plain (k a)) -> plain (bind m k).
Proof.
  intros Hm Hk. destruct m as [a | e]; simpl; [apply Hk |].
  intros s d H. injection H as ->. by apply (Hm s d).
Qed.

Lemma plain_py_get (v : value) (k : pystr) (dflt : value) :
  plain (py_get v k dflt).
Proof. destruct v; simpl; first [apply plain_ok | apply plain_error]. Qed.

Lemma plain_py_in (s : pystr) (v : value) : plain (py_in s v).
Proof. destruct v; simpl; first [apply plain_ok | apply plain_error]. Qed.

Lemma plain_py_upper (v : value) : plain (py_upper v).
Proof. destruct v; simpl; first [apply plain_ok | apply plain_error]. Qed.

Lemma plain_py_slice (v : value) (n : Z) : plain (py_slice v n).
Proof. destruct v; simpl; first [apply plain_ok | apply plain_error]. Qed.

Lemma plain_r_json (r : Response) : plain (r_json r).
Proof.
  unfold r_json. destruct (body r); first [apply plain_ok | apply plain_error].
Qed.

Lemma plain_as_items (v : value) : plain (as_items v).
Proof. destruct v; simpl; first [apply plain_ok | apply plain_error]. Qed.

Lemma plain_snapshot (attempt : nat) (r : Response) : plain (snapshot attempt r).
Proof.
  unfold snapshot. apply plain_bind; [| intros; apply plain_ok].
  destruct (ok r); [| apply plain_ok].
  apply plain_bind; [apply plain_r_json | intros j].
  apply plain_bind; intros; apply plain_py_get.
Qed.

Lemma plain_retry_loop (get : nat -> Answer) (todo : list (nat * Z)) :
  forall last, plain (retry_loop get todo last).1.
Proof.
  induction todo as [| [attempt wait_s] todo IH]; intros last; simpl.
  - destruct last; first [apply plain_ok | apply plain_error].
  - destruct (get attempt) as [r | name]; [| apply plain_error].
    pose proof (plain_snapshot attempt r) as Hs.
    destruct (snapshot attempt r) as [last_debug | e];
      [| exact (plain_raise e Hs)].
    destruct (decide _); [| apply plain_ok].
    specialize (IH (Some (r, last_debug))).
    by destruct (retry_loop get todo (Some (r, last_debug))).
Qed.

Section Client.

Variable float_of_str : pystr -> option Q.

Lemma plain_is_eur (currency : pystr) (raw : value) : plain (is_eur currency raw).
Proof.
  unfold is_eur. destruct (decide _); [apply plain_ok |].
  apply plain_bind; [apply plain_py_in | intros []; [apply plain_ok |]].
  apply plain_bind; [apply plain_py_upper | intros; apply plain_ok].
Qed.

Lemma plain_normalize_item (it : value) :
  plain (normalize_item float_of_str it).
Proof.
  unfold normalize_item.
  repeat (apply plain_bind; [first [apply plain_py_get | apply plain_py_upper] | intros ?]).
  match goal with
  | |- plain (match ?x with _ => _ end) =>
      assert (H : forall rest : result (option value),
                 plain rest ->
                 plain (match x with VNone => Ok None | _ => rest end))
        by (intros rest Hrest; destruct x; first [apply plain_ok | exact Hrest]);
      destruct x
  end; try apply plain_ok;
  (apply plain_bind; [apply plain_is_eur | intros eur];
   destruct (negb eur); [apply plain_ok |];
   destruct (py_float _ _); [| apply plain_ok];
   repeat (apply plain_bind;
           [first [apply plain_py_get | apply plain_py_slice] | intros ?]);
   apply plain_ok).
Qed.

Lemma plain_normalize (items : list value) :
  plain (normalize float_of_str items).
Proof.
  induction items as [| it items IH]; simpl; [apply plain_ok |].
  apply plain_bind; [apply plain_normalize_item | intros c].
  apply plain_bind; [apply IH | intros; apply plain_ok].
Qed.

(** The client raises an [HTTPException] only with status 502 and one of
    its two details, built on the last attempt's snapshot. *)
Lemma serpapi_http_error (get : nat -> Answer) (query : pystr) (limit : Z)
    (status : Z) (detail : value) :
  (_serpapi_call_sold float_of_str get query limit).1
  = Raise (HTTPException status detail) ->
  status = 502
  /\ exists r last_debug,
       (retry_loop get (enumerate 1 [2; 4; 8]) None).1 = Ok (r, last_debug)
       /\ (detail = VDict [(str "reason", VStr (str "serpapi_failed"));
                           (str "debug", last_debug)]
           \/ exists err,
                detail = VDict [(str "reason", VStr (str "serpapi_error"));
                                (str "error", err);
                                (str "debug", last_debug)]).
Proof.
  unfold _serpapi_call_sold. cbv zeta. cbn [fst].
  pose proof (plain_retry_loop get (enumerate 1 [2; 4; 8]) None) as Hloop.
  destruct (retry_loop get (enumerate 1 [2; 4; 8]) None).1
    as [[r last_debug] | e] eqn:Hl.
  - destruct (decide (status_code r ≠ 200)) as [Hs | Hs].
    + intros H. inversion H; subst. split; [done |].
      exists r, last_debug. by split; [| left].
    + destruct (r_json r) as [data | e] eqn:Hj; cbn [bind].
      2:{ intros H. injection H as ->.
          by destruct (plain_r_json r status detail). }
      destruct (py_in (str "error") data) as [[] | e] eqn:Hin; cbn [bind].
      3:{ intros H. injection H as ->.
          by destruct (plain_py_in (str "error") data status detail). }
      * destruct data; cbn [bind]; try discriminate.
        intros H. inversion H; subst. split; [done |]. exists r, last_debug.
        split; [done |]. right. by eexists.
      * intros H. exfalso. revert H.
        apply (plain_bind _ _ (plain_py_get _ _ _)). intros found.
        apply (plain_bind _ _ (plain_as_items _)). intros items.
        apply (plain_bind _ _ (plain_normalize _)). intros comps.
        apply plain_ok.
  - intros H. injection H as ->. by destruct (Hloop status detail).
Qed.

(** On success the debug dict has the three keys of the source. *)
Lemma serpapi_ok_debug (get : nat -> Answer) (query : pystr) (limit : Z)
    (comps : list value) (dbg : list (pystr * value)) :
  (_serpapi_call_sold float_of_str get query limit).1 = Ok (comps, dbg) ->
  exists count_raw count_eur last_debug,
    dbg = [(str "count_raw", VInt count_raw);
           (str "count_eur", VInt count_eur);
           (str "serpapi_debug", last_debug)].
Proof.
  unfold _serpapi_call_sold. cbv zeta. cbn [fst].
  destruct (retry_loop get (enumerate 1 [2; 4; 8]) None).1
    as [[r last_debug] | e]; [| done].
  destruct (decide _); [done |].
  destruct (r_json r) as [data | e]; cbn [bind]; [| done].
  destruct (py_in (str "error") data) as [[] | e]; cbn [bind]; [| | done].
  - destruct data; cbn [bind]; done.
  - destruct (py_get data _ _) as [found | e]; cbn [bind]; [| done].
    destruct (as_items _) as [items | e]; cbn [bind]; [| done].
    destruct (normalize _ _) as [cs | e]; cbn [bind]; [| done].
    intros [= <- <-]. by eexists _, _, _.
Qed.

End Client.

(** ** The orchestrator: one equation per branch *)

Section Fetch.

Variable SERPAPI_KEY : pystr.
Variable float_of_str : pystr -> option Q.

Abbreviation fetch := (fetch_ebay_sold SERPAPI_KEY float_of_str).
Abbreviation refresh := (fetch_refresh float_of_str).
Abbreviation call := (_serpapi_call_sold float_of_str).

Lemma fetch_fresh (env : Env) (query : pystr) (limit : Z) (w : World)
    (c : Cached) :
  SERPAPI_KEY ≠ [] ->
  _cache_get (now_get env) query (clamp_limit limit) (cache w) = Ok (Some c) ->
  cached_age c <= TTL_SECONDS_DEFAULT ->
  fetch env query limit w = (debug_update fresh_tags (cached_data c), w).
Proof.
  intros Hkey Hget Hage. unfold fetch_ebay_sold.
  rewrite decide_False by done. cbv zeta. rewrite Hget.
  by rewrite decide_True.
Qed.

Lemma fetch_stale (env : Env) (query : pystr) (limit : Z) (w : World)
    (c : Cached) :
  SERPAPI_KEY ≠ [] ->
  _cache_get (now_get env) query (clamp_limit limit) (cache w) = Ok (Some c) ->
  TTL_SECONDS_DEFAULT < cached_age c ->
  fetch env query limit w = refresh env query (clamp_limit limit) (Some c) w.
Proof.
  intros Hkey Hget Hage. unfold fetch_ebay_sold.
  rewrite decide_False by done. cbv zeta. rewrite Hget.
  rewrite decide_False by lia. done.
Qed.

Lemma fetch_absent (env : Env) (query : pystr) (limit : Z) (w : World) :
  SERPAPI_KEY ≠ [] ->
  _cache_get (now_get env) query (clamp_limit limit) (cache w) = Ok None ->
  fetch env query limit w = refresh env query (clamp_limit limit) None w.
Proof.
  intros Hkey Hget. unfold fetch_ebay_sold.
  rewrite decide_False by done. cbv zeta. by rewrite Hget.
Qed.

Lemma refresh_denied (env : Env) (query : pystr) (limit : Z)
    (cached : option Cached) (w : World) (lim_dbg : value) (lim' : LimiterState) :
  _limiter_allow (now_lim env) (today env) (limiter w) = ((false, lim_dbg), lim') ->
  refresh env query limit cached w
  = (match cached with
     | Some c => debug_update (skipped_tags lim_dbg) (cached_data c)
     | None => Raise (HTTPException 429 (rate_limited_detail lim_dbg))
     end,
     {| limiter := lim'; cache := cache w; events := events w |}).
Proof.
  intros Hlim. unfold fetch_refresh. rewrite Hlim. simpl negb. cbv iota.
  by destruct cached.
Qed.

Lemma refresh_allowed (env : Env) (query : pystr) (limit : Z)
    (cached : option Cached) (w : World) (lim_dbg : value) (lim' : LimiterState) :
  _limiter_allow (now_lim env) (today env) (limiter w) = ((true, lim_dbg), lim') ->
  refresh env query limit cached w
  = let called := call (requests_get env) query limit in
    let w' := {| limiter := lim'; cache := cache w;
                 events := events w ++ called.2 |} in
    match called.1 with
    | Ok (comps, dbg) =>
        (Ok (miss_document comps dbg),
         {| limiter := lim';
            cache := _cache_set (now_set env) query limit
                       (miss_document comps dbg) (cache w);
            events := events w ++ called.2 |})
    | Raise (HTTPException status detail) =>
        (match cached with
         | Some c => debug_update (failed_tags detail) (cached_data c)
         | None => Raise (HTTPException status detail)
         end, w')
    | Raise e => (Raise e, w')
    end.
Proof.
  intros Hlim. unfold fetch_refresh. rewrite Hlim. simpl negb. cbv iota zeta.
  destruct (call (requests_get env) query limit).1 as [[comps dbg] | [s d | name]];
    simpl; try done.
  by destruct cached.
Qed.

(** The limiter state after a refresh is the one [_limiter_allow] left,
    whatever the client did afterwards. *)
Lemma refresh_limiter (env : Env) (query : pystr) (limit : Z)
    (cached : option Cached) (w : World) :
  limiter (refresh env query limit cached w).2
  = (_limiter_allow (now_lim env) (today env) (limiter w)).2.
Proof.
  destruct (_limiter_allow (now_lim env) (today env) (limiter w))
    as [[[] lim_dbg] lim'] eqn:Hlim.
  - rewrite (refresh_allowed _ _ _ _ _ _ _ Hlim). cbv zeta.
    destruct (call (requests_get env) query limit).1
      as [[comps dbg] | [s d | name]]; done.
  - by rewrite (refresh_denied _ _ _ _ _ _ _ Hlim).
Qed.

Lemma miss_document_cache (comps : list value) (dbg : list (pystr * value))
    (get : nat -> Answer) (query : pystr) (limit : Z) :
  (call get query limit).1 = Ok (comps, dbg) ->
  debug_item (miss_document comps dbg) (str "cache") = Some (VStr (str "MISS"))
  /\ debug_item (miss_document comps dbg) (str "stale") = None
  /\ item (miss_document comps dbg) (str "items") = Some (VList comps).
Proof.
  intros H. apply serpapi_ok_debug in H as (n & m & ld & ->). done.
Qed.

(** C2, as the code has it. With the API key set, a readable entry for
    (query, clamped limit) whose age in whole seconds, [int(now) - ts] with
    [ts] the whole second of the write, is at most [TTL_SECONDS_DEFAULT]
    (21600) is returned as stored, tagged cache=HIT, stale=False,
    ttl_seconds=21600 and its age, and the world is left as it was: the
    limiter is not consulted, no request is made, the cache is not
    written. When that age exceeds 21600 the limiter is consulted, and a
    document that is returned is tagged stale=True or is the result of a
    new call (cache=MISS). On the clock, the entry is fresh until second
    [ts + 21601], not included. *)
Theorem fetch_fresh_hit (env : Env) (query : pystr) (limit : Z) (w : World)
    (row : Row) (data : value) :
  SERPAPI_KEY ≠ [] ->
  cache w !! _cache_key query (clamp_limit limit) = Some row ->
  row_payload row = json_dumps data ->
  payload_ok data ->
  (py_int (now_get env) - row_ts row <= TTL_SECONDS_DEFAULT ->
   exists doc,
     fetch env query limit w = (Ok doc, w)
     /\ (forall k, k ≠ str "debug" -> item doc k = item data k)
     /\ debug_item doc (str "cache") = Some (VStr (str "HIT"))
     /\ debug_item doc (str "stale") = Some (VBool false)
     /\ debug_item doc (str "ttl_seconds") = Some (VInt 21600)
     /\ debug_item doc (str "cache_age_seconds")
        = Some (VInt (py_int (now_get env) - row_ts row)))
  /\
  (TTL_SECONDS_DEFAULT < py_int (now_get env) - row_ts row ->
   limiter (fetch env query limit w).2
   = (_limiter_allow (now_lim env) (today env) (limiter w)).2
   /\ forall doc,
        (fetch env query limit w).1 = Ok doc ->
        debug_item doc (str "stale") = Some (VBool true)
        \/ debug_item doc (str "cache") = Some (VStr (str "MISS")))
  /\
  ((0 <= now_get env)%Q ->
   py_int (now_get env) - row_ts row <= TTL_SECONDS_DEFAULT
   <-> (now_get env < inject_Z (row_ts row + TTL_SECONDS_DEFAULT + 1))%Q).
Proof.
  intros Hkey Hrow Hpay Hok.
  destruct (cache_get_hit (now_get env) query (clamp_limit limit) (cache w)
              row data Hrow Hpay Hok)
    as (c & Hget & _ & _ & Hage & Htag & Hitems & Hhit & Hsecs).
  split; [| split; [| apply fresh_in_whole_seconds]]; intros Hfresh.
  - rewrite (fetch_fresh env query limit w c Hkey Hget) by (by rewrite Hage).
    destruct (debug_update_tagged fresh_tags _ Htag)
      as (doc & -> & _ & Hrest & Hdbg).
    exists doc. split; [done |]. split; [| repeat split].
    + intros k Hk. by rewrite Hrest, Hitems.
    + by rewrite Hdbg.
    + by rewrite Hdbg.
    + by rewrite Hdbg.
    + by rewrite Hdbg.
  - rewrite (fetch_stale env query limit w c Hkey Hget) by (by rewrite Hage).
    split; [apply refresh_limiter |]. intros doc.
    destruct (_limiter_allow (now_lim env) (today env) (limiter w))
      as [[[] lim_dbg] lim'] eqn:Hlim.
    + rewrite (refresh_allowed _ _ _ _ _ _ _ Hlim). cbv zeta.
      destruct (call (requests_get env) query (clamp_limit limit)).1
        as [[comps dbg] | [s d | name]] eqn:Hcall; simpl; [| | done].
      * intros [= <-]. right. by apply (miss_document_cache _ _ _ _ _ Hcall).
      * destruct (debug_update_tagged (failed_tags d) _ Htag)
          as (doc' & -> & _ & _ & Hdbg).
        intros [= <-]. left. by rewrite Hdbg.
    + rewrite (refresh_denied _ _ _ _ _ _ _ Hlim). simpl.
      destruct (debug_update_tagged (skipped_tags lim_dbg) _ Htag)
        as (doc' & -> & _ & _ & Hdbg).
      intros [= <-]. left. by rewrite Hdbg.
Qed.

(** C3, as the code has it. With the API key set, a readable entry older
    than 21600 s and a refusal of the limiter, the entry is returned as
    stored, tagged stale=True with the limiter's detail under
    refresh_skipped. The ttl_seconds it reports is [TTL_SECONDS_DEFAULT]
    (21600), not [TTL_SECONDS_FALLBACK] (86400). Only the reset of the
    limiter is kept in the world. *)
Theorem fetch_denied_serves_stale (env : Env) (query : pystr) (limit : Z)
    (w : World) (row : Row) (data : value) (lim_dbg : value)
    (lim' : LimiterState) :
  SERPAPI_KEY ≠ [] ->
  cache w !! _cache_key query (clamp_limit limit) = Some row ->
  row_payload row = json_dumps data ->
  payload_ok data ->
  TTL_SECONDS_DEFAULT < py_int (now_get env) - row_ts row ->
  _limiter_allow (now_lim env) (today env) (limiter w) = ((false, lim_dbg), lim') ->
  exists doc,
    fetch env query limit w
    = (Ok doc, {| limiter := lim'; cache := cache w; events := events w |})
    /\ (forall k, k ≠ str "debug" -> item doc k = item data k)
    /\ debug_item doc (str "cache") = Some (VStr (str "HIT"))
    /\ debug_item doc (str "stale") = Some (VBool true)
    /\ debug_item doc (str "refresh_skipped") = Some lim_dbg
    /\ debug_item doc (str "ttl_seconds") = Some (VInt 21600)
    /\ debug_item doc (str "ttl_seconds") ≠ Some (VInt TTL_SECONDS_FALLBACK).
Proof.
  intros Hkey Hrow Hpay Hok Hold Hlim.
  destruct (cache_get_hit (now_get env) query (clamp_limit limit) (cache w)
              row data Hrow Hpay Hok)
    as (c & Hget & _ & _ & Hage & Htag & Hitems & Hhit & _).
  rewrite (fetch_stale env query limit w c Hkey Hget) by (by rewrite Hage).
  rewrite (refresh_denied _ _ _ _ _ _ _ Hlim).
  destruct (debug_update_tagged (skipped_tags lim_dbg) _ Htag)
    as (doc & -> & _ & Hrest & Hdbg).
  exists doc. split; [done |]. split; [| repeat split].
  - intros k Hk. by rewrite Hrest, Hitems.
  - by rewrite Hdbg.
  - by rewrite Hdbg.
  - by rewrite Hdbg.
  - by rewrite Hdbg.
  - by rewrite Hdbg.
Qed.

Lemma plain_debug_update (u : list (pystr * value)) (data : value) :
  plain (debug_update u data).
Proof.
  unfold debug_update. destruct data; try apply plain_error.
  destruct (dict_get _ _) as [[] |];
    first [apply plain_ok | apply plain_error].
Qed.

Lemma plain_cache_get (now : Q) (query : pystr) (limit : Z)
    (db : gmap string Row) : plain (_cache_get now query limit db).
Proof.
  unfold _cache_get. cbv zeta. destruct (db !! _); [| apply plain_ok].
  destruct (json_loads _) as [data | e]; [| apply plain_ok].
  apply plain_bind.
  { unfold setdefault_debug. destruct data; try apply plain_error.
    destruct (dict_get _ _); apply plain_ok. }
  intros d1. apply plain_bind; [| intros d2; apply plain_bind; [| intros; apply plain_ok]].
  - unfold debug_set. destruct d1; try apply plain_error.
    destruct (dict_get _ _) as [[] |]; first [apply plain_ok | apply plain_error].
  - unfold debug_set. destruct d2; try apply plain_error.
    destruct (dict_get _ _) as [[] |]; first [apply plain_ok | apply plain_error].
Qed.

(** The detail of the 400 raised without an API key. *)
Lemma fetch_missing_key (env : Env) (query : pystr) (limit : Z) (w : World) :
  SERPAPI_KEY = [] ->
  fetch env query limit w
  = (Raise (HTTPException 400
              (VDict [(str "reason", VStr (str "missing_serpapi_key"))])), w).
Proof. intros H. unfold fetch_ebay_sold. by rewrite decide_True. Qed.

(** A hit is tagged, so the updates of its debug block do not raise. *)
Lemma cache_get_tagged (now : Q) (query : pystr) (limit : Z)
    (db : gmap string Row) (c : Cached) :
  _cache_get now query limit db = Ok (Some c) -> tagged (cached_data c).
Proof.
  intros Hget.
  destruct (cache_get_hit_inv _ _ _ _ _ Hget) as (row & data & Hrow & Hpay & Hok).
  destruct (cache_get_hit now _ _ _ _ _ Hrow Hpay Hok)
    as (c' & Hget' & _ & _ & _ & Htag & _).
  rewrite Hget in Hget'. by injection Hget' as <-.
Qed.

(** An exception that is no [HTTPException] comes from a cached payload of
    another shape or from the client. *)
Lemma fetch_other_exception (env : Env) (query : pystr) (limit : Z)
    (w : World) (name : string) :
  (fetch env query limit w).1 = Raise (PyError name) ->
  SERPAPI_KEY ≠ []
  /\ ((exists row data,
         cache w !! _cache_key query (clamp_limit limit) = Some row
         /\ row_payload row = json_dumps data
         /\ ~ payload_ok data)
      \/ ((_limiter_allow (now_lim env) (today env) (limiter w)).1.1 = true
          /\ (call (requests_get env) query (clamp_limit limit)).1
             = Raise (PyError name))).
Proof.
  destruct (decide (SERPAPI_KEY = [])) as [Hkey | Hkey].
  { by rewrite (fetch_missing_key env query limit w Hkey). }
  intros H. split; [done |].
  assert (Hupd : forall u c,
             _cache_get (now_get env) query (clamp_limit limit) (cache w)
             = Ok (Some c) ->
             debug_update u (cached_data c) ≠ Raise (PyError name)).
  { intros u c Hget Hraise.
    destruct (debug_update_tagged u _ (cache_get_tagged _ _ _ _ _ Hget))
      as (doc & Hdoc & _).
    by rewrite Hdoc in Hraise. }
  assert (Hrefresh : forall cached,
             _cache_get (now_get env) query (clamp_limit limit) (cache w)
             = Ok cached ->
             (refresh env query (clamp_limit limit) cached w).1
             = Raise (PyError name) ->
             (_limiter_allow (now_lim env) (today env) (limiter w)).1.1 = true
             /\ (call (requests_get env) query (clamp_limit limit)).1
                = Raise (PyError name)).
  { intros cached Hget.
    destruct (_limiter_allow (now_lim env) (today env) (limiter w))
      as [[[] lim_dbg] lim'] eqn:Hlim.
    - rewrite (refresh_allowed _ _ _ _ _ _ _ Hlim). cbv zeta.
      destruct (call (requests_get env) query (clamp_limit limit)).1
        as [[comps dbg] | [s d | name']]; simpl; [done | | by intros [= ->]].
      destruct cached as [c |]; [| done].
      intros Hraise. by destruct (Hupd (failed_tags d) c).
    - rewrite (refresh_denied _ _ _ _ _ _ _ Hlim). simpl.
      destruct cached as [c |]; [| done].
      intros Hraise. by destruct (Hupd (skipped_tags lim_dbg) c). }
  destruct (_cache_get (now_get env) query (clamp_limit limit) (cache w))
    as [[c |] | e] eqn:Hget.
  - destruct (decide (cached_age c <= TTL_SECONDS_DEFAULT)) as [Hage | Hage].
    + rewrite (fetch_fresh env query limit w c Hkey Hget Hage) in H.
      by destruct (Hupd fresh_tags c).
    + rewrite (fetch_stale env query limit w c Hkey Hget) in H by lia.
      right. by apply (Hrefresh (Some c)).
  - rewrite (fetch_absent env query limit w Hkey Hget) in H.
    right. by apply (Hrefresh None).
  - left. by apply (cache_get_raise_inv _ _ _ _ _ Hget).
Qed.

(** C1, as the code has it. [fetch_ebay_sold] raises an HTTP error in three
    cases only: 400 when no API key is set; 429 with the limiter's detail
    when [_cache_get] finds no readable entry and the limiter refuses; the
    client's 502 when [_cache_get] finds no readable entry, the limiter
    permits and the client raises it. With the key set, a readable entry
    older than 21600 s is returned tagged stale=True when the limiter
    refuses, and tagged stale=True with the client's detail under
    refresh_failed when the client raises its 502. *)
Theorem fetch_failure_policy (env : Env) (query : pystr) (limit : Z)
    (w : World) :
  (forall status detail,
     (fetch env query limit w).1 = Raise (HTTPException status detail) ->
     (SERPAPI_KEY = [] /\ status = 400
      /\ detail = VDict [(str "reason", VStr (str "missing_serpapi_key"))])
     \/
     (SERPAPI_KEY ≠ []
      /\ _cache_get (now_get env) query (clamp_limit limit) (cache w) = Ok None
      /\ exists lim_dbg,
           ((_limiter_allow (now_lim env) (today env) (limiter w)).1
            = (false, lim_dbg)
            /\ status = 429 /\ detail = rate_limited_detail lim_dbg)
           \/
           ((_limiter_allow (now_lim env) (today env) (limiter w)).1
            = (true, lim_dbg)
            /\ status = 502
            /\ (call (requests_get env) query (clamp_limit limit)).1
               = Raise (HTTPException 502 detail))))
  /\
  (SERPAPI_KEY ≠ [] ->
   _cache_get (now_get env) query (clamp_limit limit) (cache w) = Ok None ->
   forall lim_dbg,
     ((_limiter_allow (now_lim env) (today env) (limiter w)).1 = (false, lim_dbg) ->
      (fetch env query limit w).1
      = Raise (HTTPException 429 (rate_limited_detail lim_dbg)))
     /\
     ((_limiter_allow (now_lim env) (today env) (limiter w)).1 = (true, lim_dbg) ->
      forall status detail,
        (call (requests_get env) query (clamp_limit limit)).1
        = Raise (HTTPException status detail) ->
        status = 502
        /\ (fetch env query limit w).1 = Raise (HTTPException 502 detail)))
  /\
  (SERPAPI_KEY ≠ [] ->
   forall row data,
     cache w !! _cache_key query (clamp_limit limit) = Some row ->
     row_payload row = json_dumps data ->
     payload_ok data ->
     TTL_SECONDS_DEFAULT < py_int (now_get env) - row_ts row ->
     forall lim_dbg,
       ((_limiter_allow (now_lim env) (today env) (limiter w)).1 = (false, lim_dbg) ->
        exists doc,
          (fetch env query limit w).1 = Ok doc
          /\ (forall k, k ≠ str "debug" -> item doc k = item data k)
          /\ debug_item doc (str "stale") = Some (VBool true)
          /\ debug_item doc (str "refresh_skipped") = Some lim_dbg)
       /\
       ((_limiter_allow (now_lim env) (today env) (limiter w)).1 = (true, lim_dbg) ->
        forall status detail,
          (call (requests_get env) query (clamp_limit limit)).1
          = Raise (HTTPException status detail) ->
          exists doc,
            (fetch env query limit w).1 = Ok doc
            /\ (forall k, k ≠ str "debug" -> item doc k = item data k)
            /\ debug_item doc (str "stale") = Some (VBool true)
            /\ debug_item doc (str "refresh_failed") = Some detail)).
Proof.
  split; [| split].
  - intros status detail.
    destruct (decide (SERPAPI_KEY = [])) as [Hkey | Hkey].
    { rewrite (fetch_missing_key env query limit w Hkey). simpl.
      intros H. inversion H; subst. by left. }
    intros H. right. split; [done |].
    pose proof (plain_cache_get (now_get env) query (clamp_limit limit) (cache w))
      as Hplain.
    destruct (_cache_get (now_get env) query (clamp_limit limit) (cache w))
      as [[c |] | e] eqn:Hget.
    + exfalso.
      destruct (decide (cached_age c <= TTL_SECONDS_DEFAULT)) as [Hage | Hage].
      * rewrite (fetch_fresh env query limit w c Hkey Hget Hage) in H.
        by apply (plain_debug_update fresh_tags (cached_data c) status detail).
      * rewrite (fetch_stale env query limit w c Hkey Hget) in H by lia.
        destruct (_limiter_allow (now_lim env) (today env) (limiter w))
          as [[[] lim_dbg] lim'] eqn:Hlim.
        -- rewrite (refresh_allowed _ _ _ _ _ _ _ Hlim) in H. cbv zeta in H.
           destruct (call (requests_get env) query (clamp_limit limit)).1
             as [[comps dbg] | [s d | name]]; simpl in H; try done.
           by apply (plain_debug_update (failed_tags d) (cached_data c) status detail).
        -- rewrite (refresh_denied _ _ _ _ _ _ _ Hlim) in H. simpl in H.
           by apply (plain_debug_update (skipped_tags lim_dbg) (cached_data c)
                       status detail).
    + split; [done |].
      rewrite (fetch_absent env query limit w Hkey Hget) in H.
      destruct (_limiter_allow (now_lim env) (today env) (limiter w))
        as [[[] lim_dbg] lim'] eqn:Hlim; exists lim_dbg.
      * right. rewrite (refresh_allowed _ _ _ _ _ _ _ Hlim) in H. cbv zeta in H.
        destruct (call (requests_get env) query (clamp_limit limit)).1
          as [[comps dbg] | [s d | name]] eqn:Hcall; simpl in H; try done.
        inversion H; subst.
        destruct (serpapi_http_error _ _ _ _ _ _ Hcall) as [-> _]. done.
      * left. rewrite (refresh_denied _ _ _ _ _ _ _ Hlim) in H. simpl in H.
        inversion H; subst. done.
    + exfalso. unfold fetch_ebay_sold in H.
      rewrite decide_False in H by done. cbv zeta in H. rewrite Hget in H.
      simpl in H. inversion H; subst. by apply (Hplain status detail).
  - intros Hkey Hget lim_dbg.
    rewrite (fetch_absent env query limit w Hkey Hget).
    destruct (_limiter_allow (now_lim env) (today env) (limiter w))
      as [[allowed lim_dbg'] lim'] eqn:Hlim.
    split; intros Ha; simpl in Ha; inversion Ha; subst.
    + by rewrite (refresh_denied _ _ _ _ _ _ _ Hlim).
    + intros status detail Hcall.
      destruct (serpapi_http_error _ _ _ _ _ _ Hcall) as [-> _].
      split; [done |].
      rewrite (refresh_allowed _ _ _ _ _ _ _ Hlim). cbv zeta.
      by rewrite Hcall.
  - intros Hkey row data Hrow Hpay Hok Hold lim_dbg.
    destruct (cache_get_hit (now_get env) query (clamp_limit limit) (cache w)
                row data Hrow Hpay Hok)
      as (c & Hget & _ & _ & Hage & Htag & Hitems & _).
    rewrite (fetch_stale env query limit w c Hkey Hget) by (by rewrite Hage).
    destruct (_limiter_allow (now_lim env) (today env) (limiter w))
      as [[allowed lim_dbg'] lim'] eqn:Hlim.
    split; intros Ha; simpl in Ha; inversion Ha; subst.
    + rewrite (refresh_denied _ _ _ _ _ _ _ Hlim). simpl.
      destruct (debug_update_tagged (skipped_tags lim_dbg) _ Htag)
        as (doc & -> & _ & Hrest & Hdbg).
      exists doc. split; [done |]. split; [| split].
      * intros k Hk. by rewrite Hrest, Hitems.
      * by rewrite Hdbg.
      * by rewrite Hdbg.
    + intros status detail Hcall.
      rewrite (refresh_allowed _ _ _ _ _ _ _ Hlim). cbv zeta. rewrite Hcall.
      simpl.
      destruct (debug_update_tagged (failed_tags detail) _ Htag)
        as (doc & -> & _ & Hrest & Hdbg).
      exists doc. split; [done |]. split; [| split].
      * intros k Hk. by rewrite Hrest, Hitems.
      * by rewrite Hdbg.
      * by rewrite Hdbg.
Qed.

(** What a fetch leaves in the cache: the table as it was, or the table with
    the row of a successful call. *)
Lemma fetch_cache_cases (env : Env) (query : pystr) (limit : Z) (w : World) :
  ((fetch env query limit w).2.(cache) = cache w
   /\ forall comps dbg,
        (fetch env query limit w).1 = Ok (miss_document comps dbg) ->
        debug_item (miss_document comps dbg) (str "cache")
        ≠ Some (VStr (str "MISS")))
  \/
  exists comps dbg,
    (call (requests_get env) query (clamp_limit limit)).1 = Ok (comps, dbg)
    /\ (fetch env query limit w).1 = Ok (miss_document comps dbg)
    /\ (fetch env query limit w).2.(cache)
       = _cache_set (now_set env) query (clamp_limit limit)
           (miss_document comps dbg) (cache w).
Proof.
  assert (Hhit : forall (c : Cached) u,
             tagged (cached_data c) ->
             debug_item (cached_data c) (str "cache") = Some (VStr (str "HIT")) ->
             dict_get (str "cache") (rev u) = None ->
             forall comps dbg,
               debug_update u (cached_data c) = Ok (miss_document comps dbg) ->
               debug_item (miss_document comps dbg) (str "cache")
               ≠ Some (VStr (str "MISS"))).
  { intros c u Htag Hc Hu comps dbg Hupd.
    destruct (debug_update_tagged u _ Htag) as (doc & Hdoc & _ & _ & Hdbg).
    rewrite Hupd in Hdoc. injection Hdoc as <-.
    rewrite Hdbg, Hu, Hc. discriminate. }
  destruct (decide (SERPAPI_KEY = [])) as [Hkey | Hkey].
  { left. rewrite (fetch_missing_key env query limit w Hkey). by split. }
  destruct (_cache_get (now_get env) query (clamp_limit limit) (cache w))
    as [cached | e] eqn:Hget.
  2:{ left. unfold fetch_ebay_sold. rewrite decide_False by done.
      cbv zeta. rewrite Hget. by split. }
  assert (Hc : forall c, cached = Some c ->
               tagged (cached_data c)
               /\ debug_item (cached_data c) (str "cache")
                  = Some (VStr (str "HIT"))).
  { intros c ->.
    destruct (cache_get_hit_inv _ _ _ _ _ Hget) as (row & data & Hrow & Hpay & Hok).
    destruct (cache_get_hit (now_get env) _ _ _ _ _ Hrow Hpay Hok)
      as (c' & Hget' & _ & _ & _ & Htag & _ & Hh & _).
    rewrite Hget in Hget'. injection Hget' as <-. done. }
  assert (Hrefresh :
            ((refresh env query (clamp_limit limit) cached w).2.(cache) = cache w
             /\ forall comps dbg,
                  (refresh env query (clamp_limit limit) cached w).1
                  = Ok (miss_document comps dbg) ->
                  debug_item (miss_document comps dbg) (str "cache")
                  ≠ Some (VStr (str "MISS")))
            \/
            exists comps dbg,
              (call (requests_get env) query (clamp_limit limit)).1 = Ok (comps, dbg)
              /\ (refresh env query (clamp_limit limit) cached w).1
                 = Ok (miss_document comps dbg)
              /\ (refresh env query (clamp_limit limit) cached w).2.(cache)
                 = _cache_set (now_set env) query (clamp_limit limit)
                     (miss_document comps dbg) (cache w)).
  { destruct (_limiter_allow (now_lim env) (today env) (limiter w))
      as [[[] lim_dbg] lim'] eqn:Hlim.
    - rewrite (refresh_allowed _ _ _ _ _ _ _ Hlim). cbv zeta.
      destruct (call (requests_get env) query (clamp_limit limit)).1
        as [[comps dbg] | [s d | name]] eqn:Hcall; simpl.
      + right. by exists comps, dbg.
      + left. split; [done |]. destruct cached as [c |]; [| done].
        destruct (Hc c eq_refl) as [Htag Hh].
        by apply (Hhit c (failed_tags d)).
      + left. by split.
    - rewrite (refresh_denied _ _ _ _ _ _ _ Hlim). simpl.
      left. split; [done |]. destruct cached as [c |]; [| done].
      destruct (Hc c eq_refl) as [Htag Hh].
      by apply (Hhit c (skipped_tags lim_dbg)). }
  destruct cached as [c |].
  - destruct (decide (cached_age c <= TTL_SECONDS_DEFAULT)) as [Hage | Hage].
    + left. rewrite (fetch_fresh env query limit w c Hkey Hget Hage).
      split; [done |]. destruct (Hc c eq_refl) as [Htag Hh].
      by apply (Hhit c fresh_tags).
    + by rewrite (fetch_stale env query limit w c Hkey Hget) by lia.
  - by rewrite (fetch_absent env query limit w Hkey Hget).
Qed.

(** A fetch leaves a table of readable entries readable. *)
Lemma fetch_keeps_readable (env : Env) (query : pystr) (limit : Z) (w : World) :
  cache_readable (cache w) ->
  cache_readable (fetch env query limit w).2.(cache).
Proof.
  intros Hdb.
  destruct (fetch_cache_cases env query limit w)
    as [[Hsame _] | (comps & dbg & _ & _ & Hset)].
  - by rewrite Hsame.
  - rewrite Hset. unfold _cache_set. cbv zeta. intros k row.
    destruct (decide (_cache_key query (clamp_limit limit) = k)) as [<- | Hne].
    + rewrite lookup_insert_eq. intros [= <-].
      exists (miss_document comps dbg). by split.
    + rewrite lookup_insert_ne by done. apply Hdb.
Qed.

(** C9. A fetch changes the cache only when its call to the client
    succeeded and it returns the new document (cache=MISS); then the one
    row of (query, clamped limit) is inserted or replaced. A fetch that
    raises, or whose client call raised, or that returns a document tagged
    cache=HIT, leaves the table as it was. No fetch removes a row, and
    [_cache_clear] empties the table. *)
Theorem cache_written_only_on_success (env : Env) (query : pystr) (limit : Z)
    (w : World) :
  (forall e, (fetch env query limit w).1 = Raise e ->
             (fetch env query limit w).2.(cache) = cache w)
  /\ (forall e,
        (call (requests_get env) query (clamp_limit limit)).1 = Raise e ->
        (fetch env query limit w).2.(cache) = cache w)
  /\ (forall doc,
        (fetch env query limit w).1 = Ok doc ->
        debug_item doc (str "cache") = Some (VStr (str "HIT")) ->
        (fetch env query limit w).2.(cache) = cache w)
  /\ ((fetch env query limit w).2.(cache) ≠ cache w ->
      exists comps dbg,
        (call (requests_get env) query (clamp_limit limit)).1 = Ok (comps, dbg)
        /\ (fetch env query limit w).1 = Ok (miss_document comps dbg)
        /\ debug_item (miss_document comps dbg) (str "cache")
           = Some (VStr (str "MISS"))
        /\ (fetch env query limit w).2.(cache)
           = <[_cache_key query (clamp_limit limit) :=
                 {| row_query := query; row_lim := clamp_limit limit;
                    row_ts := py_int (now_set env);
                    row_payload := json_dumps (miss_document comps dbg) |}]>
               (cache w))
  /\ (forall k, is_Some (cache w !! k) ->
                is_Some ((fetch env query limit w).2.(cache) !! k))
  /\ (forall k, k ≠ _cache_key query (clamp_limit limit) ->
                (fetch env query limit w).2.(cache) !! k = cache w !! k)
  /\ (forall db k, _cache_clear db !! k = None).
Proof.
  destruct (fetch_cache_cases env query limit w)
    as [[Hsame Hnot] | (comps & dbg & Hcall & Hres & Hset)].
  - repeat split; try done.
    + by rewrite Hsame.
    + intros k Hk. by rewrite Hsame.
  - pose proof (miss_document_cache _ _ _ _ _ Hcall) as (Hmiss & _).
    split; [| split; [| split; [| split; [| split; [| split]]]]].
    + intros e He. by rewrite Hres in He.
    + intros e He. by rewrite Hcall in He.
    + intros doc Hdoc Hhit. rewrite Hres in Hdoc. injection Hdoc as <-.
      by rewrite Hmiss in Hhit.
    + intros _. by exists comps, dbg.
    + intros k Hk. rewrite Hset. unfold _cache_set. cbv zeta.
      destruct (decide (_cache_key query (clamp_limit limit) = k)) as [<- | Hne].
      * by rewrite lookup_insert_eq.
      * by rewrite lookup_insert_ne.
    + intros k Hk. rewrite Hset. unfold _cache_set. cbv zeta.
      by rewrite lookup_insert_ne.
    + done.
Qed.

(** The limiter state a fetch leaves does not depend on what the remote
    side answers, and a permitted fetch leaves the commit of
    [_limiter_allow] in place. *)
Lemma limiter_commit (env : Env) (query : pystr)
    (limit : Z) (w : World) :
  (forall get,
     limiter (fetch (with_answers env get) query limit w).2
     = limiter (fetch env query limit w).2)
  /\
  (SERPAPI_KEY ≠ [] ->
   forall cached lim_dbg,
     _cache_get (now_get env) query (clamp_limit limit) (cache w) = Ok cached ->
     (forall c, cached = Some c -> TTL_SECONDS_DEFAULT < cached_age c) ->
     (_limiter_allow (now_lim env) (today env) (limiter w)).1 = (true, lim_dbg) ->
     forall get,
       limiter (fetch (with_answers env get) query limit w).2
       = {| _last_call_ts := now_lim env;
            _day_key := Some (today env);
            _day_calls := _day_calls (day_reset (today env) (limiter w)) + 1 |}).
Proof.
  assert (Hlim : forall e,
             limiter (fetch e query limit w).2
             = match _cache_get (now_get e) query (clamp_limit limit) (cache w) with
               | Ok cached =>
                   if decide (SERPAPI_KEY = []) then limiter w
                   else
                     match cached with
                     | Some c =>
                         if decide (cached_age c <= TTL_SECONDS_DEFAULT)
                         then limiter w
                         else (_limiter_allow (now_lim e) (today e) (limiter w)).2
                     | None => (_limiter_allow (now_lim e) (today e) (limiter w)).2
                     end
               | Raise _ => limiter w
               end).
  { intros e. unfold fetch_ebay_sold.
    destruct (decide (SERPAPI_KEY = [])) as [Hkey | Hkey].
    { by destruct (_cache_get _ _ _ _). }
    cbv zeta.
    destruct (_cache_get _ _ _ _) as [[c |] | err]; [| | done].
    - destruct (decide _); [done | apply refresh_limiter].
    - apply refresh_limiter. }
  split.
  - intros get. by rewrite !Hlim.
  - intros Hkey cached lim_dbg Hget Hold Hallow get.
    rewrite Hlim. simpl. rewrite Hget, decide_False by done.
    assert (Hstate : (_limiter_allow (now_lim env) (today env) (limiter w)).2
                     = {| _last_call_ts := now_lim env;
                          _day_key := Some (today env);
                          _day_calls :=
                            _day_calls (day_reset (today env) (limiter w)) + 1 |}).
    { revert Hallow. unfold _limiter_allow. cbv zeta.
      destruct (decide (MAX_CALLS_PER_DAY <= _)); cbn [fst snd]; [intros [=] |].
      destruct (Qlt_le_dec _ _); cbn [fst snd]; [intros [=] |]. intros _.
      by rewrite day_reset_key. }
    destruct cached as [c |]; [| done].
    rewrite decide_False; [done |]. specialize (Hold c eq_refl). lia.
Qed.

(** The client against a remote side that is down: three requests, three
    sleeps, and the 502 with the snapshot of the third attempt. *)
Lemma call_always_500 (query : pystr) (limit : Z) :
  call (always 500) query limit
  = (Raise (HTTPException 502
              (VDict [(str "reason", VStr (str "serpapi_failed"));
                      (str "debug",
                       VDict [(str "attempt", VInt 3);
                              (str "status_code", VInt 500);
                              (str "ebay_url", VStr (str "N/A"))])])),
     [Requested; Slept 2; Requested; Slept 4; Requested; Slept 8]).
Proof. reflexivity. Qed.

Lemma fetch_failing_step (tk query : pystr) (limit : Z) (i : nat) (w : World) :
  SERPAPI_KEY ≠ [] ->
  cache w = ∅ ->
  _day_calls (day_reset tk (limiter w)) < MAX_CALLS_PER_DAY ->
  (inject_Z MIN_SECONDS_BETWEEN_CALLS
   <= inject_Z (2 * Z.of_nat i) - _last_call_ts (day_reset tk (limiter w)))%Q ->
  exists detail,
    fetch (failing_env tk i) query limit w
    = (Raise (HTTPException 502 detail),
       {| limiter := {| _last_call_ts := inject_Z (2 * Z.of_nat i);
                        _day_key := Some tk;
                        _day_calls := _day_calls (day_reset tk (limiter w)) + 1 |};
          cache := cache w;
          events := events w
                    ++ [Requested; Slept 2; Requested; Slept 4; Requested;
                        Slept 8] |}).
Proof.
  intros Hkey Hempty Hcount Hgap. eexists.
  rewrite fetch_absent; [| done |].
  2:{ apply cache_get_absent. rewrite Hempty. apply lookup_empty. }
  erewrite refresh_allowed; [| by apply limiter_allow_ok].
  simpl requests_get. rewrite call_always_500. cbv zeta. simpl.
  by rewrite day_reset_key.
Qed.

Lemma fetch_all_failing (tk query : pystr) (limit : Z) (n : nat) :
  SERPAPI_KEY ≠ [] ->
  forall (first : nat) (w : World),
    cache w = ∅ ->
    _day_calls (day_reset tk (limiter w)) + Z.of_nat n <= MAX_CALLS_PER_DAY ->
    (inject_Z MIN_SECONDS_BETWEEN_CALLS
     <= inject_Z (2 * Z.of_nat first)
        - _last_call_ts (day_reset tk (limiter w)))%Q ->
    let r := fetch_all SERPAPI_KEY float_of_str
               (failing_calls tk query limit first n) w in
    Forall (fun res => exists detail, res = Raise (HTTPException 502 detail)) r.1
    /\ cache r.2 = ∅
    /\ _day_calls (day_reset tk (limiter r.2))
       = _day_calls (day_reset tk (limiter w)) + Z.of_nat n.
Proof.
  intros Hkey. induction n as [| n IH]; intros first w Hempty Hcount Hgap.
  - simpl. split; [constructor | split; [done | lia]].
  - unfold failing_calls. simpl seq. rewrite fmap_cons.
    fold (failing_calls tk query limit (S first) n).
    cbn [fetch_all]. cbv zeta.
    destruct (fetch_failing_step tk query limit first w Hkey Hempty
                ltac:(lia) Hgap) as (detail & Hstep).
    rewrite Hstep. cbn [fst snd].
    set (w' := {| limiter := _; cache := cache w; events := _ |}).
    assert (Hreset : day_reset tk (limiter w') = limiter w').
    { by apply day_reset_same. }
    destruct (IH (S first) w') as (Hall & Hc & Hn).
    + done.
    + rewrite Hreset. simpl. lia.
    + rewrite Hreset. simpl _last_call_ts.
      unfold Qminus. rewrite <- inject_Z_opp, <- inject_Z_plus, <- Zle_Qle.
      unfold MIN_SECONDS_BETWEEN_CALLS. lia.
    + split; [| split].
      * constructor; [by eexists | done].
      * done.
      * rewrite Hn, Hreset. simpl. lia.
Qed.

Lemma fetch_all_length (calls : list (Env * pystr * Z)) :
  forall w : World,
    length (fetch_all SERPAPI_KEY float_of_str calls w).1 = length calls.
Proof.
  induction calls as [| [[e q] l] calls IH]; intros w; [done |].
  cbn [fetch_all]. cbv zeta. cbn [fst length]. by rewrite IH.
Qed.

(** C10. The limiter state a fetch leaves does not depend on what the
    remote side answers. With the API key set and no fresh entry, a fetch
    the limiter permits leaves [_last_call_ts] at the time of the call and
    the day count one higher, whether the client then succeeds, raises its
    502 or raises anything else. So a day of 200 fetches two seconds apart
    against a remote side that is down, each ending in the client's 502,
    uses up the cap: the count is 200, nothing is cached, and any further
    fetch of that day is refused with 429 and reason daily_cap. *)
Theorem limiter_commit_survives_failure (env : Env) (query : pystr)
    (limit : Z) (w : World) :
  (forall get,
     limiter (fetch (with_answers env get) query limit w).2
     = limiter (fetch env query limit w).2)
  /\
  (SERPAPI_KEY ≠ [] ->
   forall cached lim_dbg,
     _cache_get (now_get env) query (clamp_limit limit) (cache w) = Ok cached ->
     (forall c, cached = Some c -> TTL_SECONDS_DEFAULT < cached_age c) ->
     (_limiter_allow (now_lim env) (today env) (limiter w)).1 = (true, lim_dbg) ->
     forall get,
       limiter (fetch (with_answers env get) query limit w).2
       = {| _last_call_ts := now_lim env;
            _day_key := Some (today env);
            _day_calls := _day_calls (day_reset (today env) (limiter w)) + 1 |})
  /\
  (SERPAPI_KEY ≠ [] ->
   let down := fetch_all SERPAPI_KEY float_of_str
                 (failing_calls (today env) query limit 1 200) world_init in
   Forall (fun res => exists detail, res = Raise (HTTPException 502 detail))
     down.1
   /\ length down.1 = 200%nat
   /\ _day_calls (limiter down.2) = 200
   /\ cache down.2 = ∅
   /\ (fetch env query limit down.2).1
      = Raise (HTTPException 429
                 (rate_limited_detail (daily_cap_detail 200)))).
Proof.
  destruct (limiter_commit env query limit w) as [Hany Hcommit].
  split; [exact Hany | split; [exact Hcommit |]].
  intros Hkey down.
  destruct (fetch_all_failing (today env) query limit 200 Hkey 1 world_init)
    as (Hall & Hempty & Hn); [done | done | done |].
  fold down in Hall, Hempty, Hn.
  assert (Hcount : _day_key (limiter down.2) = Some (today env)
                   /\ _day_calls (limiter down.2) = 200).
  { revert Hn. unfold day_reset at 1.
    destruct (decide (_day_key (limiter down.2) = Some (today env)));
      simpl; [done | discriminate]. }
  destruct Hcount as [Hday Hcount].
  assert (Hlen : length down.1 = 200%nat).
  { subst down. rewrite fetch_all_length. unfold failing_calls.
    by rewrite length_fmap, length_seq. }
  clearbody down.
  split; [exact Hall | split; [exact Hlen | split; [exact Hcount |]]].
  split; [exact Hempty |].
  rewrite fetch_absent; [| done |].
  2:{ apply cache_get_absent. rewrite Hempty. apply lookup_empty. }
  erewrite refresh_denied.
  2:{ apply limiter_allow_cap. rewrite (day_reset_same _ _ Hday), Hcount. done. }
  cbn [fst]. by rewrite (day_reset_same _ _ Hday), Hcount.
Qed.

End Fetch.

(** ** Normalisation of the items *)

Section Items.

Variable float_of_str : pystr -> option Q.

Lemma slice_to_length {A} (l : list A) (n : Z) :
  0 <= n -> Z.of_nat (length (slice_to l n)) <= n.
Proof.
  intros Hn. unfold slice_to. rewrite decide_True by done.
  rewrite length_take. lia.
Qed.

Lemma py_or_truthy (a b : value) : truthy a = true -> py_or a b = a.
Proof. intros H. unfold py_or. by rewrite H. Qed.

(** A listing with a price the program can read is kept exactly when its
    price object passes the currency test of the source, and then with its
    title cut to 200 characters. *)
Lemma normalize_listing (title link condition raw : pystr)
    (extracted_value : value) (currency : option pystr) (price_eur : Q) :
  truthy extracted_value = true ->
  py_float float_of_str extracted_value = Ok price_eur ->
  normalize_item float_of_str
    (listing title link condition (price_object raw extracted_value currency))
  = Ok (if passes_currency_test raw currency
        then Some (comparable title link condition price_eur)
        else None).
Proof.
  intros Htruthy Hfloat.
  unfold normalize_item, listing, passes_currency_test.
  change (py_get (VDict _) (str "price") (VDict []))
    with (Ok (VDict (price_object raw extracted_value currency))).
  cbn [bind]. rewrite (py_or_truthy (VDict (price_object raw extracted_value currency))) by done.
  change (py_get (VDict (price_object raw extracted_value currency))
            (str "extracted_value") VNone) with (Ok extracted_value).
  cbn [bind].
  replace (py_get (VDict (price_object raw extracted_value currency))
             (str "extracted") VNone) with (Ok VNone)
    by (by destruct currency).
  cbn [bind]. rewrite (py_or_truthy extracted_value) by done.
  change (py_get (VDict (price_object raw extracted_value currency))
            (str "raw") (VStr [])) with (Ok (VStr raw)).
  cbn [bind].
  replace (py_get (VDict (price_object raw extracted_value currency))
             (str "currency") VNone)
    with (Ok (match currency with Some c => VStr c | None => VNone end))
    by (by destruct currency).
  cbn [bind].
  replace (py_upper (py_or (match currency with Some c => VStr c | None => VNone end)
                       (VStr [])))
    with (Ok (upper (default [] currency)))
    by (by destruct currency as [[| a c] |]).
  cbn [bind].
  assert (Heur : is_eur (upper (default [] currency)) (VStr raw)
                 = Ok (bool_decide (upper (default [] currency) = str "EUR")
                       || substring EURO_LITERAL raw
                       || substring (str "EUR") (upper raw))).
  { unfold is_eur. destruct (decide _) as [He | He].
    - by rewrite bool_decide_true.
    - rewrite bool_decide_false by done. simpl.
      by destruct (substring EURO_LITERAL raw). }
  rewrite Heur, Hfloat. cbn [bind].
  change (py_get (VDict _) (str "title") (VStr [])) with (Ok (VStr title)).
  change (py_get (VDict _) (str "link") (VStr [])) with (Ok (VStr link)).
  change (py_get (VDict _) (str "condition") (VStr (str "Onbekend")))
    with (Ok (VStr condition)).
  cbn [bind].
  replace (py_slice (py_or (VStr title) (VStr [])) 200)
    with (Ok (VStr (take 200 title)))
    by (by destruct title).
  cbn [bind]. fold (comparable title link condition price_eur).
  destruct (_ || _ || _); by destruct extracted_value.
Qed.

(** The list the client returns is cut to [limit]. *)
Lemma serpapi_ok_length (get : nat -> Answer) (query : pystr) (limit : Z)
    (comps : list value) (dbg : list (pystr * value)) :
  (_serpapi_call_sold float_of_str get query limit).1 = Ok (comps, dbg) ->
  0 <= limit ->
  Z.of_nat (length comps) <= limit.
Proof.
  unfold _serpapi_call_sold. cbv zeta. cbn [fst].
  destruct (retry_loop get (enumerate 1 [2; 4; 8]) None).1
    as [[r last_debug] | e]; [| done].
  destruct (decide _); [done |].
  destruct (r_json r) as [data | e]; cbn [bind]; [| done].
  destruct (py_in (str "error") data) as [[] | e]; cbn [bind]; [| | done].
  - destruct data; cbn [bind]; done.
  - destruct (py_get data _ _) as [found | e]; cbn [bind]; [| done].
    destruct (as_items _) as [items | e]; cbn [bind]; [| done].
    destruct (normalize _ _) as [cs | e]; cbn [bind]; [| done].
    intros [= <- <-] Hl. by apply slice_to_length.
Qed.

(** C7, as the code has it. A listing whose price the program can read is
    kept exactly when the currency code, in upper case, is EUR, or the raw
    price text contains the three characters U+00E2 U+201A U+00AC that the
    source has between its quotes, or the upper-cased raw text contains
    EUR; it is kept with its title cut to 200 characters, and the list is
    cut to the limit. The euro sign U+20AC is not what the second test
    looks for: a listing with no currency code and a raw price text of the
    euro sign and an amount is dropped, while the same listing with the
    three characters in place of the euro sign is kept. *)
Theorem currency_filter_as_coded :
  (forall title link condition raw extracted_value currency price_eur,
     truthy extracted_value = true ->
     py_float float_of_str extracted_value = Ok price_eur ->
     normalize_item float_of_str
       (listing title link condition
          (price_object raw extracted_value currency))
     = Ok (if passes_currency_test raw currency
           then Some (comparable title link condition price_eur)
           else None))
  /\ normalize_item float_of_str
       (listing (str "Vintage lamp") (str "https://www.ebay.nl/itm/1")
          (str "Gebruikt")
          (price_object (EURO_SIGN ++ str " 12,50") (VFloat (25 # 2)) None))
     = Ok None
  /\ normalize_item float_of_str
       (listing (str "Vintage lamp") (str "https://www.ebay.nl/itm/1")
          (str "Gebruikt")
          (price_object (EURO_LITERAL ++ str " 12,50") (VFloat (25 # 2)) None))
     = Ok (Some (comparable (str "Vintage lamp")
                   (str "https://www.ebay.nl/itm/1") (str "Gebruikt") (25 # 2)))
  /\ normalize_item float_of_str
       (listing (str "Vintage lamp") (str "https://www.ebay.com/itm/2")
          (str "Used")
          (price_object (str "$ 14.00") (VFloat 14) (Some (str "USD"))))
     = Ok None
  /\ (forall get query limit comps dbg,
        (_serpapi_call_sold float_of_str get query limit).1 = Ok (comps, dbg) ->
        0 <= limit ->
        Z.of_nat (length comps) <= limit).
Proof.
  split; [| split; [| split; [| split]]].
  - apply normalize_listing.
  - by rewrite (normalize_listing _ _ _ _ _ _ (25 # 2)).
  - by rewrite (normalize_listing _ _ _ _ _ _ (25 # 2)).
  - by rewrite (normalize_listing _ _ _ _ _ _ 14).
  - apply serpapi_ok_length.
Qed.

End Items.

(** ** The retry loop *)

Section Retry.

Variable float_of_str : pystr -> option Q.

Abbreviation call := (_serpapi_call_sold float_of_str).

(** The snapshot of an answer with a 4xx or 5xx status needs no body. *)
Lemma snapshot_error_status (attempt : nat) (r : Response) :
  400 <= status_code r < 600 ->
  snapshot attempt r
  = Ok (VDict [(str "attempt", VInt (Z.of_nat attempt));
               (str "status_code", VInt (status_code r));
               (str "ebay_url", VStr (str "N/A"))]).
Proof.
  intros H. unfold snapshot, ok. by rewrite bool_decide_true.
Qed.

(** A snapshot, when it can be taken, holds the attempt number, the status
    and a URL or "N/A". *)
Lemma snapshot_fields (attempt : nat) (r : Response) (last_debug : value) :
  snapshot attempt r = Ok last_debug ->
  item last_debug (str "attempt") = Some (VInt (Z.of_nat attempt))
  /\ item last_debug (str "status_code") = Some (VInt (status_code r))
  /\ is_Some (item last_debug (str "ebay_url")).
Proof.
  unfold snapshot.
  destruct (if ok r then _ else _) as [url | e]; cbn [bind]; [| done].
  intros [= <-]. by repeat split.
Qed.

(** The events of a call are the events of its loop. *)
Lemma call_events (get : nat -> Answer) (query : pystr) (limit : Z) :
  (call get query limit).2 = (retry_loop get (enumerate 1 [2; 4; 8]) None).2.
Proof. reflexivity. Qed.

(** One request, or requests separated by sleeps of 2 and 4 seconds, with a
    sleep of 8 seconds after a third answer of 500 or more. *)
Lemma retry_loop_events (get : nat -> Answer) :
  let evs := (retry_loop get (enumerate 1 [2; 4; 8]) None).2 in
  evs = [Requested]
  \/ evs = [Requested; Slept 2; Requested]
  \/ evs = [Requested; Slept 2; Requested; Slept 4; Requested]
  \/ evs = [Requested; Slept 2; Requested; Slept 4; Requested; Slept 8].
Proof.
  simpl.
  destruct (get 1%nat) as [r1 | n1]; [| by left].
  destruct (snapshot 1 r1); [| by left].
  destruct (decide _); [| by left].
  destruct (get 2%nat) as [r2 | n2]; [| by right; left].
  destruct (snapshot 2 r2); [| by right; left].
  destruct (decide _); [| by right; left].
  destruct (get 3%nat) as [r3 | n3]; [| by right; right; left].
  destruct (snapshot 3 r3); [| by right; right; left].
  destruct (decide _); [by right; right; right | by right; right; left].
Qed.

(** The pair the loop leaves is the answer to attempt 1, 2 or 3 with its
    snapshot, and that answer has a status below 500 unless it is the
    third. *)
Lemma retry_loop_last (get : nat -> Answer) (r : Response) (last_debug : value) :
  (retry_loop get (enumerate 1 [2; 4; 8]) None).1 = Ok (r, last_debug) ->
  exists k : nat,
    (1 <= k <= 3)%nat
    /\ get k = Responds r
    /\ snapshot k r = Ok last_debug
    /\ (status_code r < 500 \/ k = 3%nat).
Proof.
  simpl.
  destruct (get 1%nat) as [r1 | n1] eqn:H1; [| done].
  destruct (snapshot 1 r1) as [d1 | e1] eqn:S1; [| done].
  destruct (decide (500 <= status_code r1)).
  2:{ intros [= <- <-]. exists 1%nat. repeat split; try done; lia. }
  destruct (get 2%nat) as [r2 | n2] eqn:H2; [| done].
  destruct (snapshot 2 r2) as [d2 | e2] eqn:S2; [| done].
  destruct (decide (500 <= status_code r2)).
  2:{ intros [= <- <-]. exists 2%nat. repeat split; try done; lia. }
  destruct (get 3%nat) as [r3 | n3] eqn:H3; [| done].
  destruct (snapshot 3 r3) as [d3 | e3] eqn:S3; [| done].
  destruct (decide (500 <= status_code r3)); intros [= <- <-];
    exists 3%nat; repeat split; try done; try lia; by right.
Qed.

Lemma call_failed (get : nat -> Answer) (query : pystr) (limit : Z)
    (r : Response) (last_debug : value) :
  (retry_loop get (enumerate 1 [2; 4; 8]) None).1 = Ok (r, last_debug) ->
  status_code r ≠ 200 ->
  (call get query limit).1
  = Raise (HTTPException 502
             (VDict [(str "reason", VStr (str "serpapi_failed"));
                     (str "debug", last_debug)])).
Proof.
  intros Hloop Hs. unfold _serpapi_call_sold. cbv zeta. cbn [fst].
  rewrite Hloop. by rewrite decide_True.
Qed.

Lemma call_error_field (get : nat -> Answer) (query : pystr) (limit : Z)
    (r : Response) (last_debug : value) (d : list (pystr * value))
    (err : value) :
  (retry_loop get (enumerate 1 [2; 4; 8]) None).1 = Ok (r, last_debug) ->
  status_code r = 200 ->
  body r = Some (VDict d) ->
  dict_get (str "error") d = Some err ->
  (call get query limit).1
  = Raise (HTTPException 502
             (VDict [(str "reason", VStr (str "serpapi_error"));
                     (str "error", err);
                     (str "debug", last_debug)])).
Proof.
  intros Hloop Hs Hbody Herr. unfold _serpapi_call_sold. cbv zeta. cbn [fst].
  rewrite Hloop. rewrite decide_False by (intros H; by apply H).
  unfold r_json. rewrite Hbody. cbn [bind py_in].
  rewrite Herr. rewrite bool_decide_true by by eexists. done.
Qed.

(** C6, as the code has it. The search request is made at most three
    times: a call makes one request, or requests separated by sleeps of 2
    and 4 seconds, and after a third answer with a status of 500 or more it
    sleeps 8 seconds and makes no fourth request. An answer with a status
    below 500 is never followed by another request. When the loop is left
    with an answer whose snapshot could be taken (always so for a 4xx or
    5xx status), a status other than 200 raises the 502 with reason
    serpapi_failed, and a status of 200 with an error field in the JSON
    object raises the 502 with reason serpapi_error; both carry the
    snapshot of that last attempt: its number, its status, and a URL or
    "N/A". *)
Theorem retry_policy (get : nat -> Answer) (query : pystr) (limit : Z) :
  ((call get query limit).2 = [Requested]
   \/ (call get query limit).2 = [Requested; Slept 2; Requested]
   \/ (call get query limit).2
      = [Requested; Slept 2; Requested; Slept 4; Requested]
   \/ (call get query limit).2
      = [Requested; Slept 2; Requested; Slept 4; Requested; Slept 8])
  /\
  (forall r1,
     get 1%nat = Responds r1 -> status_code r1 < 500 ->
     (call get query limit).2 = [Requested])
  /\
  (forall r1 r2,
     get 1%nat = Responds r1 -> 500 <= status_code r1 < 600 ->
     get 2%nat = Responds r2 -> status_code r2 < 500 ->
     (call get query limit).2 = [Requested; Slept 2; Requested])
  /\
  (forall r1 r2 r3,
     get 1%nat = Responds r1 -> 500 <= status_code r1 < 600 ->
     get 2%nat = Responds r2 -> 500 <= status_code r2 < 600 ->
     get 3%nat = Responds r3 ->
     (status_code r3 < 500 ->
      (call get query limit).2
      = [Requested; Slept 2; Requested; Slept 4; Requested])
     /\
     (500 <= status_code r3 < 600 ->
      call get query limit
      = (Raise (HTTPException 502
                  (VDict [(str "reason", VStr (str "serpapi_failed"));
                          (str "debug",
                           VDict [(str "attempt", VInt 3);
                                  (str "status_code", VInt (status_code r3));
                                  (str "ebay_url", VStr (str "N/A"))])])),
         [Requested; Slept 2; Requested; Slept 4; Requested; Slept 8])))
  /\
  (forall r last_debug,
     (retry_loop get (enumerate 1 [2; 4; 8]) None).1 = Ok (r, last_debug) ->
     (exists k : nat,
        (1 <= k <= 3)%nat
        /\ get k = Responds r
        /\ (status_code r < 500 \/ k = 3%nat)
        /\ item last_debug (str "attempt") = Some (VInt (Z.of_nat k))
        /\ item last_debug (str "status_code") = Some (VInt (status_code r))
        /\ is_Some (item last_debug (str "ebay_url")))
     /\
     (status_code r ≠ 200 ->
      (call get query limit).1
      = Raise (HTTPException 502
                 (VDict [(str "reason", VStr (str "serpapi_failed"));
                         (str "debug", last_debug)])))
     /\
     (status_code r = 200 ->
      forall d err,
        body r = Some (VDict d) ->
        dict_get (str "error") d = Some err ->
        (call get query limit).1
        = Raise (HTTPException 502
                   (VDict [(str "reason", VStr (str "serpapi_error"));
                           (str "error", err);
                           (str "debug", last_debug)]))))
  /\
  (forall r1,
     get 1%nat = Responds r1 -> 400 <= status_code r1 < 500 ->
     call get query limit
     = (Raise (HTTPException 502
                 (VDict [(str "reason", VStr (str "serpapi_failed"));
                         (str "debug",
                          VDict [(str "attempt", VInt 1);
                                 (str "status_code", VInt (status_code r1));
                                 (str "ebay_url", VStr (str "N/A"))])])),
        [Requested])).
Proof.
  split; [| split; [| split; [| split; [| split]]]].
  - rewrite call_events. apply retry_loop_events.
  - intros r1 H1 Hs. rewrite call_events. simpl. rewrite H1.
    destruct (snapshot 1 r1); [| done]. by rewrite decide_False by lia.
  - intros r1 r2 H1 Hs1 H2 Hs2. rewrite call_events. simpl.
    rewrite H1, (snapshot_error_status 1 r1) by lia.
    rewrite decide_True by lia. rewrite H2.
    destruct (snapshot 2 r2); [| done]. by rewrite decide_False by lia.
  - intros r1 r2 r3 H1 Hs1 H2 Hs2 H3. split; intros Hs3.
    + rewrite call_events. simpl.
      rewrite H1, (snapshot_error_status 1 r1) by lia.
      rewrite decide_True by lia.
      rewrite H2, (snapshot_error_status 2 r2) by lia.
      rewrite decide_True by lia. rewrite H3.
      destruct (snapshot 3 r3); [| done]. by rewrite decide_False by lia.
    + unfold _serpapi_call_sold. cbv zeta. simpl retry_loop.
      rewrite H1, (snapshot_error_status 1 r1) by lia.
      rewrite decide_True by lia.
      rewrite H2, (snapshot_error_status 2 r2) by lia.
      rewrite decide_True by lia.
      rewrite H3, (snapshot_error_status 3 r3) by lia.
      rewrite decide_True by lia. cbn [fst snd].
      rewrite decide_True by lia. done.
  - intros r last_debug Hloop. split; [| split].
    + destruct (retry_loop_last get r last_debug Hloop)
        as (k & Hk & Hget & Hsnap & Hlast).
      destruct (snapshot_fields k r last_debug Hsnap) as (Ha & Hst & Hu).
      by exists k.
    + by apply call_failed.
    + intros Hs d err. by apply call_error_field.
  - intros r1 H1 Hs. unfold _serpapi_call_sold. cbv zeta. simpl retry_loop.
    rewrite H1, (snapshot_error_status 1 r1) by lia.
    rewrite decide_False by lia. cbn [fst snd].
    rewrite decide_True by lia. done.
Qed.

End Retry.

(** ** The fingerprint *)

Lemma digits_value_digits_of (fuel : nat) :
  forall (n : Z) (acc : pystr),
    0 <= n < Z.of_nat fuel ->
    digits_value (digits_of fuel n acc) 0 = digits_value acc n.
Proof.
  induction fuel as [| fuel IH]; intros n acc Hn; [lia |].
  cbn [digits_of]. cbv zeta.
  assert (Hd : Z.of_N (48 + Z.to_N (n mod 10)) - 48 = n mod 10).
  { pose proof (Z.mod_pos_bound n 10 ltac:(lia)). lia. }
  destruct (decide (n < 10)) as [Hlt | Hge].
  - unfold digits_value. cbn [fold_left]. rewrite Hd.
    rewrite Z.mod_small by lia. done.
  - rewrite IH.
    + unfold digits_value. cbn [fold_left]. rewrite Hd.
      f_equal. pose proof (Z.div_mod n 10 ltac:(lia)). lia.
    + split; [apply Z.div_pos; lia |].
      assert (n / 10 < n) by (apply Z.div_lt; lia). lia.
Qed.

Lemma digits_of_digits (fuel : nat) :
  forall (n : Z) (acc : pystr),
    0 <= n ->
    Forall (fun c => (48 <= c)%N) acc ->
    Forall (fun c => (48 <= c)%N) (digits_of fuel n acc).
Proof.
  induction fuel as [| fuel IH]; intros n acc Hn Hacc; [done |].
  cbn [digits_of]. cbv zeta.
  assert (Hc : Forall (fun c => (48 <= c)%N) ((48 + Z.to_N (n mod 10))%N :: acc)).
  { constructor; [lia | done]. }
  destruct (decide (n < 10)); [done |].
  apply IH; [apply Z.div_pos; lia | done].
Qed.

Lemma digits_of_nonempty (fuel : nat) (n : Z) :
  digits_of (S fuel) n [] ≠ [].
Proof.
  assert (H : forall f m acc, acc ≠ [] -> digits_of f m acc ≠ []).
  { induction f as [| f IH]; intros m acc Hacc; [done |].
    cbn [digits_of]. cbv zeta. destruct (decide _); [done |]. by apply IH. }
  cbn [digits_of]. cbv zeta. destruct (decide _); [done |]. by apply H.
Qed.

(** [str(n)] determines [n]. *)
Lemma str_of_int_inj (a b : Z) : str_of_int a = str_of_int b -> a = b.
Proof.
  assert (Hpos : forall n, 0 <= n ->
                   digits_value (digits_of (S (Z.to_nat n)) n []) 0 = n).
  { intros n Hn. rewrite digits_value_digits_of by lia. done. }
  assert (Hhead : forall n rest, 0 <= n ->
                    digits_of (S (Z.to_nat n)) n [] ≠ 45%N :: rest).
  { intros n rest Hn Heq.
    pose proof (digits_of_digits (S (Z.to_nat n)) n [] Hn ltac:(constructor)) as H.
    rewrite Heq in H. apply Forall_cons in H as [H _]. lia. }
  unfold str_of_int.
  destruct (decide (0 <= a)) as [Ha | Ha], (decide (0 <= b)) as [Hb | Hb];
    intros H.
  - rewrite <- (Hpos a Ha), <- (Hpos b Hb).
    exact (f_equal (fun ds => digits_value ds 0) H).
  - exfalso. by apply (Hhead a _ Ha H).
  - exfalso. symmetry in H. by apply (Hhead b _ Hb H).
  - injection H as H.
    assert (- a = - b); [| lia].
    rewrite <- (Hpos (- a)), <- (Hpos (- b)) by lia.
    exact (f_equal (fun ds => digits_value ds 0) H).
Qed.

Lemma fingerprint_text_inj (query : pystr) (l1 l2 : Z) :
  fingerprint_text query l1 = fingerprint_text query l2 -> l1 = l2.
Proof.
  unfold fingerprint_text. intros H.
  apply app_inv_head in H. injection H as H. by apply str_of_int_inj.
Qed.

Lemma clamp_limit_range (limit : Z) : 1 <= clamp_limit limit <= 200.
Proof. unfold clamp_limit. lia. Qed.

Lemma clamp_limit_id (limit : Z) : 1 <= limit <= 200 -> clamp_limit limit = limit.
Proof. unfold clamp_limit. lia. Qed.

(** What [_cache_get] returns depends on the row under the fingerprint
    only. *)
Lemma cache_get_row (now : Q) (query : pystr) (limit : Z)
    (db1 db2 : gmap string Row) :
  db1 !! _cache_key query limit = db2 !! _cache_key query limit ->
  _cache_get now query limit db1 = _cache_get now query limit db2.
Proof. intros H. unfold _cache_get. cbv zeta. by rewrite H. Qed.

(** ** The bytes that are hashed, and the digest behind the hex digits *)

(** [str(n)] is ASCII. *)
Lemma digits_of_ascii (fuel : nat) :
  forall (n : Z) (acc : pystr),
    0 <= n ->
    Forall (fun c => (c < 128)%N) acc ->
    Forall (fun c => (c < 128)%N) (digits_of fuel n acc).
Proof.
  induction fuel as [| fuel IH]; intros n acc Hn Hacc; [done |].
  cbn [digits_of]. cbv zeta.
  assert (Hc : Forall (fun c => (c < 128)%N) ((48 + Z.to_N (n mod 10))%N :: acc)).
  { constructor; [| done]. pose proof (Z.mod_pos_bound n 10). lia. }
  destruct (decide (n < 10)); [done |].
  apply IH; [apply Z.div_pos; lia | done].
Qed.

Lemma str_of_int_ascii (n : Z) : Forall (fun c => (c < 128)%N) (str_of_int n).
Proof.
  unfold str_of_int. destruct (decide (0 <= n)).
  - by apply digits_of_ascii.
  - constructor; [lia |]. apply digits_of_ascii; [lia | done].
Qed.

(** On ASCII text the encoding is the code points themselves. *)
Lemma utf8_ascii (s : pystr) :
  Forall (fun c => (c < 128)%N) s -> utf8 s = Z.of_N <$> s.
Proof.
  induction 1 as [| c s Hc _ IH]; [done |].
  unfold utf8 in *. rewrite bind_cons, IH, fmap_cons.
  unfold utf8_char. cbv zeta. rewrite decide_True by lia. done.
Qed.

(** The encoded fingerprint texts of one query are equal for equal limits
    only. *)
Lemma utf8_fingerprint_inj (query : pystr) (l1 l2 : Z) :
  utf8 (fingerprint_text query l1) = utf8 (fingerprint_text query l2) ->
  l1 = l2.
Proof.
  unfold fingerprint_text, utf8. rewrite !bind_app. intros H.
  apply app_inv_head in H. apply app_inv_head in H.
  fold (utf8 (str_of_int l1)) in H. fold (utf8 (str_of_int l2)) in H.
  rewrite !utf8_ascii in H by apply str_of_int_ascii.
  apply str_of_int_inj.
  revert H. generalize (str_of_int l1) (str_of_int l2).
  intros s1. induction s1 as [| a s1 IH]; intros [| b s2] H; try done.
  rewrite !fmap_cons in H. injection H as Hab H.
  apply N2Z.inj in Hab. subst b. f_equal. by apply IH.
Qed.

(** The hex digits spell the bytes. *)
Lemma hex_digit_inj (x y : Z) :
  0 <= x < 16 -> 0 <= y < 16 ->
  SHA256.hex_digit x = SHA256.hex_digit y -> x = y.
Proof.
  intros Hx Hy H. unfold SHA256.hex_digit in H.
  apply (f_equal N_of_ascii) in H.
  destruct (decide (x < 10)), (decide (y < 10)); cbv iota in H;
    rewrite !N_ascii_embedding in H by lia; lia.
Qed.

Lemma hex_inj (bs1 : list Z) :
  forall bs2,
    Forall (fun b => 0 <= b < 256) bs1 ->
    Forall (fun b => 0 <= b < 256) bs2 ->
    SHA256.hex bs1 = SHA256.hex bs2 -> bs1 = bs2.
Proof.
  induction bs1 as [| a bs1 IH]; intros [| b bs2] H1 H2 H; try done.
  apply Forall_cons in H1 as [Ha H1]. apply Forall_cons in H2 as [Hb H2].
  cbn [SHA256.hex] in H. injection H as Hhi Hlo Hrest.
  assert (Hq : a / 16 = b / 16).
  { apply hex_digit_inj; [| | done].
    - split; [apply Z.div_pos; lia | apply Z.div_lt_upper_bound; lia].
    - split; [apply Z.div_pos; lia | apply Z.div_lt_upper_bound; lia]. }
  assert (Hr : a mod 16 = b mod 16).
  { apply hex_digit_inj; [apply Z.mod_pos_bound; lia
                         | apply Z.mod_pos_bound; lia | done]. }
  f_equal; [| by apply IH].
  rewrite (Z.div_mod a 16), (Z.div_mod b 16) by lia. by rewrite Hq, Hr.
Qed.

Lemma be_bytes_range (n : nat) :
  forall x, Forall (fun b => 0 <= b < 256) (SHA256.be_bytes n x).
Proof.
  induction n as [| n IH]; intros x; [done |].
  cbn [SHA256.be_bytes]. apply Forall_app. split; [apply IH |].
  constructor; [| done].
  change 255 with (Z.ones 8). rewrite Z.land_ones by lia.
  apply Z.mod_pos_bound. lia.
Qed.

Lemma digest_range (msg : list Z) :
  Forall (fun b => 0 <= b < 256) (SHA256.digest msg).
Proof.
  unfold SHA256.digest. cbv zeta. apply Forall_bind, Forall_true.
  intros x. apply be_bytes_range.
Qed.

(** Two messages with one hex digest have one digest. *)
Lemma hexdigest_digest (m1 m2 : list Z) :
  SHA256.hexdigest m1 = SHA256.hexdigest m2 ->
  SHA256.digest m1 = SHA256.digest m2.
Proof. apply hex_inj; apply digest_range. Qed.

Section Fingerprint.

Variable SERPAPI_KEY : pystr.
Variable float_of_str : pystr -> option Q.

Abbreviation fetch := (fetch_ebay_sold SERPAPI_KEY float_of_str).

(** A fetch writes no row but the one of its fingerprint. *)
Lemma fetch_other_rows (env : Env) (query : pystr) (limit : Z) (w : World)
    (k : string) :
  k ≠ _cache_key query (clamp_limit limit) ->
  (fetch env query limit w).2.(cache) !! k = cache w !! k.
Proof.
  intros Hk.
  destruct (fetch_cache_cases SERPAPI_KEY float_of_str env query limit w)
    as [[Hsame _] | (comps & dbg & _ & _ & Hset)].
  - by rewrite Hsame.
  - rewrite Hset. unfold _cache_set. cbv zeta. by rewrite lookup_insert_ne.
Qed.

(** What a fetch returns depends on the cache through the row of its
    fingerprint only. *)
Lemma fetch_reads_own_row (env : Env) (query : pystr) (limit : Z)
    (w1 w2 : World) :
  limiter w1 = limiter w2 ->
  cache w1 !! _cache_key query (clamp_limit limit)
  = cache w2 !! _cache_key query (clamp_limit limit) ->
  (fetch env query limit w1).1 = (fetch env query limit w2).1.
Proof.
  intros Hlim Hrow.
  assert (Hrefresh : forall cached,
             (fetch_refresh float_of_str env query (clamp_limit limit) cached w1).1
             = (fetch_refresh float_of_str env query (clamp_limit limit) cached w2).1).
  { intros cached.
    destruct (_limiter_allow (now_lim env) (today env) (limiter w2))
      as [[[] lim_dbg] lim'] eqn:Hl2; pose proof Hl2 as Hl1;
      rewrite <- Hlim in Hl1.
    - rewrite (refresh_allowed _ _ _ _ _ _ _ _ Hl1),
        (refresh_allowed _ _ _ _ _ _ _ _ Hl2). cbv zeta.
      by destruct (_serpapi_call_sold float_of_str (requests_get env) query
                     (clamp_limit limit)).1 as [[comps dbg] | [s d | name]].
    - by rewrite (refresh_denied _ _ _ _ _ _ _ _ Hl1),
        (refresh_denied _ _ _ _ _ _ _ _ Hl2). }
  unfold fetch_ebay_sold. destruct (decide _); [done |]. cbv zeta.
  rewrite (cache_get_row _ _ _ _ _ Hrow).
  destruct (_cache_get _ _ _ (cache w2)) as [[c |] | e]; [| done | done].
  destruct (decide _); [done | apply Hrefresh].
Qed.

(** C8, as the code has it. The fingerprint is the SHA-256 digest of the
    text "query, newline, limit", a function of the query and the clamped
    limit: limits with the same clamped value use the same entry. For
    limits with different clamped values, in particular for different
    limits between 1 and 200, the two texts differ and so do the bytes
    that are hashed, so the two fetches share an entry only if SHA-256
    gives these two different byte strings one digest. A fetch reads and
    writes no row but the one of its fingerprint. *)
Theorem fingerprint_per_clamped_limit (query : pystr) (l1 l2 : Z) :
  (clamp_limit l1 = clamp_limit l2 ->
   _cache_key query (clamp_limit l1) = _cache_key query (clamp_limit l2))
  /\
  (1 <= l1 <= 200 -> 1 <= l2 <= 200 -> l1 ≠ l2 ->
   clamp_limit l1 ≠ clamp_limit l2)
  /\
  (clamp_limit l1 ≠ clamp_limit l2 ->
   fingerprint_text query (clamp_limit l1)
   ≠ fingerprint_text query (clamp_limit l2)
   /\ utf8 (fingerprint_text query (clamp_limit l1))
      ≠ utf8 (fingerprint_text query (clamp_limit l2))
   /\ (_cache_key query (clamp_limit l1) = _cache_key query (clamp_limit l2) ->
       SHA256.digest (utf8 (fingerprint_text query (clamp_limit l1)))
       = SHA256.digest (utf8 (fingerprint_text query (clamp_limit l2)))))
  /\
  (forall env w k,
     k ≠ _cache_key query (clamp_limit l1) ->
     (fetch env query l1 w).2.(cache) !! k = cache w !! k)
  /\
  (forall env w1 w2,
     limiter w1 = limiter w2 ->
     cache w1 !! _cache_key query (clamp_limit l1)
     = cache w2 !! _cache_key query (clamp_limit l1) ->
     (fetch env query l1 w1).1 = (fetch env query l1 w2).1).
Proof.
  split; [| split; [| split; [| split]]].
  - by intros ->.
  - intros H1 H2 Hne. by rewrite !clamp_limit_id.
  - intros Hne.
    assert (Htext : fingerprint_text query (clamp_limit l1)
                    ≠ fingerprint_text query (clamp_limit l2)).
    { intros H. by apply Hne, (fingerprint_text_inj query). }
    split; [done |]. split.
    + intros H. by apply Hne, (utf8_fingerprint_inj query).
    + intros Hkey. by apply hexdigest_digest.
  - intros env w k. apply fetch_other_rows.
  - intros env w1 w2. apply fetch_reads_own_row.
Qed.

End Fingerprint.

(** Limits 37 and 38 of one query, and limits 250 and 300. *)
Lemma fingerprint_per_clamped_limit_witness :
  fingerprint_text example_query (clamp_limit 37)
  ≠ fingerprint_text example_query (clamp_limit 38)
  /\ _cache_key example_query (clamp_limit 250)
     = _cache_key example_query (clamp_limit 300).
Proof.
  destruct (fingerprint_per_clamped_limit example_key no_text_price
              example_query 37 38) as (_ & Hne & Htext & _).
  destruct (fingerprint_per_clamped_limit example_key no_text_price
              example_query 250 300) as (Hsame & _).
  split.
  - destruct Htext as [Hdiffer _]; [apply Hne; lia | exact Hdiffer].
  - apply Hsame. reflexivity.
Defined.

(** C8 as stated fails for limits above 200 (and below 1): a fetch with
    limit 300 and one with limit 200 use one entry. After a successful
    fetch of a query with limit 300, the fetch of the same query with
    limit 200 is a cache hit that leaves the world as it was. *)
Lemma limits_above_200_share_an_entry :
  (200 ≠ 300)
  /\ _cache_key example_query (clamp_limit 300)
     = _cache_key example_query (clamp_limit 200)
  /\ (fetch_ebay_sold example_key no_text_price (example_env 5000 healthy)
        example_query 300 world_init).2.(cache)
       !! _cache_key example_query (clamp_limit 200)
     ≠ None
  /\ exists doc,
       fetch_ebay_sold example_key no_text_price (example_env 5010 unreachable)
         example_query 200
         (fetch_ebay_sold example_key no_text_price (example_env 5000 healthy)
            example_query 300 world_init).2
       = (Ok doc,
          (fetch_ebay_sold example_key no_text_price (example_env 5000 healthy)
             example_query 300 world_init).2)
       /\ debug_item doc (str "cache") = Some (VStr (str "HIT")).
Proof.
  split; [done |]. split; [reflexivity |]. split; [by vm_compute |].
  eexists. split; vm_compute; reflexivity.
Qed.

(** ** The theorems on the running example *)

(** C1 as stated fails without an API key: the entry of the example is
    fresh at second 2000, and the fetch raises the 400. It also fails, with
    the key set, when the remote side cannot be reached: the entry is there
    and the exception of the transport is raised. *)
Lemma fetch_fails_with_entry_cached :
  cache example_world !! _cache_key example_query (clamp_limit 10)
  = Some example_row
  /\ row_payload example_row = json_dumps example_payload
  /\ py_int (inject_Z 2000) - row_ts example_row <= TTL_SECONDS_DEFAULT
  /\ fetch_ebay_sold [] no_text_price (example_env 2000 healthy)
       example_query 10 example_world
     = (Raise (HTTPException 400
                 (VDict [(str "reason", VStr (str "missing_serpapi_key"))])),
        example_world)
  /\ (fetch_ebay_sold example_key no_text_price
        (example_env 100000 unreachable) example_query 10 example_world).1
     = Raise (PyError "ConnectionError").
Proof.
  split; [vm_compute; reflexivity |]. split; [reflexivity |].
  split; [vm_compute; discriminate |].
  split; vm_compute; reflexivity.
Qed.

(** The entry of the example, 99000 seconds old, against a remote side that
    answers 503 three times: it is served stale with the client's detail;
    and an empty cache against the same remote side: the 502 is raised. *)
Lemma fetch_failure_policy_witness :
  (exists doc,
     (fetch_ebay_sold example_key no_text_price
        (example_env 100000 (always 503)) example_query 10 example_world).1
     = Ok doc
     /\ debug_item doc (str "stale") = Some (VBool true)
     /\ debug_item doc (str "refresh_failed")
        = Some (VDict [(str "reason", VStr (str "serpapi_failed"));
                       (str "debug",
                        VDict [(str "attempt", VInt 3);
                               (str "status_code", VInt 503);
                               (str "ebay_url", VStr (str "N/A"))])]))
  /\ (fetch_ebay_sold example_key no_text_price
        (example_env 100000 (always 503)) example_query 10 world_init).1
     = Raise (HTTPException 502
                (VDict [(str "reason", VStr (str "serpapi_failed"));
                        (str "debug",
                         VDict [(str "attempt", VInt 3);
                                (str "status_code", VInt 503);
                                (str "ebay_url", VStr (str "N/A"))])])).
Proof.
  split.
  - destruct (fetch_failure_policy example_key no_text_price
                (example_env 100000 (always 503)) example_query 10 example_world)
      as (_ & _ & Hstale).
    destruct (Hstale ltac:(discriminate) example_row example_payload
                ltac:(vm_compute; reflexivity) eq_refl I
                ltac:(vm_compute; reflexivity) (allowed_detail 1))
      as [_ Hfailed].
    destruct (Hfailed ltac:(vm_compute; reflexivity) 502
                (VDict [(str "reason", VStr (str "serpapi_failed"));
                        (str "debug",
                         VDict [(str "attempt", VInt 3);
                                (str "status_code", VInt 503);
                                (str "ebay_url", VStr (str "N/A"))])])
                ltac:(vm_compute; reflexivity))
      as (doc & Hdoc & _ & Hs & Hf).
    exists doc. split; [exact Hdoc | split; [exact Hs | exact Hf]].
  - destruct (fetch_failure_policy example_key no_text_price
                (example_env 100000 (always 503)) example_query 10 world_init)
      as (_ & Hnone & _).
    destruct (Hnone ltac:(discriminate) ltac:(vm_compute; reflexivity)
                (allowed_detail 1)) as [_ Hup].
    apply (Hup ltac:(vm_compute; reflexivity) 502).
    vm_compute. reflexivity.
Defined.

(** The entry of the example read at second 2000 (1000 seconds old) and at
    second 100000 (99000 seconds old). *)
Lemma fetch_fresh_hit_witness :
  (exists doc,
     fetch_ebay_sold example_key no_text_price (example_env 2000 unreachable)
       example_query 10 example_world
     = (Ok doc, example_world)
     /\ debug_item doc (str "cache") = Some (VStr (str "HIT"))
     /\ debug_item doc (str "stale") = Some (VBool false))
  /\ limiter (fetch_ebay_sold example_key no_text_price
                (example_env 100000 healthy) example_query 10 example_world).2
     = (_limiter_allow (inject_Z 100000) example_day limiter_init).2.
Proof.
  split.
  - destruct (fetch_fresh_hit example_key no_text_price
                (example_env 2000 unreachable) example_query 10 example_world
                example_row example_payload)
      as [Hfresh _]; [discriminate | vm_compute; reflexivity | reflexivity | exact I |].
    destruct Hfresh as (doc & Hdoc & _ & Hhit & Hstale & _);
      [vm_compute; discriminate |].
    exists doc. split; [exact Hdoc | split; [exact Hhit | exact Hstale]].
  - destruct (fetch_fresh_hit example_key no_text_price
                (example_env 100000 healthy) example_query 10 example_world
                example_row example_payload)
      as (_ & Hstale & _);
      [discriminate | vm_compute; reflexivity | reflexivity | exact I |].
    apply Hstale. vm_compute. reflexivity.
Defined.

(** The entry of the example, 99000 seconds old, asked for one second
    after a permitted call. *)
Lemma fetch_denied_serves_stale_witness :
  exists doc,
    fetch_ebay_sold example_key no_text_price (example_env 100000 healthy)
      example_query 10 example_world_busy
    = (Ok doc, example_world_busy)
    /\ debug_item doc (str "stale") = Some (VBool true)
    /\ debug_item doc (str "refresh_skipped") = Some (min_interval_detail 2)
    /\ debug_item doc (str "ttl_seconds") = Some (VInt 21600).
Proof.
  destruct (fetch_denied_serves_stale example_key no_text_price
              (example_env 100000 healthy) example_query 10 example_world_busy
              example_row example_payload (min_interval_detail 2) example_busy)
    as (doc & Hdoc & _ & _ & Hstale & Hskip & Httl & _);
    [discriminate | vm_compute; reflexivity | reflexivity | exact I
     | vm_compute; reflexivity | vm_compute; reflexivity |].
  exists doc.
  split; [exact Hdoc | split; [exact Hstale | split; [exact Hskip | exact Httl]]].
Defined.

(** C3 as stated fails on that call: the document served after the refusal
    reports ttl_seconds 21600, and the document served after a failed call
    reports 86400. *)
Lemma denied_fallback_reports_default_ttl :
  (exists doc,
     (fetch_ebay_sold example_key no_text_price (example_env 100000 healthy)
        example_query 10 example_world_busy).1 = Ok doc
     /\ debug_item doc (str "stale") = Some (VBool true)
     /\ debug_item doc (str "refresh_skipped") = Some (min_interval_detail 2)
     /\ debug_item doc (str "ttl_seconds") = Some (VInt 21600))
  /\ (exists doc,
        (fetch_ebay_sold example_key no_text_price
           (example_env 100000 (always 503)) example_query 10 example_world).1
        = Ok doc
        /\ debug_item doc (str "stale") = Some (VBool true)
        /\ debug_item doc (str "ttl_seconds") = Some (VInt 86400)).
Proof.
  split; eexists.
  - split; [vm_compute; reflexivity |].
    split; [vm_compute; reflexivity |]. split; vm_compute; reflexivity.
  - split; [vm_compute; reflexivity |]. split; vm_compute; reflexivity.
Qed.

(** A fetch that raises the 502 on an empty cache, and one that succeeds. *)
Lemma cache_written_only_on_success_witness :
  (fetch_ebay_sold example_key no_text_price (example_env 100000 (always 503))
     example_query 10 world_init).2.(cache) = ∅
  /\ (fetch_ebay_sold example_key no_text_price (example_env 100000 healthy)
        example_query 10 example_world).2.(cache)
       !! _cache_key example_query (clamp_limit 10) ≠ None.
Proof.
  split.
  - destruct (cache_written_only_on_success example_key no_text_price
                (example_env 100000 (always 503)) example_query 10 world_init)
      as (Hraise & _).
    apply (Hraise (HTTPException 502
                     (VDict [(str "reason", VStr (str "serpapi_failed"));
                             (str "debug",
                              VDict [(str "attempt", VInt 3);
                                     (str "status_code", VInt 503);
                                     (str "ebay_url", VStr (str "N/A"))])]))).
    vm_compute. reflexivity.
  - destruct (cache_written_only_on_success example_key no_text_price
                (example_env 100000 healthy) example_query 10 example_world)
      as (_ & _ & _ & _ & Hkeep & _).
    destruct (Hkeep (_cache_key example_query (clamp_limit 10))) as [row Hrow].
    + exists example_row. vm_compute. reflexivity.
    + intros Hnone. pose proof (eq_trans (eq_sym Hrow) Hnone) as H.
      discriminate H.
Defined.

(** The stale entry of the example and a remote side that cannot be
    reached: the permitted call is counted. *)
Lemma limiter_commit_survives_failure_witness :
  limiter (fetch_ebay_sold example_key no_text_price
             (example_env 100000 unreachable) example_query 10 example_world).2
  = {| _last_call_ts := 100000; _day_key := Some example_day; _day_calls := 1 |}.
Proof.
  destruct (limiter_commit_survives_failure example_key no_text_price
              (example_env 100000 healthy) example_query 10 example_world)
    as (_ & Hcommit & _).
  destruct (cache_get_hit (inject_Z 100000) example_query (clamp_limit 10)
              (cache example_world) example_row example_payload
              ltac:(vm_compute; reflexivity) eq_refl I)
    as (c & Hget & _ & _ & Hage & _).
  apply (Hcommit ltac:(discriminate) (Some c) (allowed_detail 1) Hget).
  - intros c' [= <-]. rewrite Hage. vm_compute. reflexivity.
  - vm_compute. reflexivity.
Defined.

(** A remote side that answers 503 to every request, and one that answers
    404. *)
Lemma retry_policy_witness :
  _serpapi_call_sold no_text_price (always 503) example_query 10
  = (Raise (HTTPException 502
              (VDict [(str "reason", VStr (str "serpapi_failed"));
                      (str "debug",
                       VDict [(str "attempt", VInt 3);
                              (str "status_code", VInt 503);
                              (str "ebay_url", VStr (str "N/A"))])])),
     [Requested; Slept 2; Requested; Slept 4; Requested; Slept 8])
  /\ (_serpapi_call_sold no_text_price (always 404) example_query 10).2
     = [Requested].
Proof.
  destruct (retry_policy no_text_price (always 503) example_query 10)
    as (_ & _ & _ & H3 & _).
  destruct (retry_policy no_text_price (always 404) example_query 10)
    as (_ & H1 & _).
  split.
  - destruct (H3 {| status_code := 503; body := None |}
                {| status_code := 503; body := None |}
                {| status_code := 503; body := None |}
                eq_refl ltac:(simpl; lia) eq_refl ltac:(simpl; lia) eq_refl)
      as [_ H]. apply H. simpl. lia.
  - apply (H1 {| status_code := 404; body := None |} eq_refl). simpl. lia.
Defined.

(** C6 as stated fails in two places. Against a remote side that answers
    500 every time there are three requests, so two retries, and the sleep
    of 8 seconds is followed by no request. And a final answer with status
    204 and no JSON body raises the decoding error of [r.json()], not the
    502. *)
Lemma two_retries_and_no_502_for_204 :
  (_serpapi_call_sold no_text_price (always 500) example_query 10).2
  = [Requested; Slept 2; Requested; Slept 4; Requested; Slept 8]
  /\ requests_made
       (_serpapi_call_sold no_text_price (always 500) example_query 10).2
     = 3%nat
  /\ _serpapi_call_sold no_text_price (always 204) example_query 10
     = (Raise (PyError "JSONDecodeError"), [Requested]).
Proof.
  split; [vm_compute; reflexivity |]. split; vm_compute; reflexivity.
Qed.

(** A listing with the currency code in lower case, which is kept. *)
Lemma currency_filter_as_coded_witness :
  normalize_item no_text_price
    (listing (str "Vintage lamp") (str "https://www.ebay.nl/itm/1")
       (str "Gebruikt")
       (price_object (str "12,50") (VFloat (25 # 2)) (Some (str "eur"))))
  = Ok (Some (comparable (str "Vintage lamp") (str "https://www.ebay.nl/itm/1")
                (str "Gebruikt") (25 # 2))).
Proof.
  destruct (currency_filter_as_coded no_text_price) as (Hkeep & _).
  exact (Hkeep (str "Vintage lamp") (str "https://www.ebay.nl/itm/1")
           (str "Gebruikt") (str "12,50") (VFloat (25 # 2)) (Some (str "eur"))
           (25 # 2) eq_refl eq_refl).
Defined.

(** C2 as stated fails in two ways. Without an API key the fresh entry of
    the example is not returned: the fetch raises the 400. And the age is
    counted in whole seconds of both clock readings: the entry written at
    second 1000.9 and read at second 22600.95 is 21600.05 s old, more
    than [TTL_SECONDS_DEFAULT], and is served as fresh, with no call and
    the world left as it was. *)
Lemma fresh_path_needs_key_and_counts_whole_seconds :
  (cache example_world !! _cache_key example_query (clamp_limit 10)
   = Some example_row
   /\ py_int (inject_Z 2000) - row_ts example_row <= TTL_SECONDS_DEFAULT
   /\ (fetch_ebay_sold [] no_text_price (example_env 2000 healthy)
         example_query 10 example_world).1
      = Raise (HTTPException 400
                 (VDict [(str "reason", VStr (str "missing_serpapi_key"))])))
  /\ (inject_Z TTL_SECONDS_DEFAULT < now_get late_env - (10009 # 10))%Q
  /\ exists doc,
       fetch_ebay_sold example_key no_text_price late_env example_query 10
         late_world
       = (Ok doc, late_world)
       /\ debug_item doc (str "cache") = Some (VStr (str "HIT"))
       /\ debug_item doc (str "stale") = Some (VBool false)
       /\ debug_item doc (str "cache_age_seconds") = Some (VInt 21600).
Proof.
  split; [| split].
  - split; [vm_compute; reflexivity |]. split; [vm_compute; discriminate |].
    vm_compute. reflexivity.
  - vm_compute. reflexivity.
  - eexists. split; [vm_compute; reflexivity |].
    split; [vm_compute; reflexivity |]. split; vm_compute; reflexivity.
Qed.

(** C5 as stated fails when a local date comes back: the count is reset
    whenever the date differs from the stored one, so of the 401 calls of
    the example, 400 of them dated 4 November, every one is permitted. *)
Lemma recurring_date_gets_a_second_allowance :
  length recurring_date_calls = 401%nat
  /\ length (filter (fun c => c.2 = str "2026-11-04") recurring_date_calls)
     = 400%nat
  /\ allowed_count (limiter_run recurring_date_calls limiter_init).1 = 401%nat.
Proof.
  split; [vm_compute; reflexivity |]. split; vm_compute; reflexivity.
Qed.

(** * Further properties of the code *)

(** ** The cache: writing and reading back *)

(** A readable row is a hit that keeps every entry of the stored debug
    block but the two tags. *)
Lemma cache_get_hit_debug (now : Q) (query : pystr) (limit : Z)
    (db : gmap string Row) (row : Row) (data : value) :
  db !! _cache_key query limit = Some row ->
  row_payload row = json_dumps data ->
  payload_ok data ->
  exists c,
    _cache_get now query limit db = Ok (Some c)
    /\ forall k, k ≠ str "cache" -> k ≠ str "cache_age_seconds" ->
                 debug_item (cached_data c) k = debug_item data k.
Proof.
  intros H Hp Hok. unfold _cache_get. cbv zeta. rewrite H, Hp. simpl json_loads.
  destruct data as [| | | | | | d]; try done. simpl in Hok.
  assert (Hshape : exists d0 dbg0,
             setdefault_debug (VDict d) = Ok (VDict d0)
             /\ dict_get (str "debug") d0 = Some (VDict dbg0)
             /\ forall k, debug_item (VDict d) k = dict_get k dbg0).
  { unfold setdefault_debug, debug_item. simpl item.
    destruct (dict_get (str "debug") d) as [[| | | | | | dbg] |] eqn:Hd; try done.
    - exists d, dbg. by rewrite Hd.
    - eexists _, []. split; [done |]. split; [apply dict_get_set_eq | done]. }
  destruct Hshape as (d0 & dbg0 & -> & Hd0 & Hsame). cbn [bind].
  rewrite (debug_set_ok _ _ _ _ Hd0). cbn [bind].
  rewrite (debug_set_ok _ _ _ (dict_set (str "cache") (VStr (str "HIT")) dbg0))
    by apply dict_get_set_eq.
  cbn [bind]. eexists. split; [done |]. intros k Hk1 Hk2.
  unfold debug_item at 1. simpl. rewrite dict_get_set_eq. simpl.
  rewrite !dict_get_set_ne by done. by rewrite Hsame.
Qed.

(** X1. A payload written with [_cache_set] is read back by [_cache_get]
    under the same query and limit: a hit stamped with the whole second of
    the write, with the age counted from it, the items and the debug
    entries as written, and the tags cache=HIT and cache_age_seconds set.
    A second write under the same query and limit replaces the first
    entirely, and a write leaves what is read under any other fingerprint
    as it was. *)
Theorem cache_set_then_get (wrote read : Q) (query : pystr) (limit : Z)
    (data : value) (db : gmap string Row) :
  payload_ok data ->
  (exists c,
     _cache_get read query limit (_cache_set wrote query limit data db)
     = Ok (Some c)
     /\ cached_ts c = py_int wrote
     /\ cached_age c = py_int read - py_int wrote
     /\ (forall k, k ≠ str "debug" -> item (cached_data c) k = item data k)
     /\ (forall k, k ≠ str "cache" -> k ≠ str "cache_age_seconds" ->
                   debug_item (cached_data c) k = debug_item data k)
     /\ debug_item (cached_data c) (str "cache") = Some (VStr (str "HIT"))
     /\ debug_item (cached_data c) (str "cache_age_seconds")
        = Some (VInt (py_int read - py_int wrote)))
  /\ (forall earlier old,
        _cache_set wrote query limit data (_cache_set earlier query limit old db)
        = _cache_set wrote query limit data db)
  /\ (forall query' limit',
        _cache_key query' limit' ≠ _cache_key query limit ->
        _cache_get read query' limit' (_cache_set wrote query limit data db)
        = _cache_get read query' limit' db).
Proof.
  intros Hok.
  set (row := {| row_query := query; row_lim := limit; row_ts := py_int wrote;
                 row_payload := json_dumps data |}).
  assert (Hrow : _cache_set wrote query limit data db !! _cache_key query limit
                 = Some row).
  { unfold _cache_set. cbv zeta. apply lookup_insert_eq. }
  split; [| split].
  - destruct (cache_get_hit read query limit _ row data Hrow eq_refl Hok)
      as (c & Hget & _ & Hts & Hage & _ & Hitems & Hhit & Hsecs).
    destruct (cache_get_hit_debug read query limit _ row data Hrow eq_refl Hok)
      as (c' & Hget' & Hdebug).
    rewrite Hget in Hget'. injection Hget' as <-.
    exists c. by repeat split.
  - intros earlier old. unfold _cache_set. cbv zeta. apply insert_insert_eq.
  - intros query' limit' Hne. apply cache_get_row.
    unfold _cache_set. cbv zeta. by rewrite lookup_insert_ne.
Qed.

(** The document of the example written at second 5000 and read at second
    5600. *)
Lemma cache_set_then_get_witness :
  exists c,
    _cache_get 5600 example_query 10
      (_cache_set 5000 example_query 10 example_payload ∅)
    = Ok (Some c)
    /\ cached_age c = 600.
Proof.
  destruct (cache_set_then_get 5000 5600 example_query 10 example_payload ∅ I)
    as ((c & Hget & _ & Hage & _) & _).
  exists c. split; [exact Hget | exact Hage].
Defined.

(** ** The orchestrator: what a successful fetch is *)

Section FetchMore.

Variable SERPAPI_KEY : pystr.
Variable float_of_str : pystr -> option Q.

Abbreviation fetch := (fetch_ebay_sold SERPAPI_KEY float_of_str).
Abbreviation refresh := (fetch_refresh float_of_str).
Abbreviation call := (_serpapi_call_sold float_of_str).

(** A cached payload keeps its HIT tag through the updates of the debug
    block, none of which writes the key "cache". *)
Lemma hit_stays_hit (now : Q) (query : pystr) (limit : Z)
    (db : gmap string Row) (c : Cached) (u : list (pystr * value))
    (doc : value) :
  _cache_get now query limit db = Ok (Some c) ->
  dict_get (str "cache") (rev u) = None ->
  dict_get (str "cache_age_seconds") (rev u) = None ->
  debug_update u (cached_data c) = Ok doc ->
  debug_item doc (str "cache") = Some (VStr (str "HIT"))
  /\ debug_item doc (str "cache_age_seconds") = Some (VInt (cached_age c))
  /\ (forall k, k ≠ str "debug" -> item doc k = item (cached_data c) k)
  /\ (forall k, debug_item doc k
                = match dict_get k (rev u) with
                  | Some v => Some v
                  | None => debug_item (cached_data c) k
                  end).
Proof.
  intros Hget Hu1 Hu2 Hupd.
  destruct (cache_get_hit_inv _ _ _ _ _ Hget) as (row & data & Hrow & Hpay & Hok).
  destruct (cache_get_hit now _ _ _ _ _ Hrow Hpay Hok)
    as (c' & Hget' & _ & _ & Hage & Htag & _ & Hhit & Hsecs).
  rewrite Hget in Hget'. injection Hget' as <-.
  destruct (debug_update_tagged u _ Htag) as (doc' & Hdoc & _ & Hrest & Hdbg).
  rewrite Hupd in Hdoc. injection Hdoc as <-.
  split; [by rewrite Hdbg, Hu1 |]. split; [by rewrite Hdbg, Hu2, Hsecs, Hage |].
  by split.
Qed.

(** The four ways a fetch returns a document. *)
Lemma fetch_ok_cases (env : Env) (query : pystr) (limit : Z) (w : World)
    (doc : value) :
  (fetch env query limit w).1 = Ok doc ->
  SERPAPI_KEY ≠ []
  /\ ((exists c,
         _cache_get (now_get env) query (clamp_limit limit) (cache w)
         = Ok (Some c)
         /\ cached_age c <= TTL_SECONDS_DEFAULT
         /\ debug_update fresh_tags (cached_data c) = Ok doc
         /\ (fetch env query limit w).2 = w)
      \/ (exists c lim_dbg,
            _cache_get (now_get env) query (clamp_limit limit) (cache w)
            = Ok (Some c)
            /\ TTL_SECONDS_DEFAULT < cached_age c
            /\ (_limiter_allow (now_lim env) (today env) (limiter w)).1
               = (false, lim_dbg)
            /\ debug_update (skipped_tags lim_dbg) (cached_data c) = Ok doc
            /\ (fetch env query limit w).2.(cache) = cache w
            /\ (fetch env query limit w).2.(events) = events w)
      \/ (exists c status detail,
            _cache_get (now_get env) query (clamp_limit limit) (cache w)
            = Ok (Some c)
            /\ TTL_SECONDS_DEFAULT < cached_age c
            /\ (_limiter_allow (now_lim env) (today env) (limiter w)).1.1 = true
            /\ (call (requests_get env) query (clamp_limit limit)).1
               = Raise (HTTPException status detail)
            /\ debug_update (failed_tags detail) (cached_data c) = Ok doc
            /\ (fetch env query limit w).2.(cache) = cache w)
      \/ (exists comps dbg,
            (forall c,
               _cache_get (now_get env) query (clamp_limit limit) (cache w)
               = Ok (Some c) ->
               TTL_SECONDS_DEFAULT < cached_age c)
            /\ (_limiter_allow (now_lim env) (today env) (limiter w)).1.1 = true
            /\ (call (requests_get env) query (clamp_limit limit)).1
               = Ok (comps, dbg)
            /\ doc = miss_document comps dbg
            /\ (fetch env query limit w).2.(cache)
               = _cache_set (now_set env) query (clamp_limit limit)
                   (miss_document comps dbg) (cache w))).
Proof.
  destruct (decide (SERPAPI_KEY = [])) as [Hkey | Hkey].
  { by rewrite (fetch_missing_key _ _ env query limit w Hkey). }
  intros H. split; [done |].
  assert (Hrefresh : forall cached,
             (refresh env query (clamp_limit limit) cached w).1 = Ok doc ->
             (exists c lim_dbg,
                cached = Some c
                /\ (_limiter_allow (now_lim env) (today env) (limiter w)).1
                   = (false, lim_dbg)
                /\ debug_update (skipped_tags lim_dbg) (cached_data c) = Ok doc
                /\ (refresh env query (clamp_limit limit) cached w).2.(cache)
                   = cache w
                /\ (refresh env query (clamp_limit limit) cached w).2.(events)
                   = events w)
             \/ (exists c status detail,
                   cached = Some c
                   /\ (_limiter_allow (now_lim env) (today env) (limiter w)).1.1
                      = true
                   /\ (call (requests_get env) query (clamp_limit limit)).1
                      = Raise (HTTPException status detail)
                   /\ debug_update (failed_tags detail) (cached_data c) = Ok doc
                   /\ (refresh env query (clamp_limit limit) cached w).2.(cache)
                      = cache w)
             \/ (exists comps dbg,
                   (_limiter_allow (now_lim env) (today env) (limiter w)).1.1
                   = true
                   /\ (call (requests_get env) query (clamp_limit limit)).1
                      = Ok (comps, dbg)
                   /\ doc = miss_document comps dbg
                   /\ (refresh env query (clamp_limit limit) cached w).2.(cache)
                      = _cache_set (now_set env) query (clamp_limit limit)
                          (miss_document comps dbg) (cache w))).
  { intros cached.
    destruct (_limiter_allow (now_lim env) (today env) (limiter w))
      as [[[] lim_dbg] lim'] eqn:Hlim.
    - rewrite (refresh_allowed _ _ _ _ _ _ _ _ Hlim). cbv zeta.
      destruct (call (requests_get env) query (clamp_limit limit)).1
        as [[comps dbg] | [s d | name]] eqn:Hcall; simpl; [| | done].
      + intros [= <-]. right. right. by exists comps, dbg.
      + destruct cached as [c |]; [| done]. intros Hdoc.
        right. left. by exists c, s, d.
    - rewrite (refresh_denied _ _ _ _ _ _ _ _ Hlim). simpl.
      destruct cached as [c |]; [| done]. intros Hdoc.
      left. by exists c, lim_dbg. }
  destruct (_cache_get (now_get env) query (clamp_limit limit) (cache w))
    as [[c |] | e] eqn:Hget.
  - destruct (decide (cached_age c <= TTL_SECONDS_DEFAULT)) as [Hage | Hage].
    + rewrite (fetch_fresh _ _ env query limit w c Hkey Hget Hage) in H |- *.
      left. by exists c.
    + rewrite (fetch_stale _ _ env query limit w c Hkey Hget) in H |- * by lia.
      destruct (Hrefresh (Some c) H)
        as [(c' & lim_dbg & [= <-] & Hrest)
           | [(c' & s & d & [= <-] & Hrest)
             | (comps & dbg & Ha & Hc & Hd & Hs)]].
      * right. left. exists c, lim_dbg. split; [done |]. split; [lia | done].
      * right. right. left. exists c, s, d. split; [done |]. split; [lia | done].
      * right. right. right. exists comps, dbg. split; [| done].
        intros c' [= <-]. lia.
  - rewrite (fetch_absent _ _ env query limit w Hkey Hget) in H |- *.
    destruct (Hrefresh None H)
      as [(c' & lim_dbg & [=] & _)
         | [(c' & s & d & [=] & _) | (comps & dbg & Ha & Hc & Hd & Hs)]].
    right. right. right. exists comps, dbg. by split.
  - unfold fetch_ebay_sold in H. rewrite decide_False in H by done.
    cbv zeta in H. by rewrite Hget in H.
Qed.

(** X2. Every document a fetch returns carries a debug block that says
    where it comes from. A cached payload is tagged cache=HIT with its age
    in seconds and with stale=False and ttl_seconds=21600, or with
    stale=True and either ttl_seconds=21600 and the limiter's detail under
    refresh_skipped, or ttl_seconds=86400 and the client's detail under
    refresh_failed. A new document is tagged cache=MISS and
    ttl_seconds=21600, has no stale key, and carries the item list, both
    counts and the snapshot of the last attempt. *)
Theorem fetched_document_is_tagged (env : Env) (query : pystr) (limit : Z)
    (w : World) (doc : value) :
  (fetch env query limit w).1 = Ok doc ->
  (debug_item doc (str "cache") = Some (VStr (str "HIT"))
   /\ (exists age, debug_item doc (str "cache_age_seconds") = Some (VInt age))
   /\ ((debug_item doc (str "stale") = Some (VBool false)
        /\ debug_item doc (str "ttl_seconds") = Some (VInt 21600))
       \/ (debug_item doc (str "stale") = Some (VBool true)
           /\ debug_item doc (str "ttl_seconds") = Some (VInt 21600)
           /\ is_Some (debug_item doc (str "refresh_skipped")))
       \/ (debug_item doc (str "stale") = Some (VBool true)
           /\ debug_item doc (str "ttl_seconds") = Some (VInt 86400)
           /\ is_Some (debug_item doc (str "refresh_failed")))))
  \/
  (debug_item doc (str "cache") = Some (VStr (str "MISS"))
   /\ debug_item doc (str "ttl_seconds") = Some (VInt 21600)
   /\ debug_item doc (str "stale") = None
   /\ (exists comps, item doc (str "items") = Some (VList comps))
   /\ (exists n, debug_item doc (str "count_raw") = Some (VInt n))
   /\ (exists n, debug_item doc (str "count_eur") = Some (VInt n))
   /\ is_Some (debug_item doc (str "serpapi_debug"))).
Proof.
  intros H.
  destruct (fetch_ok_cases env query limit w doc H)
    as (_ & [(c & Hget & _ & Hupd & _)
            | [(c & lim_dbg & Hget & _ & _ & Hupd & _)
              | [(c & s & d & Hget & _ & _ & _ & Hupd & _)
                | (comps & dbg & _ & _ & Hcall & -> & _)]]]).
  - left. destruct (hit_stays_hit _ _ _ _ c fresh_tags doc Hget eq_refl eq_refl Hupd)
      as (Hhit & Hage & _ & Hdbg).
    split; [done |]. split; [by eexists |]. left. by rewrite !Hdbg.
  - left.
    destruct (hit_stays_hit _ _ _ _ c (skipped_tags lim_dbg) doc Hget
                eq_refl eq_refl Hupd) as (Hhit & Hage & _ & Hdbg).
    split; [done |]. split; [by eexists |]. right. left. by rewrite !Hdbg.
  - left.
    destruct (hit_stays_hit _ _ _ _ c (failed_tags d) doc Hget
                eq_refl eq_refl Hupd) as (Hhit & Hage & _ & Hdbg).
    split; [done |]. split; [by eexists |]. right. right. by rewrite !Hdbg.
  - right. apply serpapi_ok_debug in Hcall as (n & m & ld & ->).
    repeat split; by eexists.
Qed.

End FetchMore.

(** ** The orchestrator: the cache over several fetches *)

Section FetchWorld.

Variable SERPAPI_KEY : pystr.
Variable float_of_str : pystr -> option Q.

Abbreviation fetch := (fetch_ebay_sold SERPAPI_KEY float_of_str).
Abbreviation refresh := (fetch_refresh float_of_str).
Abbreviation call := (_serpapi_call_sold float_of_str).

(** The document built from a call is a payload [_cache_get] can tag. *)
Lemma miss_document_ok (comps : list value) (dbg : list (pystr * value)) :
  payload_ok (miss_document comps dbg).
Proof. by vm_compute. Qed.

(** Past the test for a fresh entry, the result, the limiter and the trace
    do not depend on the table. *)
Lemma refresh_any_cache (env : Env) (query : pystr) (limit : Z)
    (cached : option Cached) (w1 w2 : World) :
  limiter w1 = limiter w2 ->
  events w1 = events w2 ->
  (refresh env query limit cached w1).1 = (refresh env query limit cached w2).1
  /\ limiter (refresh env query limit cached w1).2
     = limiter (refresh env query limit cached w2).2
  /\ events (refresh env query limit cached w1).2
     = events (refresh env query limit cached w2).2.
Proof.
  intros Hl He.
  destruct (_limiter_allow (now_lim env) (today env) (limiter w1))
    as [[[] lim_dbg] lim'] eqn:Hlim1.
  - assert (Hlim2 := Hlim1). rewrite Hl in Hlim2.
    rewrite (refresh_allowed _ _ _ _ _ _ _ _ Hlim1),
            (refresh_allowed _ _ _ _ _ _ _ _ Hlim2). cbv zeta. rewrite He.
    by destruct (call (requests_get env) query limit).1
      as [[comps dbg] | [s d | name]]; destruct cached.
  - assert (Hlim2 := Hlim1). rewrite Hl in Hlim2.
    rewrite (refresh_denied _ _ _ _ _ _ _ _ Hlim1),
            (refresh_denied _ _ _ _ _ _ _ _ Hlim2). by rewrite He.
Qed.

(** With nothing to read under the fingerprint, a fetch that returns has
    made a successful call and stored its document. *)
Lemma fetch_nothing_cached (env : Env) (query : pystr) (limit : Z) (w : World)
    (doc : value) :
  _cache_get (now_get env) query (clamp_limit limit) (cache w) = Ok None ->
  (fetch env query limit w).1 = Ok doc ->
  debug_item doc (str "cache") = Some (VStr (str "MISS"))
  /\ (fetch env query limit w).2.(cache)
     = _cache_set (now_set env) query (clamp_limit limit) doc (cache w).
Proof.
  intros Hnone H.
  destruct (fetch_ok_cases _ _ env query limit w doc H)
    as (_ & [(c & Hget & _) | [(c & d & Hget & _)
            | [(c & s & d & Hget & _) | (comps & dbg & _ & _ & Hcall & -> & Hset)]]]);
    try (rewrite Hnone in Hget; discriminate Hget).
  split; [| exact Hset].
  by destruct (miss_document_cache _ comps dbg _ _ _ Hcall).
Qed.

(** X3. A fetch that returns a document tagged cache=MISS has stored it:
    any later fetch of the same query whose limit clamps to the same value,
    made while the entry is at most 21600 whole seconds old, returns the
    same items and the same debug entries, tagged cache=HIT, stale=False
    and with the age in seconds, and leaves the limiter, the table and the
    request trace untouched, whatever the limiter would say and whatever
    the remote side would answer. *)
Theorem miss_then_hit (env1 env2 : Env) (query : pystr) (limit1 limit2 : Z)
    (w : World) (doc : value) :
  (fetch env1 query limit1 w).1 = Ok doc ->
  debug_item doc (str "cache") = Some (VStr (str "MISS")) ->
  clamp_limit limit2 = clamp_limit limit1 ->
  py_int (now_get env2) - py_int (now_set env1) <= TTL_SECONDS_DEFAULT ->
  exists doc2,
    fetch env2 query limit2 (fetch env1 query limit1 w).2
    = (Ok doc2, (fetch env1 query limit1 w).2)
    /\ item doc2 (str "items") = item doc (str "items")
    /\ debug_item doc2 (str "cache") = Some (VStr (str "HIT"))
    /\ debug_item doc2 (str "stale") = Some (VBool false)
    /\ debug_item doc2 (str "cache_age_seconds")
       = Some (VInt (py_int (now_get env2) - py_int (now_set env1)))
    /\ forall k,
         k ≠ str "cache" -> k ≠ str "cache_age_seconds" -> k ≠ str "stale" ->
         debug_item doc2 k = debug_item doc k.
Proof.
  intros H Hmiss Hclamp Hage.
  destruct (fetch_ok_cases _ _ env1 query limit1 w doc H)
    as (Hkey & [(c & Hget & _ & Hupd & _)
               | [(c & lim_dbg & Hget & _ & _ & Hupd & _)
                 | [(c & s & d & Hget & _ & _ & _ & Hupd & _)
                   | (comps & dbg & _ & _ & Hcall & -> & Hset)]]]).
  - destruct (hit_stays_hit _ _ _ _ c fresh_tags doc Hget eq_refl eq_refl Hupd)
      as (Hhit & _). rewrite Hhit in Hmiss. discriminate Hmiss.
  - destruct (hit_stays_hit _ _ _ _ c (skipped_tags lim_dbg) doc Hget
                eq_refl eq_refl Hupd) as (Hhit & _).
    rewrite Hhit in Hmiss. discriminate Hmiss.
  - destruct (hit_stays_hit _ _ _ _ c (failed_tags d) doc Hget
                eq_refl eq_refl Hupd) as (Hhit & _).
    rewrite Hhit in Hmiss. discriminate Hmiss.
  - set (w1 := (fetch env1 query limit1 w).2) in *.
    set (row := {| row_query := query; row_lim := clamp_limit limit1;
                   row_ts := py_int (now_set env1);
                   row_payload := json_dumps (miss_document comps dbg) |}).
    assert (Hrow : cache w1 !! _cache_key query (clamp_limit limit2) = Some row).
    { rewrite Hset, Hclamp. unfold _cache_set. cbv zeta. apply lookup_insert_eq. }
    destruct (cache_get_hit (now_get env2) query (clamp_limit limit2) _ row _
                Hrow eq_refl (miss_document_ok comps dbg))
      as (c & Hget & _ & _ & Hcage & Htag & Hitems & _ & _).
    destruct (cache_get_hit_debug (now_get env2) query (clamp_limit limit2) _ row _
                Hrow eq_refl (miss_document_ok comps dbg))
      as (c' & Hget' & Hdebug).
    rewrite Hget in Hget'. injection Hget' as <-.
    destruct (debug_update_tagged fresh_tags _ Htag) as (doc2 & Hupd & _).
    destruct (hit_stays_hit _ _ _ _ c fresh_tags doc2 Hget eq_refl eq_refl Hupd)
      as (Hhit & Hsecs & Hrest & Hdbg).
    assert (Hfresh : cached_age c <= TTL_SECONDS_DEFAULT).
    { rewrite Hcage. exact Hage. }
    exists doc2. split.
    { rewrite (fetch_fresh _ _ env2 query limit2 w1 c Hkey Hget Hfresh).
      by rewrite Hupd. }
    split; [by rewrite Hrest, Hitems |]. split; [exact Hhit |].
    split; [by rewrite Hdbg |]. split; [by rewrite Hsecs, Hcage |].
    intros k Hk1 Hk2 Hk3. rewrite Hdbg.
    destruct (decide (k = str "ttl_seconds")) as [-> | Hk4].
    + destruct (serpapi_ok_debug _ _ _ _ _ _ Hcall) as (n & m & ld & ->).
      by vm_compute.
    + simpl dict_get. rewrite !decide_False by done. by apply Hdebug.
Qed.

(** X4. A row whose payload does not parse as JSON counts as no row: the
    fetch gives the result it gives with the row deleted, with the same
    effect on the limiter and the same requests. It therefore never
    answers from that row: a document it returns is a new one, tagged
    cache=MISS and stored in place of the row, and a refusal of the
    limiter is the 429, with no stale fallback. *)
Theorem unreadable_row_counts_as_absent (env : Env) (query : pystr) (limit : Z)
    (w : World) (row : Row) (s : pystr) :
  cache w !! _cache_key query (clamp_limit limit) = Some row ->
  row_payload row = not_json s ->
  let gone := {| limiter := limiter w;
                 cache := delete (_cache_key query (clamp_limit limit)) (cache w);
                 events := events w |} in
  (fetch env query limit w).1 = (fetch env query limit gone).1
  /\ limiter (fetch env query limit w).2 = limiter (fetch env query limit gone).2
  /\ events (fetch env query limit w).2 = events (fetch env query limit gone).2
  /\ (forall doc,
        (fetch env query limit w).1 = Ok doc ->
        debug_item doc (str "cache") = Some (VStr (str "MISS"))
        /\ (fetch env query limit w).2.(cache)
           = _cache_set (now_set env) query (clamp_limit limit) doc (cache w))
  /\ (forall lim_dbg,
        SERPAPI_KEY ≠ [] ->
        (_limiter_allow (now_lim env) (today env) (limiter w)).1
        = (false, lim_dbg) ->
        (fetch env query limit w).1
        = Raise (HTTPException 429 (rate_limited_detail lim_dbg))).
Proof.
  intros Hrow Hbad gone.
  assert (Hnone : _cache_get (now_get env) query (clamp_limit limit) (cache w)
                  = Ok None).
  { exact (cache_get_unreadable _ _ _ _ row s Hrow Hbad). }
  assert (Hnone' : _cache_get (now_get env) query (clamp_limit limit) (cache gone)
                   = Ok None).
  { apply cache_get_absent. apply lookup_delete_eq. }
  assert (Hsame : (fetch env query limit w).1 = (fetch env query limit gone).1
                  /\ limiter (fetch env query limit w).2
                     = limiter (fetch env query limit gone).2
                  /\ events (fetch env query limit w).2
                     = events (fetch env query limit gone).2).
  { destruct (decide (SERPAPI_KEY = [])) as [Hkey | Hkey].
    - by rewrite !(fetch_missing_key _ _ env query limit _ Hkey).
    - rewrite (fetch_absent _ _ env query limit w Hkey Hnone),
              (fetch_absent _ _ env query limit gone Hkey Hnone').
      by apply refresh_any_cache. }
  destruct Hsame as (H1 & H2 & H3).
  split; [exact H1 |]. split; [exact H2 |]. split; [exact H3 |]. split.
  - intros doc. by apply fetch_nothing_cached.
  - intros lim_dbg Hkey Hlim.
    rewrite (fetch_absent _ _ env query limit w Hkey Hnone).
    destruct (_limiter_allow (now_lim env) (today env) (limiter w))
      as [[a d] lim'] eqn:Hallow.
    simpl in Hlim. injection Hlim as -> ->.
    by rewrite (refresh_denied _ _ _ _ _ _ _ _ Hallow).
Qed.

End FetchWorld.

(** ** The orchestrator: the limiter and the requests over a day *)

Section FetchDay.

Variable SERPAPI_KEY : pystr.
Variable float_of_str : pystr -> option Q.

Abbreviation fetch := (fetch_ebay_sold SERPAPI_KEY float_of_str).
Abbreviation refresh := (fetch_refresh float_of_str).
Abbreviation call := (_serpapi_call_sold float_of_str).

(** What a fetch does to the limiter and to the trace: nothing when it
    does not reach the limiter, else the limiter's step and, with a permit,
    the requests of one client call. *)
Lemma fetch_step (env : Env) (query : pystr) (limit : Z) (w : World) :
  (limiter (fetch env query limit w).2 = limiter w
   /\ events (fetch env query limit w).2 = events w)
  \/ (limiter (fetch env query limit w).2
      = (_limiter_allow (now_lim env) (today env) (limiter w)).2
      /\ events (fetch env query limit w).2
         = events w
           ++ (if (_limiter_allow (now_lim env) (today env) (limiter w)).1.1
               then (call (requests_get env) query (clamp_limit limit)).2
               else [])).
Proof.
  assert (Hrefresh : forall cached,
             limiter (refresh env query (clamp_limit limit) cached w).2
             = (_limiter_allow (now_lim env) (today env) (limiter w)).2
             /\ events (refresh env query (clamp_limit limit) cached w).2
                = events w
                  ++ (if (_limiter_allow (now_lim env) (today env) (limiter w)).1.1
                      then (call (requests_get env) query (clamp_limit limit)).2
                      else [])).
  { intros cached. split; [apply refresh_limiter |].
    destruct (_limiter_allow (now_lim env) (today env) (limiter w))
      as [[[] lim_dbg] lim'] eqn:Hlim.
    - rewrite (refresh_allowed _ _ _ _ _ _ _ _ Hlim). cbv zeta.
      by destruct (call (requests_get env) query (clamp_limit limit)).1
        as [[comps dbg] | [s d | name]]; destruct cached.
    - rewrite (refresh_denied _ _ _ _ _ _ _ _ Hlim). simpl.
      by rewrite app_nil_r. }
  destruct (decide (SERPAPI_KEY = [])) as [Hkey | Hkey].
  { left. by rewrite (fetch_missing_key _ _ env query limit w Hkey). }
  destruct (_cache_get (now_get env) query (clamp_limit limit) (cache w))
    as [[c |] | e] eqn:Hget.
  - destruct (decide (cached_age c <= TTL_SECONDS_DEFAULT)) as [Hage | Hage].
    + left. by rewrite (fetch_fresh _ _ env query limit w c Hkey Hget Hage).
    + right. rewrite (fetch_stale _ _ env query limit w c Hkey Hget) by lia.
      apply Hrefresh.
  - right. rewrite (fetch_absent _ _ env query limit w Hkey Hget). apply Hrefresh.
  - left. unfold fetch_ebay_sold. rewrite decide_False by done. cbv zeta.
    by rewrite Hget.
Qed.

Lemma requests_made_app (evs1 evs2 : list Event) :
  requests_made (evs1 ++ evs2) = (requests_made evs1 + requests_made evs2)%nat.
Proof. unfold requests_made. by rewrite List.filter_app, length_app. Qed.

Lemma call_requests (get : nat -> Answer) (query : pystr) (limit : Z) :
  (requests_made (call get query limit).2 <= 3)%nat.
Proof.
  rewrite call_events.
  pose proof (retry_loop_events get) as H. cbv zeta in H.
  destruct H as [H | [H | [H | H]]]; rewrite H; unfold requests_made; simpl; lia.
Qed.

(** One fetch on the local date [tk]: the count of the day does not go
    down, stays within the cap, and pays for the requests made, three for
    each permit. *)
Lemma fetch_day_step (tk : pystr) (env : Env) (query : pystr) (limit : Z)
    (w : World) :
  today env = tk ->
  0 <= _day_calls (day_reset tk (limiter w)) <= MAX_CALLS_PER_DAY ->
  let w' := (fetch env query limit w).2 in
  _day_calls (day_reset tk (limiter w))
  <= _day_calls (day_reset tk (limiter w')) <= MAX_CALLS_PER_DAY
  /\ Z.of_nat (requests_made (events w')) - Z.of_nat (requests_made (events w))
     <= 3 * (_day_calls (day_reset tk (limiter w'))
             - _day_calls (day_reset tk (limiter w))).
Proof.
  intros Htk Hday w'. subst w'.
  destruct (fetch_step env query limit w) as [[-> ->] | [-> ->]].
  { lia. }
  rewrite Htk.
  destruct (limiter_allow_step (now_lim env) tk (limiter w)) as (Hk & Hc & Hcap).
  rewrite (day_reset_same _ _ Hk), Hc.
  destruct (_limiter_allow (now_lim env) tk (limiter w)).1.1.
  - specialize (Hcap eq_refl). rewrite requests_made_app.
    pose proof (call_requests (requests_get env) query (clamp_limit limit)).
    lia.
  - rewrite app_nil_r. lia.
Qed.

(** X5. The requests sent to the remote side during the fetches of one
    local date number at most three for each permit the limiter gave on
    that date, so at most 600 from the start of the day, whatever is
    fetched, whatever the cache holds and whatever the remote side
    answers. *)
Theorem requests_per_day (tk : pystr) (calls : list (Env * pystr * Z)) :
  forall w : World,
    Forall (fun c => today c.1.1 = tk) calls ->
    0 <= _day_calls (day_reset tk (limiter w)) <= MAX_CALLS_PER_DAY ->
    let w' := (fetch_all SERPAPI_KEY float_of_str calls w).2 in
    Z.of_nat (requests_made (events w')) - Z.of_nat (requests_made (events w))
    <= 3 * (_day_calls (day_reset tk (limiter w'))
            - _day_calls (day_reset tk (limiter w)))
    /\ _day_calls (day_reset tk (limiter w')) <= MAX_CALLS_PER_DAY
    /\ Z.of_nat (requests_made (events w'))
       <= Z.of_nat (requests_made (events w)) + 600.
Proof.
  induction calls as [| [[env query] limit] calls IH]; intros w Hall Hday.
  - simpl. unfold MAX_CALLS_PER_DAY in *. lia.
  - apply Forall_cons in Hall as [Htk Hall]. simpl in Htk.
    destruct (fetch_day_step tk env query limit w Htk Hday) as (Hd & Hr).
    cbv zeta in Hd, Hr.
    assert (Hday' : 0 <= _day_calls (day_reset tk
                                       (limiter (fetch env query limit w).2))
                    <= MAX_CALLS_PER_DAY) by lia.
    specialize (IH (fetch env query limit w).2 Hall Hday').
    cbv zeta in IH. destruct IH as (IH1 & IH2 & _).
    cbn [fetch_all snd]. cbv zeta. cbn [snd].
    unfold MAX_CALLS_PER_DAY in *. lia.
Qed.

(** X7. The endpoint that clears the cache leaves the limiter and the
    request trace alone and empties the table: no lookup finds an entry,
    so the next fetch of any query does not answer from the cache. If it
    returns, its document is new, tagged cache=MISS, and the only row of
    the table; if it fails, the table stays empty; and when the limiter
    refuses, it fails with the 429, there being nothing stale to serve. *)
Theorem cleared_cache_serves_nothing (w : World) :
  let w0 := (cache_clear w).2 in
  limiter w0 = limiter w
  /\ events w0 = events w
  /\ forall env query limit,
       _cache_get (now_get env) query (clamp_limit limit) (cache w0) = Ok None
       /\ (forall doc,
             (fetch env query limit w0).1 = Ok doc ->
             debug_item doc (str "cache") = Some (VStr (str "MISS"))
             /\ (fetch env query limit w0).2.(cache)
                = _cache_set (now_set env) query (clamp_limit limit) doc ∅)
       /\ (forall e,
             (fetch env query limit w0).1 = Raise e ->
             (fetch env query limit w0).2.(cache) = ∅)
       /\ (forall lim_dbg,
             SERPAPI_KEY ≠ [] ->
             (_limiter_allow (now_lim env) (today env) (limiter w)).1
             = (false, lim_dbg) ->
             (fetch env query limit w0).1
             = Raise (HTTPException 429 (rate_limited_detail lim_dbg))).
Proof.
  intros w0. split; [done |]. split; [done |]. intros env query limit.
  assert (Hnone : _cache_get (now_get env) query (clamp_limit limit) (cache w0)
                  = Ok None).
  { apply cache_get_absent. apply lookup_empty. }
  split; [exact Hnone |]. split; [| split].
  - intros doc H.
    exact (fetch_nothing_cached _ _ env query limit w0 doc Hnone H).
  - intros e H.
    destruct (fetch_cache_cases SERPAPI_KEY float_of_str env query limit w0)
      as [[Hsame _] | (comps & dbg & _ & Hdoc & _)].
    + exact Hsame.
    + rewrite H in Hdoc. discriminate Hdoc.
  - intros lim_dbg Hkey Hlim.
    rewrite (fetch_absent _ _ env query limit w0 Hkey Hnone).
    destruct (_limiter_allow (now_lim env) (today env) (limiter w0))
      as [[a d] lim'] eqn:Hallow.
    change (limiter w0) with (limiter w) in Hallow. rewrite Hallow in Hlim.
    simpl in Hlim. injection Hlim as -> ->.
    rewrite (refresh_denied float_of_str env query (clamp_limit limit) None w0 lim_dbg lim').
    + done.
    + exact Hallow.
Qed.

End FetchDay.

(** ** The limiter: the hint of a refusal and the distance of permits *)

(** The three answers of [_limiter_allow], each with its condition. *)
Lemma limiter_allow_cases (now : Q) (tk : pystr) (s : LimiterState) :
  (MAX_CALLS_PER_DAY <= _day_calls (day_reset tk s)
   /\ _limiter_allow now tk s
      = ((false, daily_cap_detail (_day_calls (day_reset tk s))), day_reset tk s))
  \/ (_day_calls (day_reset tk s) < MAX_CALLS_PER_DAY
      /\ (now - _last_call_ts (day_reset tk s)
          < inject_Z MIN_SECONDS_BETWEEN_CALLS)%Q
      /\ _limiter_allow now tk s
         = ((false, min_interval_detail
                      (Qfloor (inject_Z MIN_SECONDS_BETWEEN_CALLS
                               - (now - _last_call_ts (day_reset tk s))) + 1)),
            day_reset tk s))
  \/ (_day_calls (day_reset tk s) < MAX_CALLS_PER_DAY
      /\ (inject_Z MIN_SECONDS_BETWEEN_CALLS
          <= now - _last_call_ts (day_reset tk s))%Q
      /\ _limiter_allow now tk s
         = ((true, allowed_detail (_day_calls (day_reset tk s) + 1)),
            {| _last_call_ts := now;
               _day_key := _day_key (day_reset tk s);
               _day_calls := _day_calls (day_reset tk s) + 1 |})).
Proof.
  destruct (decide (MAX_CALLS_PER_DAY <= _day_calls (day_reset tk s))) as [Hc | Hc].
  { left. split; [done |]. by apply limiter_allow_cap. }
  right.
  destruct (Qlt_le_dec (now - _last_call_ts (day_reset tk s))
              (inject_Z MIN_SECONDS_BETWEEN_CALLS)) as [Hw | Hw].
  - left. split; [lia |]. split; [done |]. apply limiter_allow_interval; [lia | done].
  - right. split; [lia |]. split; [done |]. apply limiter_allow_ok; [lia | done].
Qed.

(** Refused calls on the date of the state leave it as it is. *)
Lemma limiter_run_denied (tk : pystr) (calls : list (Q * pystr)) :
  forall s : LimiterState,
    _day_key s = Some tk ->
    Forall (fun c => c.2 = tk) calls ->
    Forall (fun a => a.1 = false) (limiter_run calls s).1 ->
    (limiter_run calls s).2 = s.
Proof.
  induction calls as [| [now tk'] calls IH]; intros s Hk Hall Hden; [done |].
  apply Forall_cons in Hall as [Htk Hall]. simpl in Htk. subst tk'.
  rewrite limiter_run_cons in Hden |- *. cbn [fst snd] in Hden |- *.
  apply Forall_cons in Hden as [Hfirst Hden].
  assert (Hsame : (_limiter_allow now tk s).2 = s).
  { destruct (limiter_allow_cases now tk s)
      as [(_ & H) | [(_ & _ & H) | (_ & _ & H)]]; rewrite H in Hfirst |- *.
    - by apply day_reset_same.
    - by apply day_reset_same.
    - discriminate Hfirst. }
  rewrite Hsame in Hden |- *. by apply IH.
Qed.

(** Calls on the date of the state never move the time of the last
    permitted call backwards. *)
Lemma limiter_run_last_call (tk : pystr) (calls : list (Q * pystr)) :
  forall s : LimiterState,
    _day_key s = Some tk ->
    Forall (fun c => c.2 = tk) calls ->
    _day_key (limiter_run calls s).2 = Some tk
    /\ (_last_call_ts s <= _last_call_ts (limiter_run calls s).2)%Q.
Proof.
  induction calls as [| [now tk'] calls IH]; intros s Hk Hall.
  { split; [done | apply Qle_refl]. }
  apply Forall_cons in Hall as [Htk Hall]. simpl in Htk. subst tk'.
  rewrite limiter_run_cons. cbn [snd].
  assert (Hstep : _day_key (_limiter_allow now tk s).2 = Some tk
                  /\ (_last_call_ts s
                      <= _last_call_ts (_limiter_allow now tk s).2)%Q).
  { destruct (limiter_allow_cases now tk s)
      as [(_ & H) | [(_ & _ & H) | (_ & Hw & H)]]; rewrite H; cbn [snd].
    - rewrite (day_reset_same _ _ Hk). split; [done | apply Qle_refl].
    - rewrite (day_reset_same _ _ Hk). split; [done | apply Qle_refl].
    - rewrite (day_reset_same _ _ Hk) in Hw |- *. split; [done |].
      cbn [_last_call_ts]. unfold MIN_SECONDS_BETWEEN_CALLS in Hw.
      change (inject_Z 2) with 2%Q in Hw. lra. }
  destruct Hstep as [Hk' Hle].
  destruct (IH _ Hk' Hall) as [Hk'' Hle']. split; [done |].
  by apply (Qle_trans _ _ _ Hle).
Qed.

(** X8. The hint of a refusal is long enough. When the limiter refuses a
    call for the minimum interval with the hint [retry_after_seconds = h],
    a call made [h] seconds later or more on the same local date is
    permitted, provided the calls in between, if any, were refused too.
    The hint is at least 1, exceeds the remaining wait by at most one
    second, and is at most 3 when the clock has not gone back behind the
    last permitted call. *)
Theorem retry_after_suffices (now later : Q) (tk : pystr) (s : LimiterState)
    (h : Z) (calls : list (Q * pystr)) :
  (_limiter_allow now tk s).1 = (false, min_interval_detail h) ->
  Forall (fun c => c.2 = tk) calls ->
  Forall (fun a => a.1 = false)
    (limiter_run calls (_limiter_allow now tk s).2).1 ->
  (inject_Z h <= later - now)%Q ->
  (_limiter_allow later tk
     (limiter_run calls (_limiter_allow now tk s).2).2).1.1 = true
  /\ 1 <= h
  /\ (inject_Z h - 1 <= wait_needed now (day_reset tk s) < inject_Z h)%Q
  /\ ((_last_call_ts (day_reset tk s) <= now)%Q -> h <= 3).
Proof.
  intros Hden Hall Hrun Hlater.
  destruct (limiter_allow_cases now tk s)
    as [(_ & H) | [(Hc & Hw & H) | (_ & _ & H)]];
    rewrite H in Hden, Hrun |- *; cbn [fst snd] in Hden, Hrun |- *;
    [discriminate Hden | | discriminate Hden].
  assert (Hh : h = Qfloor (inject_Z MIN_SECONDS_BETWEEN_CALLS
                          - (now - _last_call_ts (day_reset tk s))) + 1).
  { unfold min_interval_detail in Hden. congruence. }
  clear Hden. subst h.
  rewrite (limiter_run_denied tk calls _ (day_reset_key tk s) Hall Hrun).
  destruct (wait_needed_pos now (day_reset tk s) Hw) as [Hwait Hpos].
  rewrite Hwait in Hpos |- *.
  set (wait := (inject_Z MIN_SECONDS_BETWEEN_CALLS
                - (now - _last_call_ts (day_reset tk s)))%Q) in *.
  pose proof (Qfloor_le wait) as Hlo. pose proof (Qlt_floor wait) as Hhi.
  rewrite inject_Z_plus in Hlater, Hhi |- *.
  change (inject_Z 1) with 1%Q in Hlater, Hhi |- *.
  split; [| split; [| split; [split |]]].
  - rewrite limiter_allow_ok; [done | |];
      rewrite (day_reset_same _ _ (day_reset_key tk s)); [done |].
    subst wait. unfold MIN_SECONDS_BETWEEN_CALLS in *.
    change (inject_Z 2) with 2%Q in *. lra.
  - assert (0 <= Qfloor wait); [| lia].
    change 0 with (Qfloor 0). apply Qfloor_resp_le. lra.
  - lra.
  - lra.
  - intros Hclock.
    assert (Qfloor wait <= 2); [| lia].
    change 2 with (Qfloor 2). apply Qfloor_resp_le.
    subst wait. unfold MIN_SECONDS_BETWEEN_CALLS.
    change (inject_Z 2) with 2%Q. lra.
Qed.

(** X9. Permitted calls of one local date are at least two seconds apart:
    after a permit at [now], whatever calls follow on that date, a call of
    that date that is permitted comes at [now + 2] or later, and the
    permits of the date between the two are that far apart as well, since
    the time of the last permitted call never moves backwards. *)
Theorem permits_are_spaced (now later : Q) (tk : pystr) (s : LimiterState)
    (calls : list (Q * pystr)) :
  (_limiter_allow now tk s).1.1 = true ->
  Forall (fun c => c.2 = tk) calls ->
  (_limiter_allow later tk
     (limiter_run calls (_limiter_allow now tk s).2).2).1.1 = true ->
  (inject_Z MIN_SECONDS_BETWEEN_CALLS <= later - now)%Q
  /\ (now <= _last_call_ts (limiter_run calls (_limiter_allow now tk s).2).2)%Q
  /\ (inject_Z MIN_SECONDS_BETWEEN_CALLS
      <= later
         - _last_call_ts (limiter_run calls (_limiter_allow now tk s).2).2)%Q.
Proof.
  intros Hfirst Hall Hlater.
  destruct (limiter_allow_step now tk s) as (Hk & _).
  destruct (limiter_run_last_call tk calls _ Hk Hall) as [Hk' Hle].
  assert (Hnow : _last_call_ts (_limiter_allow now tk s).2 = now).
  { destruct (limiter_allow_cases now tk s)
      as [(_ & H) | [(_ & _ & H) | (_ & _ & H)]]; rewrite H in Hfirst |- *;
      [discriminate Hfirst | discriminate Hfirst | done]. }
  rewrite Hnow in Hle.
  set (s1 := (limiter_run calls (_limiter_allow now tk s).2).2) in *.
  destruct (limiter_allow_cases later tk s1)
    as [(_ & H) | [(_ & _ & H) | (_ & Hw & H)]]; rewrite H in Hlater;
    [discriminate Hlater | discriminate Hlater |].
  rewrite (day_reset_same _ _ Hk') in Hw.
  unfold MIN_SECONDS_BETWEEN_CALLS in *. change (inject_Z 2) with 2%Q in *.
  split; [lra |]. split; [done | lra].
Qed.

(** ** The client: what a successful call returns *)

Lemma bind_ok {A B} (m : result A) (k : A -> result B) (b : B) :
  (let* x := m in k x) = Ok b -> exists a, m = Ok a /\ k a = Ok b.
Proof. destruct m as [a | e]; [by exists a | done]. Qed.

Section ClientMore.

Variable float_of_str : pystr -> option Q.

Abbreviation call := (_serpapi_call_sold float_of_str).

(** What the loop appends is a record of the five fields, with a float
    under price_eur. *)
Lemma normalize_item_shape (it c : value) :
  normalize_item float_of_str it = Ok (Some c) -> is_comp c.
Proof.
  intros H. unfold normalize_item in H. cbv zeta in H.
  repeat (apply bind_ok in H as (? & _ & H)).
  match type of H with
  | match ?x with _ => _ end = _ => destruct x
  end; try discriminate H;
    (apply bind_ok in H as (eur & _ & H);
     destruct (negb eur); [discriminate H |];
     destruct (py_float _ _); [| discriminate H];
     repeat (apply bind_ok in H as (? & _ & H));
     injection H as <-; by eexists _, _, _, _).
Qed.

Lemma normalize_shape (items : list value) :
  forall comps,
    normalize float_of_str items = Ok comps ->
    (length comps <= length items)%nat /\ Forall is_comp comps.
Proof.
  induction items as [| it items IH]; intros comps H; simpl in H.
  - injection H as <-. by split.
  - apply bind_ok in H as (c & Hc & H). apply bind_ok in H as (cs & Hcs & H).
    injection H as <-. destruct (IH cs Hcs) as [Hlen Hall].
    destruct c as [c |]; simpl.
    + split; [lia |]. apply Forall_cons. split; [| done].
      by apply normalize_item_shape with it.
    + split; [lia | done].
Qed.

(** The records of a successful call. *)
Lemma serpapi_ok_comps (get : nat -> Answer) (query : pystr) (limit : Z)
    (comps : list value) (dbg : list (pystr * value)) :
  (call get query limit).1 = Ok (comps, dbg) -> Forall is_comp comps.
Proof.
  unfold _serpapi_call_sold. cbv zeta. cbn [fst].
  destruct (retry_loop get (enumerate 1 [2; 4; 8]) None).1
    as [[r last_debug] | e]; [| done].
  destruct (decide _); [done |].
  destruct (r_json r) as [data | e]; cbn [bind]; [| done].
  destruct (py_in (str "error") data) as [[] | e]; cbn [bind]; [| | done].
  - destruct data; cbn [bind]; done.
  - destruct (py_get data _ _) as [found | e]; cbn [bind]; [| done].
    destruct (as_items _) as [items | e]; cbn [bind]; [| done].
    destruct (normalize _ _) as [cs | e] eqn:Hcs; cbn [bind]; [| done].
    intros [= <- <-]. destruct (normalize_shape items cs Hcs) as [_ Hall].
    unfold slice_to. destruct (decide _); by apply Forall_take.
Qed.

(** X10. What a successful call of the client returns. The debug dict
    holds count_raw, count_eur and the snapshot of the last attempt, with
    0 <= count_eur <= count_raw; for a limit that is not negative the list
    has min(limit, count_eur) records; and every record has the five
    fields title, price_eur, url, condition and source, in that order,
    with a float under price_eur and "ebay_sold_serpapi" under source. *)
Theorem client_result_counts (get : nat -> Answer) (query : pystr) (limit : Z)
    (comps : list value) (dbg : list (pystr * value)) :
  (call get query limit).1 = Ok (comps, dbg) ->
  exists count_raw count_eur last_debug,
    dbg = [(str "count_raw", VInt count_raw);
           (str "count_eur", VInt count_eur);
           (str "serpapi_debug", last_debug)]
    /\ 0 <= count_eur <= count_raw
    /\ (0 <= limit -> Z.of_nat (length comps) = Z.min limit count_eur)
    /\ (limit < 0 ->
        Z.of_nat (length comps) = Z.max 0 (count_eur + limit))
    /\ Forall is_comp comps.
Proof.
  unfold _serpapi_call_sold. cbv zeta. cbn [fst].
  destruct (retry_loop get (enumerate 1 [2; 4; 8]) None).1
    as [[r last_debug] | e]; [| done].
  destruct (decide _); [done |].
  destruct (r_json r) as [data | e]; cbn [bind]; [| done].
  destruct (py_in (str "error") data) as [[] | e]; cbn [bind]; [| | done].
  - destruct data; cbn [bind]; done.
  - destruct (py_get data _ _) as [found | e]; cbn [bind]; [| done].
    destruct (as_items _) as [items | e]; cbn [bind]; [| done].
    destruct (normalize _ _) as [cs | e] eqn:Hcs; cbn [bind]; [| done].
    intros [= <- <-]. destruct (normalize_shape items cs Hcs) as [Hlen Hall].
    eexists _, _, _. split; [done |]. split; [lia |].
    unfold slice_to. split; [| split].
    + intros Hl. rewrite decide_True by done. rewrite length_take. lia.
    + intros Hl. rewrite decide_False by lia. rewrite length_take. lia.
    + destruct (decide _); by apply Forall_take.
Qed.

(** X11. A 200 answer without listings is a result, not an error: when
    the first answer has status 200 and a JSON object for a body, with no
    error field and with organic_results missing, null or empty, the call
    returns the empty list with both counts 0 after one request and no
    sleep. *)
Theorem no_results_is_no_error (get : nat -> Answer) (query : pystr)
    (limit : Z) (r : Response) (d : list (pystr * value)) (last_debug : value) :
  get 1%nat = Responds r ->
  status_code r = 200 ->
  body r = Some (VDict d) ->
  snapshot 1 r = Ok last_debug ->
  dict_get (str "error") d = None ->
  truthy (default (VList []) (dict_get (str "organic_results") d)) = false ->
  call get query limit
  = (Ok ([], [(str "count_raw", VInt 0);
              (str "count_eur", VInt 0);
              (str "serpapi_debug", last_debug)]),
     [Requested]).
Proof.
  intros Hget Hstatus Hbody Hsnap Herr Hempty.
  unfold _serpapi_call_sold. cbv zeta.
  assert (Hloop : retry_loop get (enumerate 1 [2; 4; 8]) None
                  = (Ok (r, last_debug), [Requested])).
  { simpl. rewrite Hget, Hsnap. rewrite decide_False by lia. done. }
  rewrite Hloop. cbn [fst snd]. rewrite decide_False by (intros Hne; lia).
  unfold r_json. rewrite Hbody. cbn [bind].
  unfold py_in. rewrite Herr.
  rewrite bool_decide_false by (by intros [x Hx]).
  cbn [bind]. unfold py_get. cbn [bind]. unfold py_or. rewrite Hempty.
  simpl. unfold slice_to. destruct (decide _); by rewrite take_nil.
Qed.

(** X12. Which listings of the documented shape are kept. A listing with
    a title, a link, a condition and a price object of raw text, extracted
    value and an optional currency code never makes the loop raise; it is
    kept exactly when the extracted value is truthy, passes the currency
    test and is accepted by [float]. A price of 0 is falsy: the listing is
    dropped whatever its currency. *)
Theorem listing_kept_iff (title link condition raw : pystr)
    (extracted_value : value) (currency : option pystr) :
  normalize_item float_of_str
    (listing title link condition (price_object raw extracted_value currency))
  = Ok (if truthy extracted_value && passes_currency_test raw currency
        then match py_float float_of_str extracted_value with
             | Ok price_eur => Some (comparable title link condition price_eur)
             | Raise _ => None
             end
        else None).
Proof.
  destruct (truthy extracted_value) eqn:Htruthy.
  - destruct (py_float float_of_str extracted_value) as [price_eur | e] eqn:Hfloat.
    + by rewrite (normalize_listing float_of_str _ _ _ _ _ _ price_eur).
    + unfold normalize_item, listing.
      change (py_get (VDict _) (str "price") (VDict []))
        with (Ok (VDict (price_object raw extracted_value currency))).
      cbn [bind].
      rewrite (py_or_truthy (VDict (price_object raw extracted_value currency)))
        by done.
      change (py_get (VDict (price_object raw extracted_value currency))
                (str "extracted_value") VNone) with (Ok extracted_value).
      cbn [bind].
      replace (py_get (VDict (price_object raw extracted_value currency))
                 (str "extracted") VNone) with (Ok VNone)
        by (by destruct currency).
      cbn [bind]. rewrite (py_or_truthy extracted_value) by done.
      change (py_get (VDict (price_object raw extracted_value currency))
                (str "raw") (VStr [])) with (Ok (VStr raw)).
      cbn [bind].
      replace (py_get (VDict (price_object raw extracted_value currency))
                 (str "currency") VNone)
        with (Ok (match currency with Some c => VStr c | None => VNone end))
        by (by destruct currency).
      cbn [bind].
      replace (py_upper (py_or (match currency with
                                | Some c => VStr c
                                | None => VNone
                                end) (VStr [])))
        with (Ok (upper (default [] currency)))
        by (by destruct currency as [[| a c] |]).
      cbn [bind]. rewrite Hfloat.
      destruct (is_eur (upper (default [] currency)) (VStr raw)) as [eur | e']
        eqn:Heur.
      * cbn [bind]. destruct (passes_currency_test raw currency);
          destruct eur; by destruct extracted_value.
      * exfalso. unfold is_eur in Heur. destruct (decide _); [done |].
        simpl in Heur. by destruct (substring EURO_LITERAL raw).
  - unfold normalize_item, listing.
    change (py_get (VDict _) (str "price") (VDict []))
      with (Ok (VDict (price_object raw extracted_value currency))).
    cbn [bind].
    rewrite (py_or_truthy (VDict (price_object raw extracted_value currency)))
      by done.
    change (py_get (VDict (price_object raw extracted_value currency))
              (str "extracted_value") VNone) with (Ok extracted_value).
    cbn [bind].
    replace (py_get (VDict (price_object raw extracted_value currency))
               (str "extracted") VNone) with (Ok VNone)
      by (by destruct currency).
    cbn [bind].
    replace (py_or extracted_value VNone) with VNone
      by (unfold py_or; by rewrite Htruthy).
    change (py_get (VDict (price_object raw extracted_value currency))
              (str "raw") (VStr [])) with (Ok (VStr raw)).
    cbn [bind].
    replace (py_get (VDict (price_object raw extracted_value currency))
               (str "currency") VNone)
      with (Ok (match currency with Some c => VStr c | None => VNone end))
      by (by destruct currency).
    cbn [bind].
    replace (py_upper (py_or (match currency with
                              | Some c => VStr c
                              | None => VNone
                              end) (VStr [])))
      with (Ok (upper (default [] currency)))
      by (by destruct currency as [[| a c] |]).
    done.
Qed.

End ClientMore.

(** ** The fingerprint: the text that is hashed *)

(** Two lists cut at the last occurrence of [x] agree part by part. *)
Lemma app_sep_inj {A} (x : A) (a a' b b' : list A) :
  x ∉ b -> x ∉ b' -> a ++ x :: b = a' ++ x :: b' -> a = a' /\ b = b'.
Proof.
  intros Hb Hb'. revert a'.
  induction a as [| y a IH]; intros [| y' a'] H; simpl in H.
  - by injection H as ->.
  - injection H as <- ->. exfalso. apply Hb.
    apply elem_of_app. right. by apply elem_of_cons; left.
  - injection H as Hy Hrest. exfalso. apply Hb'. rewrite <- Hrest.
    apply elem_of_app. right. by apply elem_of_cons; left.
  - injection H as Hy H. destruct (IH a' H) as [Ha Hbb]. by rewrite Hy, Ha, Hbb.
Qed.

(** [str(n)] of an int holds a minus sign and digits only. *)
Lemma str_of_int_no_newline (n : Z) : 10%N ∉ str_of_int n.
Proof.
  assert (Hdigits : forall m, 0 <= m ->
             10%N ∉ digits_of (S (Z.to_nat m)) m []).
  { intros m Hm Hin.
    pose proof (digits_of_digits (S (Z.to_nat m)) m [] Hm (Forall_nil_2 _)) as Hall.
    rewrite Forall_forall in Hall. specialize (Hall _ Hin). lia. }
  unfold str_of_int. destruct (decide (0 <= n)) as [Hn | Hn].
  - by apply Hdigits.
  - intros Hin. apply elem_of_cons in Hin as [Hin | Hin]; [lia |].
    apply (Hdigits (- n)); [lia | done].
Qed.

(** X13. The text that is hashed names the request: two requests have the
    same text exactly when they have the same query and the same limit,
    also when the query itself holds line breaks, since the limit is
    rendered with a sign and digits only. *)
Theorem fingerprint_text_names_request (query1 query2 : pystr)
    (limit1 limit2 : Z) :
  fingerprint_text query1 limit1 = fingerprint_text query2 limit2
  <-> query1 = query2 /\ limit1 = limit2.
Proof.
  split; [| by intros [-> ->]].
  unfold fingerprint_text. intros H.
  apply app_sep_inj in H as [Hq Hl]; try apply str_of_int_no_newline.
  split; [done | by apply str_of_int_inj].
Qed.

(** ** The keyword generator *)

(** [lstrip] cuts a prefix, and what it leaves does not start with white
    space. *)
Lemma lstrip_suffix (s : pystr) : exists p, s = p ++ lstrip s.
Proof.
  induction s as [| c s [p IH]]; [by exists [] |]. simpl.
  destruct (is_space c).
  - exists (c :: p). simpl. by rewrite <- IH.
  - by exists [].
Qed.

Lemma lstrip_head (s : pystr) :
  match lstrip s with
  | [] => True
  | c :: _ => is_space c = false
  end.
Proof.
  induction s as [| c s IH]; [done |]. simpl.
  by destruct (is_space c) eqn:Hc.
Qed.

Lemma lstrip_fixed (s : pystr) :
  match s with
  | [] => True
  | c :: _ => is_space c = false
  end ->
  lstrip s = s.
Proof. destruct s as [| c s]; [done |]. simpl. by intros ->. Qed.

Lemma lstrip_lstrip (s : pystr) : lstrip (lstrip s) = lstrip s.
Proof. apply lstrip_fixed, lstrip_head. Qed.

(** Stripping twice is stripping once. *)
Lemma strip_strip (s : pystr) : strip (strip s) = strip s.
Proof.
  unfold strip.
  set (a := lstrip s). set (b := lstrip (rev a)).
  assert (Hfront : lstrip (rev b) = rev b).
  { apply lstrip_fixed.
    destruct (lstrip_suffix (rev a)) as [p Hp]. fold b in Hp.
    apply (f_equal (@rev N)) in Hp. rewrite rev_involutive, rev_app_distr in Hp.
    pose proof (lstrip_head s) as Ha. fold a in Ha.
    destruct (rev b) as [| c t]; [done |].
    rewrite Hp in Ha. exact Ha. }
  rewrite Hfront, rev_involutive. unfold b at 1. by rewrite lstrip_lstrip.
Qed.

Section Keywords.

Variable HF_SPACE_URL : pystr.
Variable lower : pystr -> pystr.

Abbreviation keywords := (generate_keywords_from_image HF_SPACE_URL lower).


End Keywords.

(** ** The analyze endpoint *)

Lemma is_comp_has_price (c : value) : is_comp c -> has_price c.
Proof.
  intros (title & p & url & condition & ->). eexists _, p. split; [done |].
  by vm_compute.
Qed.

(** The list comprehension over items with a float price. *)
Lemma prices_of_priced (comps : list value) :
  Forall has_price comps ->
  prices_of comps = Ok (VFloat <$> (price_of <$> comps)).
Proof.
  induction 1 as [| c comps (d & q & -> & Hq) _ IH]; [done |].
  cbn [prices_of py_in]. rewrite Hq.
  rewrite bool_decide_true by (by eexists). cbn [bind py_index].
  rewrite Hq. cbn [bind]. rewrite IH. cbn [bind].
  rewrite !fmap_cons. unfold price_of at 2. by rewrite Hq.
Qed.

Lemma py_sum_floats (qs : list Q) :
  forall acc, py_sum (VFloat <$> qs) acc = Ok (fold_left Qplus qs acc).
Proof. induction qs as [| q qs IH]; intros acc; [done |]. simpl. apply IH. Qed.

Lemma py_min_from_floats (qs : list Q) :
  forall b,
    exists lo,
      py_min_from (VFloat b) (VFloat <$> qs) = Ok (VFloat lo)
      /\ lo ∈ b :: qs
      /\ forall q, q ∈ b :: qs -> (lo <= q)%Q.
Proof.
  induction qs as [| q qs IH]; intros b.
  { exists b. split; [done |]. split; [by left |].
    intros q Hq. apply elem_of_cons in Hq as [-> | Hq]; [apply Qle_refl |].
    by apply elem_of_nil in Hq. }
  rewrite fmap_cons. cbn [py_min_from num_of].
  destruct (Qlt_le_dec q b) as [Hlt | Hle].
  - destruct (IH q) as (lo & Hlo & Hin & Hmin). exists lo.
    split; [done |]. split; [by right |].
    intros x Hx. apply elem_of_cons in Hx as [-> | Hx]; [| by apply Hmin].
    apply Qle_trans with q; [apply Hmin; by left | by apply Qlt_le_weak].
  - destruct (IH b) as (lo & Hlo & Hin & Hmin). exists lo.
    split; [done |]. split.
    { apply elem_of_cons in Hin as [-> | Hin]; [by left | by right; right]. }
    intros x Hx. apply elem_of_cons in Hx as [-> | Hx]; [apply Hmin; by left |].
    apply elem_of_cons in Hx as [-> | Hx]; [| apply Hmin; by right].
    apply Qle_trans with b; [apply Hmin; by left | done].
Qed.

Lemma py_max_from_floats (qs : list Q) :
  forall b,
    exists hi,
      py_max_from (VFloat b) (VFloat <$> qs) = Ok (VFloat hi)
      /\ hi ∈ b :: qs
      /\ forall q, q ∈ b :: qs -> (q <= hi)%Q.
Proof.
  induction qs as [| q qs IH]; intros b.
  { exists b. split; [done |]. split; [by left |].
    intros q Hq. apply elem_of_cons in Hq as [-> | Hq]; [apply Qle_refl |].
    by apply elem_of_nil in Hq. }
  rewrite fmap_cons. cbn [py_max_from num_of].
  destruct (Qlt_le_dec b q) as [Hlt | Hle].
  - destruct (IH q) as (hi & Hhi & Hin & Hmax). exists hi.
    split; [done |]. split; [by right |].
    intros x Hx. apply elem_of_cons in Hx as [-> | Hx]; [| by apply Hmax].
    apply Qle_trans with q; [by apply Qlt_le_weak | apply Hmax; by left].
  - destruct (IH b) as (hi & Hhi & Hin & Hmax). exists hi.
    split; [done |]. split.
    { apply elem_of_cons in Hin as [-> | Hin]; [by left | by right; right]. }
    intros x Hx. apply elem_of_cons in Hx as [-> | Hx]; [apply Hmax; by left |].
    apply elem_of_cons in Hx as [-> | Hx]; [| apply Hmax; by right].
    apply Qle_trans with b; [done | apply Hmax; by left].
Qed.

Section Analyze.

Variable SERPAPI_KEY : pystr.
Variable HF_SPACE_URL : pystr.
Variable float_of_str : pystr -> option Q.
Variable lower : pystr -> pystr.
Variable round_2 : Q -> Q.

Abbreviation fetch := (fetch_ebay_sold SERPAPI_KEY float_of_str).
Abbreviation call := (_serpapi_call_sold float_of_str).
Abbreviation keywords := (generate_keywords_from_image HF_SPACE_URL lower).
Abbreviation analyze :=
  (analyze_photo SERPAPI_KEY HF_SPACE_URL float_of_str lower round_2).

Lemma keywords_ok (space : Space) (image_bytes : list Z) (filename : pystr)
    (created : bool) :
  exists text,
    (keywords space image_bytes filename created).1 = Ok text /\ text ≠ [].
Proof.
  unfold generate_keywords_from_image, _get_hf_client.
  destruct (decide (HF_SPACE_URL = [])); [by eexists |].
  cbv zeta.
  destruct created, (client_new space); cbn [fst snd bind]; try (by eexists);
    (destruct (predict space _ _ image_bytes) as [[| | | | caption | |] | e];
     cbn [bind]; try (by eexists);
     destruct (decide (strip caption = [])); by eexists).
Qed.

(** A fetch on a table of priced documents returns a priced document and
    leaves such a table. *)
Lemma fetch_priced (env : Env) (query : pystr) (limit : Z) (w : World)
    (doc : value) :
  priced_cache (cache w) ->
  (fetch env query limit w).1 = Ok doc ->
  priced_doc doc.
Proof.
  intros Hdb H.
  assert (Hhit : forall c u,
             _cache_get (now_get env) query (clamp_limit limit) (cache w)
             = Ok (Some c) ->
             dict_get (str "cache") (rev u) = None ->
             dict_get (str "cache_age_seconds") (rev u) = None ->
             debug_update u (cached_data c) = Ok doc ->
             priced_doc doc).
  { intros c u Hget Hu1 Hu2 Hupd.
    destruct (cache_get_hit_inv _ _ _ _ _ Hget) as (row & data & Hrow & Hpay & Hok).
    destruct (Hdb _ _ Hrow) as (data' & Hpay' & _ & comps & Hitems & Hall).
    rewrite Hpay in Hpay'. injection Hpay' as <-.
    destruct (cache_get_hit (now_get env) _ _ _ _ _ Hrow Hpay Hok)
      as (c' & Hget' & _ & _ & _ & _ & Hkeep & _).
    rewrite Hget in Hget'. injection Hget' as <-.
    destruct (hit_stays_hit _ _ _ _ c u doc Hget Hu1 Hu2 Hupd)
      as (_ & _ & Hrest & _).
    exists comps. split; [| done].
    by rewrite Hrest, Hkeep. }
  destruct (fetch_ok_cases SERPAPI_KEY float_of_str env query limit w doc H)
    as (_ & [(c & Hget & _ & Hupd & _)
            | [(c & lim_dbg & Hget & _ & _ & Hupd & _)
              | [(c & s & d & Hget & _ & _ & _ & Hupd & _)
                | (comps & dbg & _ & _ & Hcall & -> & _)]]]).
  - exact (Hhit c fresh_tags Hget eq_refl eq_refl Hupd).
  - exact (Hhit c (skipped_tags lim_dbg) Hget eq_refl eq_refl Hupd).
  - exact (Hhit c (failed_tags d) Hget eq_refl eq_refl Hupd).
  - exists comps. split; [by vm_compute |].
    apply serpapi_ok_comps in Hcall.
    eapply Forall_impl; [exact Hcall | apply is_comp_has_price].
Qed.

Lemma fetch_keeps_priced (env : Env) (query : pystr) (limit : Z) (w : World) :
  priced_cache (cache w) ->
  priced_cache (cache (fetch env query limit w).2).
Proof.
  intros Hdb.
  destruct (fetch_cache_cases SERPAPI_KEY float_of_str env query limit w)
    as [[-> _] | (comps & dbg & Hcall & _ & ->)]; [done |].
  intros k row Hrow. unfold _cache_set in Hrow. cbv zeta in Hrow.
  apply lookup_insert_Some in Hrow as [[_ <-] | [_ Hrow]];
    [| exact (Hdb k row Hrow)].
  exists (miss_document comps dbg). split; [done |].
  split; [apply miss_document_ok |].
  exists comps. split; [by vm_compute |].
  apply serpapi_ok_comps in Hcall.
  eapply Forall_impl; [exact Hcall | apply is_comp_has_price].
Qed.

(** The decoration of a priced document. *)
Lemma decorate_priced (query : pystr) (doc : value) (comps : list value) :
  item doc (str "items") = Some (VList comps) ->
  Forall has_price comps ->
  exists out,
    decorate round_2 query doc = Ok out
    /\ item out (str "used_query") = Some (VStr query)
    /\ (forall k, k ≠ str "stats" -> k ≠ str "used_query" ->
                  item out k = item doc k)
    /\ (comps = [] -> item out (str "stats") = item doc (str "stats"))
    /\ (comps ≠ [] ->
        exists lo hi,
          item out (str "stats")
          = Some (VDict
                    [(str "average_eur",
                      VFloat (round_2
                                (fold_left Qplus (price_of <$> comps) 0%Q
                                 / inject_Z (Z.of_nat (length comps)))));
                     (str "min_eur", VFloat lo);
                     (str "max_eur", VFloat hi);
                     (str "count", VInt (Z.of_nat (length comps)))])
          /\ lo ∈ price_of <$> comps
          /\ hi ∈ price_of <$> comps
          /\ forall q, q ∈ price_of <$> comps -> (lo <= q <= hi)%Q).
Proof.
  intros Hitems Hall. destruct doc as [| | | | | | d]; try done.
  simpl in Hitems. unfold decorate. cbn [py_get]. rewrite Hitems.
  cbn [default bind]. unfold id. cbn [py_iter bind].
  rewrite (prices_of_priced comps Hall). cbn [bind].
  destruct comps as [| c comps].
  - cbn [fmap list_fmap bind py_setitem]. eexists. split; [done |].
    cbn [item]. split; [apply dict_get_set_eq |].
    split; [intros k _ Hk; by apply dict_get_set_ne |].
    split; [intros _; by apply dict_get_set_ne | done].
  - rewrite !fmap_cons. unfold stats_of.
    rewrite <- !fmap_cons. rewrite py_sum_floats. cbn [bind].
    rewrite !length_fmap. rewrite !fmap_cons. cbn [py_min_of py_max_of].
    destruct (py_min_from_floats (price_of <$> comps) (price_of c))
      as (lo & -> & Hlo & Hmin).
    destruct (py_max_from_floats (price_of <$> comps) (price_of c))
      as (hi & -> & Hhi & Hmax).
    cbn [bind py_setitem]. eexists. split; [done |].
    cbn [item]. split; [apply dict_get_set_eq |].
    split.
    { intros k Hk1 Hk2. by rewrite !dict_get_set_ne. }
    split; [done |]. intros _. exists lo, hi.
    split; [by rewrite dict_get_set_ne, dict_get_set_eq |].
    split; [done |]. split; [done |].
    intros q Hq. split; [by apply Hmin | by apply Hmax].
Qed.


End Analyze.

(** ** The encoding errors of the cache *)

Lemma encodable_ascii (s : pystr) :
  Forall (fun c => (c < 128)%N) s -> encodable s = true.
Proof.
  induction 1 as [| c s Hc _ IH]; [done |].
  unfold encodable in *. cbn [forallb]. rewrite IH.
  unfold encodable_char. replace (c <? 55296)%N with true; [done |].
  symmetry. apply N.ltb_lt. lia.
Qed.

(** The text that is hashed can be encoded exactly when the query can. *)
Lemma encodable_fingerprint (query : pystr) (limit : Z) :
  encodable (fingerprint_text query limit) = encodable query.
Proof.
  unfold encodable, fingerprint_text. rewrite !forallb_app.
  fold (encodable (str_of_int limit)).
  rewrite (encodable_ascii _ (str_of_int_ascii limit)).
  cbn [forallb]. change (encodable_char 10) with true.
  by rewrite !andb_true_r.
Qed.

Lemma cache_get_strict_ok (now : Q) (query : pystr) (limit : Z)
    (db : gmap string Row) :
  encodable query = true ->
  _cache_get_strict now query limit db = _cache_get now query limit db.
Proof.
  intros H. unfold _cache_get_strict, _cache_key_strict.
  by rewrite encodable_fingerprint, H.
Qed.

Lemma cache_get_strict_raises (now : Q) (query : pystr) (limit : Z)
    (db : gmap string Row) :
  encodable query = false ->
  _cache_get_strict now query limit db = Raise (PyError "UnicodeEncodeError").
Proof.
  intros H. unfold _cache_get_strict, _cache_key_strict.
  by rewrite encodable_fingerprint, H.
Qed.

Section StrictFetch.

Variable SERPAPI_KEY : pystr.
Variable float_of_str : pystr -> option Q.

Abbreviation fetch := (fetch_ebay_sold SERPAPI_KEY float_of_str).
Abbreviation fetch_strict := (fetch_ebay_sold_strict SERPAPI_KEY float_of_str).
Abbreviation refresh := (fetch_refresh float_of_str).
Abbreviation refresh_strict := (fetch_refresh_strict float_of_str).
Abbreviation call := (_serpapi_call_sold float_of_str).

(** Past the lookup, the two definitions part only where a document that
    cannot be encoded is to be stored. *)
Lemma refresh_strict_cases (env : Env) (query : pystr) (limit : Z)
    (cached : option Cached) (w : World) :
  encodable query = true ->
  refresh_strict env query limit cached w = refresh env query limit cached w
  \/ exists comps dbg,
       (_limiter_allow (now_lim env) (today env) (limiter w)).1.1 = true
       /\ (call (requests_get env) query limit).1 = Ok (comps, dbg)
       /\ value_encodable (miss_document comps dbg) = false
       /\ refresh_strict env query limit cached w
          = (Raise (PyError "UnicodeEncodeError"),
             {| limiter := (_limiter_allow (now_lim env) (today env)
                              (limiter w)).2;
                cache := cache w;
                events := events w ++ (call (requests_get env) query limit).2 |}).
Proof.
  intros Henc.
  destruct (_limiter_allow (now_lim env) (today env) (limiter w))
    as [[[] lim_dbg] lim'] eqn:Hlim.
  - rewrite (refresh_allowed float_of_str env query limit cached w lim_dbg lim' Hlim).
    unfold fetch_refresh_strict. rewrite Hlim. cbn [fst snd negb]. cbv zeta.
    cbn [limiter cache events].
    destruct (call (requests_get env) query limit).1
      as [[comps dbg] | [s d | name]] eqn:Hcall.
    + unfold _cache_set_strict, _cache_key_strict.
      rewrite encodable_fingerprint, Henc. cbn [bind andb].
      destruct (value_encodable (miss_document comps dbg)) eqn:Hv.
      * by left.
      * right. by exists comps, dbg.
    + left. by destruct cached.
    + by left.
  - left.
    rewrite (refresh_denied float_of_str env query limit cached w lim_dbg lim' Hlim).
    unfold fetch_refresh_strict. rewrite Hlim. cbn [fst snd negb]. cbv zeta.
    by destruct cached.
Qed.

(** The fetch on any str is the fetch of the theorems above, but for the
    two places where the code raises UnicodeEncodeError. *)
Lemma fetch_strict_cases (env : Env) (query : pystr) (limit : Z) (w : World) :
  ((SERPAPI_KEY = [] \/ encodable query = true)
   /\ fetch_strict env query limit w = fetch env query limit w)
  \/ (SERPAPI_KEY ≠ [] /\ encodable query = false
      /\ fetch_strict env query limit w
         = (Raise (PyError "UnicodeEncodeError"), w))
  \/ (SERPAPI_KEY ≠ [] /\ encodable query = true
      /\ exists comps dbg,
           (_limiter_allow (now_lim env) (today env) (limiter w)).1.1 = true
           /\ (call (requests_get env) query (clamp_limit limit)).1
              = Ok (comps, dbg)
           /\ value_encodable (miss_document comps dbg) = false
           /\ fetch_strict env query limit w
              = (Raise (PyError "UnicodeEncodeError"),
                 {| limiter := (_limiter_allow (now_lim env) (today env)
                                  (limiter w)).2;
                    cache := cache w;
                    events := events w
                              ++ (call (requests_get env) query
                                    (clamp_limit limit)).2 |})).
Proof.
  destruct (decide (SERPAPI_KEY = [])) as [Hkey | Hkey].
  { left. split; [by left |].
    rewrite (fetch_missing_key _ _ env query limit w Hkey).
    unfold fetch_ebay_sold_strict. by rewrite decide_True. }
  destruct (encodable query) eqn:Henc.
  2: { right. left. split; [done |]. split; [done |].
       unfold fetch_ebay_sold_strict. rewrite decide_False by done. cbv zeta.
       by rewrite cache_get_strict_raises. }
  assert (Hrefresh : forall cached,
             fetch env query limit w
             = refresh env query (clamp_limit limit) cached w ->
             fetch_strict env query limit w
             = refresh_strict env query (clamp_limit limit) cached w ->
             ((SERPAPI_KEY = [] \/ true = true)
              /\ fetch_strict env query limit w = fetch env query limit w)
             \/ (SERPAPI_KEY ≠ [] /\ true = false
                 /\ fetch_strict env query limit w
                    = (Raise (PyError "UnicodeEncodeError"), w))
             \/ (SERPAPI_KEY ≠ [] /\ true = true
                 /\ exists comps dbg,
                      (_limiter_allow (now_lim env) (today env) (limiter w)).1.1
                      = true
                      /\ (call (requests_get env) query (clamp_limit limit)).1
                         = Ok (comps, dbg)
                      /\ value_encodable (miss_document comps dbg) = false
                      /\ fetch_strict env query limit w
                         = (Raise (PyError "UnicodeEncodeError"),
                            {| limiter := (_limiter_allow (now_lim env)
                                             (today env) (limiter w)).2;
                               cache := cache w;
                               events := events w
                                         ++ (call (requests_get env) query
                                               (clamp_limit limit)).2 |}))).
  { intros cached Hf Hs.
    destruct (refresh_strict_cases env query (clamp_limit limit) cached w Henc)
      as [Heq | (comps & dbg & Ha & Hc & Hv & Hr)].
    - left. split; [by right |]. by rewrite Hs, Hf.
    - right. right. split; [done |]. split; [done |].
      exists comps, dbg. split; [done |]. split; [done |]. split; [done |].
      by rewrite Hs. }
  assert (Hstrict : fetch_strict env query limit w
                    = match _cache_get (now_get env) query (clamp_limit limit)
                              (cache w) with
                      | Raise e => (Raise e, w)
                      | Ok (Some c) =>
                          if decide (cached_age c <= TTL_SECONDS_DEFAULT) then
                            (debug_update fresh_tags (cached_data c), w)
                          else refresh_strict env query (clamp_limit limit)
                                 (Some c) w
                      | Ok None =>
                          refresh_strict env query (clamp_limit limit) None w
                      end).
  { unfold fetch_ebay_sold_strict. rewrite decide_False by done. cbv zeta.
    by rewrite (cache_get_strict_ok _ _ _ _ Henc). }
  destruct (_cache_get (now_get env) query (clamp_limit limit) (cache w))
    as [[c |] | e] eqn:Hget.
  - destruct (decide (cached_age c <= TTL_SECONDS_DEFAULT)) as [Hage | Hage].
    + left. split; [by right |].
      by rewrite Hstrict, (fetch_fresh _ _ env query limit w c Hkey Hget Hage).
    + apply (Hrefresh (Some c)); [| done].
      apply (fetch_stale _ _ env query limit w c Hkey Hget). lia.
  - apply (Hrefresh None); [| done].
    apply (fetch_absent _ _ env query limit w Hkey Hget).
  - left. split; [by right |]. rewrite Hstrict.
    unfold fetch_ebay_sold. rewrite decide_False by done. cbv zeta.
    by rewrite Hget.
Qed.

(** X6. The exceptions of a fetch that are no HTTP errors, with the
    encoding errors of the cache modelled ([fetch_ebay_sold_strict]). The
    fetch keeps a table of readable rows readable. Where it returns or
    raises an HTTP error it does what [fetch_ebay_sold] does, and the two
    agree altogether when the query and the document of a successful call
    hold no surrogate. On a table of readable rows another exception is
    one of three: the UnicodeEncodeError of the key of a query with a
    surrogate, raised before the limiter is asked and with nothing
    changed; the exception the client raised after the limiter's permit;
    or the UnicodeEncodeError of storing the document of a successful call
    that holds a surrogate, raised with the permit spent, the requests
    made and nothing stored. *)
Theorem strict_fetch_exceptions (env : Env) (query : pystr) (limit : Z)
    (w : World) :
  cache_readable (cache w) ->
  let r := fetch_strict env query limit w in
  cache_readable (cache r.2)
  /\ ((forall name, r.1 ≠ Raise (PyError name)) ->
      r = fetch env query limit w)
  /\ (encodable query = true ->
      (forall comps dbg,
         (call (requests_get env) query (clamp_limit limit)).1
         = Ok (comps, dbg) ->
         value_encodable (miss_document comps dbg) = true) ->
      r = fetch env query limit w)
  /\ (forall name,
        r.1 = Raise (PyError name) ->
        SERPAPI_KEY ≠ []
        /\ ((encodable query = false
             /\ name = "UnicodeEncodeError"%string
             /\ r.2 = w)
            \/ (encodable query = true
                /\ (_limiter_allow (now_lim env) (today env) (limiter w)).1.1
                   = true
                /\ (call (requests_get env) query (clamp_limit limit)).1
                   = Raise (PyError name)
                /\ cache r.2 = cache w)
            \/ (encodable query = true
                /\ (_limiter_allow (now_lim env) (today env) (limiter w)).1.1
                   = true
                /\ (exists comps dbg,
                      (call (requests_get env) query (clamp_limit limit)).1
                      = Ok (comps, dbg)
                      /\ value_encodable (miss_document comps dbg) = false)
                /\ name = "UnicodeEncodeError"%string
                /\ cache r.2 = cache w
                /\ limiter r.2
                   = (_limiter_allow (now_lim env) (today env) (limiter w)).2
                /\ events r.2
                   = events w
                     ++ (call (requests_get env) query (clamp_limit limit)).2))).
Proof.
  intros Hok r. subst r.
  destruct (fetch_strict_cases env query limit w)
    as [[Hwhen ->] | [(Hkey & Henc & ->) | (Hkey & Henc & comps & dbg & Ha & Hc & Hv & ->)]].
  - split; [by apply fetch_keeps_readable |]. split; [done |]. split; [done |].
    intros name H.
    destruct (fetch_other_exception SERPAPI_KEY float_of_str env query limit w
                name H)
      as (Hkey & [(row & data & Hrow & Hpay & Hbad) | [Ha Hc]]).
    + exfalso. destruct (Hok _ _ Hrow) as (data' & Hpay' & Hok').
      rewrite Hpay in Hpay'. injection Hpay' as <-. done.
    + split; [done |]. right. left.
      destruct Hwhen as [Hnone | Henc]; [done |].
      split; [done |]. split; [done |]. split; [done |].
      destruct (fetch_cache_cases SERPAPI_KEY float_of_str env query limit w)
        as [[Hsame _] | (comps & dbg & _ & Hdoc & _)]; [done |].
      rewrite H in Hdoc. discriminate Hdoc.
  - cbn [fst snd]. split; [done |].
    split; [intros Hno; by destruct (Hno "UnicodeEncodeError"%string) |].
    split; [intros Henc'; by rewrite Henc in Henc' |].
    intros name [= <-]. split; [done |]. by left.
  - cbn [fst snd cache limiter events]. split; [done |].
    split; [intros Hno; by destruct (Hno "UnicodeEncodeError"%string) |].
    split.
    { intros _ Hall. rewrite (Hall comps dbg Hc) in Hv. discriminate Hv. }
    intros name [= <-]. split; [done |]. right. right.
    split; [done |]. split; [done |]. split; [by exists comps, dbg |]. done.
Qed.

End StrictFetch.

(** ** The further properties on the running example *)

Lemma example_world_readable : cache_readable (cache example_world).
Proof.
  intros k row Hrow.
  destruct (proj1 (lookup_singleton_Some (_cache_key example_query 10) k
                     example_row row) Hrow) as [_ <-].
  exists example_payload. split; [reflexivity | exact I].
Qed.

Lemma example_world_priced : priced_cache (cache example_world).
Proof.
  intros k row Hrow.
  destruct (proj1 (lookup_singleton_Some (_cache_key example_query 10) k
                     example_row row) Hrow) as [_ <-].
  exists example_payload. split; [reflexivity |]. split; [exact I |].
  eexists. split; [vm_compute; reflexivity |].
  repeat constructor. eexists _, _. split; [reflexivity | vm_compute; reflexivity].
Qed.

(** The entry of the example read at second 2000. *)
Lemma fetched_document_is_tagged_witness :
  exists doc,
    (fetch_ebay_sold example_key no_text_price (example_env 2000 unreachable)
       example_query 10 example_world).1 = Ok doc
    /\ (debug_item doc (str "cache") = Some (VStr (str "HIT"))
        \/ debug_item doc (str "cache") = Some (VStr (str "MISS"))).
Proof.
  eexists. split; [vm_compute; reflexivity |].
  match goal with
  | |- debug_item ?d _ = _ \/ _ =>
      destruct (fetched_document_is_tagged example_key no_text_price
                  (example_env 2000 unreachable) example_query 10
                  example_world d) as [[H _] | [H _]]
  end; [vm_compute; reflexivity | left; exact H | right; exact H].
Defined.

(** A fetch with limit 300 on the empty table, and the fetch with limit
    200 that follows 10000 seconds later with the remote side out of
    reach. *)
Lemma miss_then_hit_witness :
  exists doc2,
    fetch_ebay_sold example_key no_text_price (example_env 110000 unreachable)
      example_query 200
      (fetch_ebay_sold example_key no_text_price (example_env 100000 healthy)
         example_query 300 world_init).2
    = (Ok doc2,
       (fetch_ebay_sold example_key no_text_price (example_env 100000 healthy)
          example_query 300 world_init).2)
    /\ debug_item doc2 (str "cache") = Some (VStr (str "HIT")).
Proof.
  edestruct (miss_then_hit example_key no_text_price
               (example_env 100000 healthy) (example_env 110000 unreachable)
               example_query 300 200 world_init)
    as (doc2 & H1 & _ & H2 & _);
    [vm_compute; reflexivity | vm_compute; reflexivity | vm_compute; reflexivity
    | vm_compute; discriminate |].
  exists doc2. split; [exact H1 | exact H2].
Defined.

(** The torn row of the example and a remote side that answers. *)
Lemma unreadable_row_counts_as_absent_witness :
  (fetch_ebay_sold example_key no_text_price (example_env 2000 healthy)
     example_query 10 torn_world).1
  = (fetch_ebay_sold example_key no_text_price (example_env 2000 healthy)
       example_query 10
       {| limiter := limiter torn_world;
          cache := delete (_cache_key example_query (clamp_limit 10))
                     (cache torn_world);
          events := events torn_world |}).1.
Proof.
  destruct (unreadable_row_counts_as_absent example_key no_text_price
              (example_env 2000 healthy) example_query 10 torn_world
              torn_row (str "{")) as (H & _);
    [vm_compute; reflexivity | reflexivity | exact H].
Defined.

(** Two hundred fetches of a day, two seconds apart, against a remote side
    that is down. *)
Lemma requests_per_day_witness :
  Z.of_nat (requests_made
              (events (fetch_all example_key no_text_price
                         (failing_calls example_day example_query 10 1 200)
                         world_init).2))
  <= Z.of_nat (requests_made (events world_init)) + 600.
Proof.
  destruct (requests_per_day example_key no_text_price example_day
              (failing_calls example_day example_query 10 1 200) world_init)
    as (_ & _ & H).
  - unfold failing_calls. apply Forall_fmap, Forall_true. intros i. reflexivity.
  - vm_compute. split; discriminate.
  - exact H.
Defined.

(** A call 0.75 s after a permitted one is refused with the hint 2, the
    call a quarter of a second later is refused too, and the call two
    seconds after the first refusal is permitted. *)
Lemma retry_after_suffices_witness :
  (_limiter_allow (11 # 4) example_day
     (limiter_run [(1 # 1, example_day)]
        (_limiter_allow (3 # 4) example_day
           {| _last_call_ts := 0; _day_key := Some example_day;
              _day_calls := 5 |}).2).2).1.1
  = true.
Proof.
  destruct (retry_after_suffices (3 # 4) (11 # 4) example_day
              {| _last_call_ts := 0; _day_key := Some example_day;
                 _day_calls := 5 |}
              2 [(1 # 1, example_day)]) as (H & _);
    [vm_compute; reflexivity | repeat constructor
    | vm_compute; repeat constructor | vm_compute; discriminate | exact H].
Defined.

(** A permit at second 2.5, a refused call at second 3 and a permit at
    second 5. *)
Lemma permits_are_spaced_witness :
  (inject_Z MIN_SECONDS_BETWEEN_CALLS <= 5 - (5 # 2))%Q.
Proof.
  destruct (permits_are_spaced (5 # 2) 5 example_day
              {| _last_call_ts := 0; _day_key := Some example_day;
                 _day_calls := 5 |}
              [(3 # 1, example_day)]) as (H & _);
    [vm_compute; reflexivity | repeat constructor | vm_compute; reflexivity
    | exact H].
Defined.

(** The one listing of the healthy remote side. *)
Lemma client_result_counts_witness :
  exists comps dbg,
    (_serpapi_call_sold no_text_price healthy example_query 10).1
    = Ok (comps, dbg)
    /\ Forall is_comp comps.
Proof.
  edestruct (client_result_counts no_text_price healthy example_query 10)
    as (n & m & ld & _ & _ & _ & _ & Hall); [vm_compute; reflexivity |].
  eexists _, _. split; [vm_compute; reflexivity | exact Hall].
Defined.

(** A 200 answer with an empty JSON object. *)
Lemma no_results_is_no_error_witness :
  exists dbg,
    _serpapi_call_sold no_text_price nothing_sold example_query 10
    = (Ok ([], dbg), [Requested]).
Proof.
  eexists.
  eapply (no_results_is_no_error no_text_price nothing_sold example_query 10);
    [reflexivity | reflexivity | reflexivity | vm_compute; reflexivity
    | reflexivity | reflexivity].
Defined.


(** A query with a lone surrogate against the entry of the example. *)
Lemma strict_fetch_exceptions_witness :
  cache_readable
    (cache (fetch_ebay_sold_strict example_key no_text_price
              (example_env 2000 healthy) [55357%N] 10 example_world).2)
  /\ example_key ≠ [].
Proof.
  destruct (strict_fetch_exceptions example_key no_text_price
              (example_env 2000 healthy) [55357%N] 10 example_world
              example_world_readable) as (Hread & _ & _ & Hraise).
  split; [exact Hread |].
  destruct (Hraise "UnicodeEncodeError"%string) as [Hkey _];
    [vm_compute; reflexivity | exact Hkey].
Defined.

(** The two encoding errors on the example: a query with a lone surrogate
    fails before anything is done, and a listing with one in its title
    fails after the call, with the permit spent, the request made and
    nothing stored, where [fetch_ebay_sold] stores the document. *)
Example strict_fetch_on_surrogates :
  fetch_ebay_sold_strict example_key no_text_price (example_env 2000 healthy)
    [55357%N] 10 example_world
  = (Raise (PyError "UnicodeEncodeError"), example_world)
  /\ (fetch_ebay_sold_strict example_key no_text_price
        (example_env 100000 surrogate_title) example_query 10 world_init).1
     = Raise (PyError "UnicodeEncodeError")
  /\ cache (fetch_ebay_sold_strict example_key no_text_price
              (example_env 100000 surrogate_title) example_query 10
              world_init).2
     = ∅
  /\ _day_calls (limiter (fetch_ebay_sold_strict example_key no_text_price
                            (example_env 100000 surrogate_title)
                            example_query 10 world_init).2)
     = 1
  /\ events (fetch_ebay_sold_strict example_key no_text_price
               (example_env 100000 surrogate_title) example_query 10
               world_init).2
     = [Requested]
  /\ cache (fetch_ebay_sold example_key no_text_price
              (example_env 100000 surrogate_title) example_query 10
              world_init).2
       !! _cache_key example_query (clamp_limit 10)
     ≠ None.
Proof.
  split; [vm_compute; reflexivity |]. split; [vm_compute; reflexivity |].
  split; [vm_compute; reflexivity |]. split; [vm_compute; reflexivity |].
  split; [vm_compute; reflexivity |]. by vm_compute.
Qed.
